(** * excel_converter.py: a shallow embedding of [convert_excel]

    The program reads a shipment work book, cuts the table at the first
    blank item number, copies the preserved columns under their Chinese
    names, joins the matched columns from a reference work book through the
    material code, adds the fixed columns, reorders to the fifteen customs
    columns and writes the result.

    Python values are embedded as follows.
    - [str] is a sequence of Unicode code points ([list N]); literals are
      written through [py], which decodes the UTF-8 bytes of a Rocq string.
    - A cell is a missing value, a text or an integer.  Floating point
      cells are outside the model.
    - A pandas [DataFrame] is an index (row labels) with an ordered list of
      labelled columns; a [Series] is an index with its values.  The pandas
      operations the program calls are embedded by what they do to such
      tables: selection by label, assignment with alignment on the index,
      selection of rows by a mask, [reindex], [map] through a dict.  Where
      pandas stops on a repeated label, so does the model.
    - A sheet is its rows of cells.  What [pd.read_excel] does with them
      is modelled as far as the program depends on it: the reader fills
      the rows up to the widest, the rows named by [skiprows] are dropped,
      the next row gives the labels and the rest the data.  How pandas
      names the labels and what it makes of the cells of a column (missing
      values, numbers, the type of the column) are parameters of the
      loader, [infer_header] and [convert_cell].
    - [print], exceptions and the file system are explicit: the in-memory
      steps run in a writer/error monad [W], and [convert_excel] threads the
      file system around them.  Whether the output file can be written and
      whether it can be opened are given by the machine, [platform].
    - The configuration of lines 11-42 is a record the conversion takes as
      an argument; the column mapping is the built-in one.  [load_config]
      is the import of lines 38-42 that fills the record from config.py. *)

From Stdlib Require Import ZArith NArith Ascii String.
From stdpp Require Import base numbers list option strings gmap pretty.

Set Default Proof Using "Type".
Local Open Scope N_scope.

(** ** Python strings *)

Abbreviation pystr := (list N).

Fixpoint utf8_decode (bs : list N) : list N :=
  match bs with
  | [] => []
  | b0 :: r0 =>
    if b0 <? 128 then b0 :: utf8_decode r0
    else match r0 with
    | [] => []
    | b1 :: r1 =>
      if b0 <? 224 then ((b0 mod 32) * 64 + b1 mod 64) :: utf8_decode r1
      else match r1 with
      | [] => []
      | b2 :: r2 =>
        if b0 <? 240
        then ((b0 mod 16) * 4096 + (b1 mod 64) * 64 + b2 mod 64) :: utf8_decode r2
        else match r2 with
        | [] => []
        | b3 :: r3 =>
          ((b0 mod 8) * 262144 + (b1 mod 64) * 4096 + (b2 mod 64) * 64 + b3 mod 64)
            :: utf8_decode r3
        end
      end
    end
  end.

(** [py "NO."] is the Python literal ['NO.']. *)
Definition py (s : string) : pystr :=
  utf8_decode (N_of_ascii <$> list_ascii_of_string s).

(** [str.isspace] for one code point (the white space of CPython's Unicode
    data base). *)
Definition isspace (c : N) : bool :=
  ((9 <=? c) && (c <=? 13)) || ((28 <=? c) && (c <=? 32))
  || (c =? 133) || (c =? 160) || (c =? 5760)
  || ((8192 <=? c) && (c <=? 8202))
  || (c =? 8232) || (c =? 8233) || (c =? 8239) || (c =? 8287) || (c =? 12288).

Fixpoint lstrip (s : pystr) : pystr :=
  match s with
  | [] => []
  | c :: s' => if isspace c then lstrip s' else s
  end.

Definition rstrip (s : pystr) : pystr := reverse (lstrip (reverse s)).

(** [s.strip()] *)
Definition strip (s : pystr) : pystr := rstrip (lstrip s).

(** ** Column labels *)

(** A column label is a str or, where pandas took it from a heading cell
    that holds a number, that number; [.str.strip()] leaves the missing
    label for a label that is not a str.  All labels are kept as
    sequences: a str is its code points, which lie below 0x110000, and a
    label that is not a str is a sequence that starts outside that range,
    so that it differs from every str, in particular from every key the
    source writes. *)
Definition is_text (label : pystr) : bool := forallb (fun c => c <? 1114112) label.

Definition nan_label : pystr := [1114112].

Definition int_label (z : Z) : pystr :=
  [1114113; Z.abs_N z; if (z <? 0)%Z then 1 else 0].

(** The label after [.str.strip()]. *)
Definition strip_label (label : pystr) : pystr :=
  if is_text label then strip label else nan_label.

Local Close Scope N_scope.

(** ** Cells *)

Inductive cell : Type :=
| NaN
| Str (s : pystr)
| Int (z : Z).

#[global] Instance cell_eq_dec : EqDecision cell.
Proof. solve_decision. Defined.

Definition cell_code (c : cell) : unit + (pystr + Z) :=
  match c with NaN => inl () | Str s => inr (inl s) | Int z => inr (inr z) end.

Definition cell_decode (x : unit + (pystr + Z)) : cell :=
  match x with inl _ => NaN | inr (inl s) => Str s | inr (inr z) => Int z end.

#[global] Instance cell_countable : Countable cell :=
  inj_countable' cell_code cell_decode
    (fun c => match c with NaN => eq_refl | Str _ => eq_refl | Int _ => eq_refl end).

(** [str(v)] for a cell value. *)
Definition py_str (c : cell) : pystr :=
  match c with
  | NaN => py "nan"
  | Str s => s
  | Int z => py (pretty z)
  end.

(** ** Exceptions, results and printed messages *)

Inductive exn : Type :=
| KeyError | AttributeError | ValueError | FileNotFoundError | OSError.

Inductive result (A : Type) : Type :=
| Ok (a : A)
| Raise (e : exn).
Arguments Ok {A} a.
Arguments Raise {A} e.

#[global] Instance result_ret : MRet result := fun A a => Ok a.
#[global] Instance result_bind : MBind result := fun A B f r =>
  match r with Ok a => f a | Raise e => Raise e end.
#[global] Instance result_fmap : FMap result := fun A B f r =>
  match r with Ok a => Ok (f a) | Raise e => Raise e end.

(** One constructor per [print] call of [convert_excel], carrying the
    values the f-string interpolates. *)
Inductive message : Type :=
| ReadingInput (input_file : pystr)
| InputColumns (cols : list pystr)
| ReadingReference (reference_file : pystr)
| WarnColumnNotFound (col : pystr)
| LookingForCode (material_code_eng code_column : pystr)
| FoundCodeColumns
| CreatingMapping (col : pystr)
| WarnMatchedNotFound (col : pystr)
| ApplyingMapping (col : pystr)
| WarnCodeColumnMissing
| InputColumnsAvailable (cols : list pystr)
| ReferenceColumnsAvailable (cols : list pystr)
| AddingFixed (col : pystr) (value : cell)
| Reordering
| ColumnOrder (cols : list pystr)
| FinalColumns (cols : list pystr)
| Saving (output_file : pystr)
| Completed.

(** The in-memory steps print and may raise: a computation yields what it
    printed and either a value or the exception that stopped it. *)
Record W (A : Type) : Type := mkW { log_of : list message; value_of : result A }.
Arguments mkW {A} log_of value_of.
Arguments log_of {A} w.
Arguments value_of {A} w.

#[global] Instance W_ret : MRet W := fun A a => mkW [] (Ok a).
#[global] Instance W_bind : MBind W := fun A B f m =>
  match value_of m with
  | Ok a => mkW (log_of m ++ log_of (f a)) (value_of (f a))
  | Raise e => mkW (log_of m) (Raise e)
  end.

Definition print (m : message) : W unit := mkW [m] (Ok tt).
Definition lift {A} (r : result A) : W A := mkW [] r.

(** [for x in xs: state = body(x, state)] *)
Fixpoint for_each {A S} (xs : list A) (body : A -> S -> W S) (s : S) : W S :=
  match xs with
  | [] => mret s
  | x :: rest => s' ← body x s; for_each rest body s'
  end.

(** ** pandas tables *)

Record Series (L : Type) : Type := mkSeries { s_index : list L; s_values : list cell }.
Arguments mkSeries {L} s_index s_values.
Arguments s_index {L} s.
Arguments s_values {L} s.

(** [items] lists the columns in order, each with its label. *)
Record DataFrame (L : Type) : Type :=
  mkDataFrame { index : list L; items : list (pystr * list cell) }.
Arguments mkDataFrame {L} index items.
Arguments index {L} d.
Arguments items {L} d.

(** What [df[key]] evaluates to: a Series when the label occurs once, a
    frame of the columns bearing it when it is repeated. *)
Inductive selection (L : Type) : Type :=
| OneSeries (s : Series L)
| SubFrame (d : DataFrame L).
Arguments OneSeries {L} s.
Arguments SubFrame {L} d.

Section frames.
Context {L : Type} `{EqDecision L}.

(** [pd.DataFrame()] *)
Definition new_frame : DataFrame L := mkDataFrame [] [].

Definition columns (df : DataFrame L) : list pystr := (items df).*1.
Definition len (df : DataFrame L) : nat := length (index df).

(** [df.empty]: some axis has length zero. *)
Definition empty_frame (df : DataFrame L) : bool :=
  bool_decide (len df = 0) || bool_decide (length (columns df) = 0).

(** First column with the given label. *)
Definition lookup_items (its : list (pystr * list cell)) (key : pystr)
    : option (list cell) :=
  match list_find (fun p => p.1 = key) its with
  | Some (_, p) => Some p.2
  | None => None
  end.

Definition column (df : DataFrame L) (key : pystr) : option (list cell) :=
  lookup_items (items df) key.

(** Every column is as long as the index. *)
Definition well_formed (df : DataFrame L) : Prop :=
  Forall (fun p => length p.2 = len df) (items df).

Definition getitem (df : DataFrame L) (key : pystr) : result (selection L) :=
  match filter (fun p => p.1 = key) (items df) with
  | [] => Raise KeyError
  | [p] => Ok (OneSeries (mkSeries (index df) p.2))
  | sub => Ok (SubFrame (mkDataFrame (index df) sub))
  end.

(** Series-only attributes ([.str], [.map]) and the assignment of a
    several-column frame to one label fail on a [SubFrame]. *)
Definition as_series (sel : selection L) : result (Series L) :=
  match sel with
  | OneSeries s => Ok s
  | SubFrame _ => Raise AttributeError
  end.

(** Value of the Series at a row label, missing when the label is absent. *)
Definition at_label (s_idx : list L) (vals : list cell) (l : L) : cell :=
  match list_find (fun x => x = l) s_idx with
  | Some (i, _) => default NaN (vals !! i)
  | None => NaN
  end.

(** Alignment of assigned values on the frame's index. *)
Definition reindex_like (idx : list L) (s_idx : list L) (vals : list cell) : list cell :=
  if decide (s_idx = idx) then vals else at_label s_idx vals <$> idx.

Definition set_column (df : DataFrame L) (key : pystr) (vals : list cell) : DataFrame L :=
  if decide (key ∈ columns df)
  then mkDataFrame (index df)
         ((fun p => if decide (p.1 = key) then (key, vals) else p) <$> items df)
  else mkDataFrame (index df) (items df ++ [(key, vals)]).

(** A frame without rows takes the index of the first non-empty list-like
    assigned to it. *)
Definition ensure_valid_index (df : DataFrame L) (s : Series L) : DataFrame L :=
  if bool_decide (len df = 0) && bool_decide (0 < length (s_values s))
  then mkDataFrame (s_index s)
         ((fun p => (p.1, replicate (length (s_index s)) NaN)) <$> items df)
  else df.

(** [df[key] = series] *)
Definition setitem_series (df : DataFrame L) (key : pystr) (s : Series L) : DataFrame L :=
  let df' := ensure_valid_index df s in
  set_column df' key (reindex_like (index df') (s_index s) (s_values s)).

(** [df[key] = value] for a scalar. *)
Definition setitem_scalar (df : DataFrame L) (key : pystr) (value : cell) : DataFrame L :=
  set_column df key (replicate (len df) value).

Fixpoint replace_columns (key : pystr) (news : list (list cell))
    (its : list (pystr * list cell)) : list (pystr * list cell) :=
  match its with
  | [] => []
  | p :: rest =>
    if decide (p.1 = key) then
      match news with
      | v :: news' => (p.1, v) :: replace_columns key news' rest
      | [] => p :: replace_columns key [] rest
      end
    else p :: replace_columns key news rest
  end.

(** [df[key] = frame]: the columns labelled [key] are replaced one for
    one; any other shape is a [ValueError]. *)
Definition setitem_frame (df : DataFrame L) (key : pystr) (d : DataFrame L)
    : result (DataFrame L) :=
  if decide (length (filter (fun p => p.1 = key) (items df)) = length (items d)
             ∧ key ∈ columns df)
  then Ok (mkDataFrame (index df)
             (replace_columns key
                ((fun p => reindex_like (index df) (index d) p.2) <$> items d)
                (items df)))
  else Raise ValueError.

Definition setitem (df : DataFrame L) (key : pystr) (sel : selection L)
    : result (DataFrame L) :=
  match sel with
  | OneSeries s => Ok (setitem_series df key s)
  | SubFrame d => setitem_frame df key d
  end.

(** Rows kept by a boolean mask. *)
Fixpoint mask_filter {A} (mask : list bool) (xs : list A) : list A :=
  match mask, xs with
  | b :: mask', x :: xs' => if b then x :: mask_filter mask' xs' else mask_filter mask' xs'
  | _, _ => []
  end.

(** [df[mask]] *)
Definition select_rows (mask : list bool) (df : DataFrame L) : DataFrame L :=
  mkDataFrame (mask_filter mask (index df))
    ((fun p => (p.1, mask_filter mask p.2)) <$> items df).

(** [df.drop(index=l)] *)
Definition drop_index (df : DataFrame L) (l : L) : result (DataFrame L) :=
  if decide (l ∈ index df)
  then Ok (select_rows ((fun x => bool_decide (x ≠ l)) <$> index df) df)
  else Raise KeyError.

(** [df.reset_index(drop=True)] *)
Definition reset_index (df : DataFrame L) : DataFrame nat :=
  mkDataFrame (seq 0 (len df)) (items df).

(** The frame with every label stripped. *)
Definition strip_labels (df : DataFrame L) : DataFrame L :=
  mkDataFrame (index df) ((fun p => (strip_label p.1, p.2)) <$> items df).

(** [df.columns = df.columns.str.strip()]: pandas refuses the [.str]
    accessor with [AttributeError] when there are labels and none of them
    is a str. *)
Definition columns_str_strip (df : DataFrame L) : result (DataFrame L) :=
  if existsb is_text (columns df) || bool_decide (columns df = [])
  then Ok (strip_labels df)
  else Raise AttributeError.

(** [df.iloc[:k]] *)
Definition iloc_upto (k : nat) (df : DataFrame L) : DataFrame L :=
  mkDataFrame (take k (index df)) ((fun p => (p.1, take k p.2)) <$> items df).

(** [df.reindex(columns=order)] *)
Definition reindex_columns (df : DataFrame L) (order : list pystr) : DataFrame L :=
  mkDataFrame (index df)
    ((fun c => (c, default (replicate (len df) NaN) (column df c))) <$> order).

(** [s.astype(str)] *)
Definition astype_str (s : Series L) : Series L :=
  mkSeries (s_index s) ((fun v => Str (py_str v)) <$> s_values s).

(** [s.str.strip()]: entries that are not text become missing. *)
Definition str_strip (s : Series L) : Series L :=
  mkSeries (s_index s)
    ((fun v => match v with Str t => Str (strip t) | _ => NaN end) <$> s_values s).

(** [s.isin(values)] *)
Definition isin (s : Series L) (values : list cell) : list bool :=
  (fun v => bool_decide (v ∈ values)) <$> s_values s.

(** [s.map(d)] for a dict [d]. *)
Definition series_map (s : Series L) (d : gmap cell cell) : Series L :=
  mkSeries (s_index s) ((fun v => default NaN (d !! v)) <$> s_values s).

(** [df.set_index(key)]: the key column becomes the row labels. *)
Definition set_index (df : DataFrame L) (key : pystr) : result (DataFrame cell) :=
  sel ← getitem df key;
  s ← as_series sel;
  Ok (mkDataFrame (s_values s) (filter (fun p => p.1 ≠ key) (items df))).

End frames.

(** [s.to_dict()]: later entries overwrite earlier ones with the same key. *)
Definition to_dict (s : Series cell) : gmap cell cell :=
  foldl (fun d kv => <[kv.1 := kv.2]> d) ∅ (zip (s_index s) (s_values s)).

(** ** Work books and the file system *)

(** A sheet is its grid of cells, row by row; a work book is its sheets in
    order; the file system maps a path to the work book stored there. *)
Abbreviation Sheet := (list (list cell)).
Abbreviation Workbook := (list (list (list cell))).
Abbreviation filesystem := (gmap (list N) (list (list (list cell)))).

Definition column_of_rows (j : nat) (rows : list (list cell)) : list cell :=
  (fun r => default NaN (r !! j)) <$> rows.

(** A cell without content: nothing, or the empty text. *)
Definition is_empty_cell (c : cell) : bool :=
  match c with
  | NaN => true
  | Str s => bool_decide (s = [])
  | Int _ => false
  end.

Fixpoint drop_while {A} (p : A -> bool) (xs : list A) : list A :=
  match xs with
  | [] => []
  | x :: rest => if p x then drop_while p rest else xs
  end.

(** A row without its trailing empty cells. *)
Definition trim_row (row : list cell) : list cell :=
  reverse (drop_while is_empty_cell (reverse row)).

(** The rows of a sheet as pandas' reader hands them to its parser
    ([get_sheet_data]): trailing empty cells and trailing empty rows are
    cut off, then every row is filled up with empty cells to the width of
    the widest row of the sheet. *)
Definition sheet_data (sheet : list (list cell)) : list (list cell) :=
  let rows := reverse (drop_while (fun row => bool_decide (row = []))
                         (reverse (trim_row <$> sheet))) in
  let width := max_list (length <$> rows) in
  (fun row => row ++ replicate (width - length row) NaN) <$> rows.

(** [pd.ExcelFile(path)]; its [sheet_names] has one entry per sheet. *)
Definition ExcelFile (fs : filesystem) (path : pystr) : result Workbook :=
  match fs !! path with
  | Some wb => Ok wb
  | None => Raise FileNotFoundError
  end.

(** [df.to_excel(path, index=False)]: one sheet, the labels in the first
    row, then the rows without their index. *)
Definition to_excel (df : DataFrame nat) : Workbook :=
  [ (Str <$> columns df)
      :: ((fun i => (fun p => default NaN (p.2 !! i)) <$> items df) <$> seq 0 (len df)) ].

(** ** Configuration (lines 11-42) *)

Record config : Type := mkConfig {
  PRESERVED_COLUMNS : list pystr;
  MATERIAL_CODE_COLUMN : pystr;
  MATCHED_COLUMNS : list pystr;
  (** a dict: its items in insertion order *)
  FIXED_COLUMNS : list (pystr * cell)
}.

Definition default_config : config := {|
  PRESERVED_COLUMNS := [py "Column1"; py "Column2"; py "Column3"];
  MATERIAL_CODE_COLUMN := py "MaterialCode";
  MATCHED_COLUMNS := [py "MatchedColumn1"; py "MatchedColumn2"];
  FIXED_COLUMNS := [(py "FixedColumn1", Str (py "Fixed Value 1"));
                    (py "FixedColumn2", Str (py "Fixed Value 2"))]
|}.

(** What a [config.py] on the import path defines of the four names. *)
Record config_module : Type := mkModule {
  mod_PRESERVED_COLUMNS : option (list pystr);
  mod_MATERIAL_CODE_COLUMN : option pystr;
  mod_MATCHED_COLUMNS : option (list pystr);
  mod_FIXED_COLUMNS : option (list (pystr * cell))
}.

(** Line 39: [from config import A, B, C, D] binds the names one after the
    other and raises [ImportError] at the first one the module lacks; the
    names bound before it stay bound.  Yields the globals after the
    statement and whether it raised. *)
Definition import_from (m : config_module) (globals : config) : config * bool :=
  match mod_PRESERVED_COLUMNS m with
  | None => (globals, true)
  | Some preserved =>
    let globals := mkConfig preserved (MATERIAL_CODE_COLUMN globals)
                     (MATCHED_COLUMNS globals) (FIXED_COLUMNS globals) in
    match mod_MATERIAL_CODE_COLUMN m with
    | None => (globals, true)
    | Some code =>
      let globals := mkConfig (PRESERVED_COLUMNS globals) code
                       (MATCHED_COLUMNS globals) (FIXED_COLUMNS globals) in
      match mod_MATCHED_COLUMNS m with
      | None => (globals, true)
      | Some matched =>
        let globals := mkConfig (PRESERVED_COLUMNS globals) (MATERIAL_CODE_COLUMN globals)
                         matched (FIXED_COLUMNS globals) in
        match mod_FIXED_COLUMNS m with
        | None => (globals, true)
        | Some fixed =>
          (mkConfig (PRESERVED_COLUMNS globals) (MATERIAL_CODE_COLUMN globals)
             (MATCHED_COLUMNS globals) fixed, false)
        end
      end
    end
  end.

(** Lines 38-42: the configuration in effect once the module is loaded,
    and whether the warning of line 42 is printed.  The import of a module
    that is not there raises [ImportError] as well. *)
Definition load_config (config_py : option config_module) : config * bool :=
  match config_py with
  | None => (default_config, true)
  | Some m => import_from m default_config
  end.

(** Never taken from config.py. *)
Definition COLUMN_MAPPING : list (pystr * pystr) :=
  [ (py "NO.", py "项号");
    (py "DESCRIPTION", py "品名");
    (py "Model NO.", py "型号");
    (py "Qty", py "数量");
    (py "Unit", py "单位");
    (py "Amount", py "总价");
    (py "net weight", py "净重");
    (py "Unit Price", py "单价") ].

(** Lines 119-135. *)
Definition column_order : list pystr :=
  [ py "项号"; py "商品编号"; py "品名"; py "型号"; py "申报要素";
    py "数量"; py "单位"; py "单价"; py "总价"; py "币制";
    py "原产国（地区）"; py "最终目的国（地区）"; py "境内货源地";
    py "征免"; py "净重" ].

(** How a write at a path ends: the file is written; or the path cannot
    be opened for writing (a missing folder, no permission, the file open
    in another program) and nothing changes; or the write fails after the
    file has been opened, and no work book is left at the path. *)
Inductive write_outcome : Type :=
| Written
| Refused (e : exn)
| Aborted (e : exn).

(** What the run sees of the machine: [os.name], whether [os.startfile]
    raises for a path, and how a write at a path ends. *)
Record platform : Type := mkPlatform {
  os_name : pystr;
  startfile : pystr -> result unit;
  write_file : pystr -> write_outcome
}.

(** ** convert_excel *)

Section convert_excel.

(** The labels pandas derives from a heading row (naming of blank
    headings, renaming of repeated ones) are the parser's business; the
    loader takes them as given. *)
Variable infer_header : list cell -> list pystr.

(** So is what the parser makes of the cells of a column (text that pandas
    reads as missing, such as [NA], numbers held as text, the common type
    of a column): [convert_cell col i] is cell [i] of the column parsed
    from the raw cells [col].  The conversion sees the whole column, also
    the row the loader discards afterwards.  A column that pandas types as
    floating point has no counterpart among the cells of the model. *)
Variable convert_cell : list cell -> nat -> cell.

Definition parse_column (col : list cell) : list cell :=
  convert_cell col <$> seq 0 (length col).

(** The parser on the rows left after skipping: the first is the heading,
    the rest are the data rows, labelled from zero. *)
Definition parse_sheet (rows : list (list cell)) : DataFrame nat :=
  match rows with
  | [] => new_frame
  | header :: body =>
    mkDataFrame (seq 0 (length body))
      (imap (fun j name => (name, parse_column (column_of_rows j body)))
         (infer_header header))
  end.

(** [pd.read_excel(path, skiprows=k, sheet_name=i)] *)
Definition read_excel (fs : filesystem) (path : pystr) (skiprows sheet_name : nat)
    : result (DataFrame nat) :=
  wb ← ExcelFile fs path;
  match wb !! sheet_name with
  | Some sheet => Ok (parse_sheet (drop skiprows (sheet_data sheet)))
  | None => Raise ValueError
  end.

(** Lines 65-87. *)
Definition load_input (fs : filesystem) (input_file : pystr) : W (DataFrame nat) :=
  print (ReadingInput input_file);;
  excel_file ← lift (ExcelFile fs input_file);
  let sheet_count := length excel_file in
  let sheet_to_read := if bool_decide (2 ≤ sheet_count) then 1 else 0 in
  df_input ← lift (read_excel fs input_file 9 sheet_to_read);
  df_input ← (if bool_decide (0 < len df_input)
              then lift (reset_index <$> drop_index df_input 0)
              else mret df_input);
  if negb (empty_frame df_input) && bool_decide (0 < length (columns df_input))
  then lift (columns_str_strip df_input)
  else mret df_input.

Definition holds_text (vals : list cell) : bool :=
  existsb (fun v => match v with Str _ => true | _ => false end) vals.

(** [df.select_dtypes(include=['object']).columns]: the columns holding
    text. *)
Definition object_columns (df : DataFrame nat) : list pystr :=
  (filter (fun p => holds_text p.2 = true) (items df)).*1.

(** Lines 91-92: every object column is assigned to itself. *)
Fixpoint reassign_columns (names : list pystr) (df_input : DataFrame nat)
    : result (DataFrame nat) :=
  match names with
  | [] => Ok df_input
  | column :: rest =>
    sel ← getitem df_input column;
    df_input ← setitem df_input column sel;
    reassign_columns rest df_input
  end.

(** Lines 96-105. *)
Definition truncate_rows (df_input : DataFrame nat) : result (DataFrame nat) :=
  if decide (py "NO." ∈ columns df_input) then
    sel ← getitem df_input (py "NO.");
    no ← as_series sel;
    let df_input := setitem_series df_input (py "NO.") (str_strip (astype_str no)) in
    sel ← getitem df_input (py "NO.");
    no ← as_series sel;
    let empty_no_index :=
      index (select_rows (isin no [Str (py "nan"); Str (py ""); Str (py " ")]) df_input) in
    match empty_no_index with
    | first_empty_index :: _ => Ok (iloc_upto first_empty_index df_input)
    | [] => Ok df_input
    end
  else Ok df_input.

(** Lines 64-112: the input table as the later steps see it, and the
    reference table. *)
Definition read_tables (fs : filesystem) (input_file reference_file : pystr)
    : W (DataFrame nat * DataFrame nat) :=
  df_input ← load_input fs input_file;
  df_input ← lift (reassign_columns (object_columns df_input) df_input);
  df_input ← lift (truncate_rows df_input);
  print (InputColumns (columns df_input));;
  print (ReadingReference reference_file);;
  df_reference ← lift (read_excel fs reference_file 0 0);
  mret (df_input, df_reference).

Variable cfg : config.

(** Lines 140-146, the inner [for ... else] for one preserved name. *)
Fixpoint copy_preserved (df_input : DataFrame nat) (col : pystr)
    (mapping : list (pystr * pystr)) (df_output : DataFrame nat) : W (DataFrame nat) :=
  match mapping with
  | [] => print (WarnColumnNotFound col);; mret df_output
  | (eng_col, cn_col) :: rest =>
    if decide (eng_col ∈ columns df_input ∧ cn_col = col) then
      sel ← lift (getitem df_input eng_col);
      lift (setitem df_output col sel)
    else copy_preserved df_input col rest df_output
  end.

(** Line 150: [next((k for k, v in ... if v == target), default)]. *)
Definition next_key (mapping : list (pystr * pystr)) (target default : pystr) : pystr :=
  match list_find (fun kv => kv.2 = target) mapping with
  | Some (_, kv) => kv.1
  | None => default
  end.

Definition material_code_eng : pystr :=
  next_key COLUMN_MAPPING (MATERIAL_CODE_COLUMN cfg) (MATERIAL_CODE_COLUMN cfg).

(** Lines 160-165, one round. *)
Definition add_mapping (df_reference : DataFrame nat) (col : pystr)
    (reference_dict : gmap (list N) (gmap cell cell)) : W (gmap (list N) (gmap cell cell)) :=
  if decide (col ∈ columns df_reference) then
    print (CreatingMapping col);;
    keyed ← lift (set_index df_reference (MATERIAL_CODE_COLUMN cfg));
    sel ← lift (getitem keyed col);
    s ← lift (as_series sel);
    mret (<[col := to_dict s]> reference_dict)
  else
    print (WarnMatchedNotFound col);; mret reference_dict.

(** Lines 168-172, one round. *)
Definition apply_mapping (df_input : DataFrame nat)
    (reference_dict : gmap (list N) (gmap cell cell)) (col : pystr)
    (df_output : DataFrame nat) : W (DataFrame nat) :=
  match reference_dict !! col with
  | Some d =>
    print (ApplyingMapping col);;
    sel ← lift (getitem df_input material_code_eng);
    codes ← lift (as_series sel);
    mret (setitem_series df_output col (series_map codes d))
  | None => mret df_output
  end.

(** Lines 150-177. *)
Definition match_columns (df_input df_reference df_output : DataFrame nat)
    : W (DataFrame nat) :=
  print (LookingForCode material_code_eng (MATERIAL_CODE_COLUMN cfg));;
  if decide (material_code_eng ∈ columns df_input
             ∧ MATERIAL_CODE_COLUMN cfg ∈ columns df_reference) then
    print FoundCodeColumns;;
    reference_dict ← for_each (MATCHED_COLUMNS cfg) (add_mapping df_reference) ∅;
    for_each (MATCHED_COLUMNS cfg) (apply_mapping df_input reference_dict) df_output
  else
    print WarnCodeColumnMissing;;
    print (InputColumnsAvailable (columns df_input));;
    print (ReferenceColumnsAvailable (columns df_reference));;
    mret df_output.

(** Lines 180-182, one round. *)
Definition add_fixed (item : pystr * cell) (df_output : DataFrame nat) : W (DataFrame nat) :=
  print (AddingFixed item.1 item.2);;
  mret (setitem_scalar df_output item.1 item.2).

(** Lines 115-177: the accumulated table once the preserved columns are
    copied and the matched columns joined. *)
Definition project_and_match (df_input df_reference : DataFrame nat)
    : W (DataFrame nat) :=
  let df_output := new_frame in
  df_output ← for_each (PRESERVED_COLUMNS cfg)
                (fun col => copy_preserved df_input col COLUMN_MAPPING) df_output;
  match_columns df_input df_reference df_output.

(** Lines 115-182: the accumulated table before it is reordered. *)
Definition accumulate (df_input df_reference : DataFrame nat) : W (DataFrame nat) :=
  df_output ← project_and_match df_input df_reference;
  for_each (FIXED_COLUMNS cfg) add_fixed df_output.

(** Lines 115-188. *)
Definition build_output (df_input df_reference : DataFrame nat) : W (DataFrame nat) :=
  df_output ← accumulate df_input df_reference;
  print Reordering;;
  print (ColumnOrder column_order);;
  let df_output := reindex_columns df_output column_order in
  print (FinalColumns (columns df_output));;
  mret df_output.

(** What a call leaves behind: the printed lines, the file system, and the
    returned table or the exception that ended the call. *)
Record run : Type := mkRun {
  stdout : list message;
  files : filesystem;
  returned : result (DataFrame nat)
}.

Variable pf : platform.

Definition convert_excel (input_file reference_file output_file : pystr)
    (fs : filesystem) : run :=
  let tables := '(df_input, df_reference) ← read_tables fs input_file reference_file;
                build_output df_input df_reference in
  match value_of tables with
  | Raise e => mkRun (log_of tables) fs (Raise e)
  | Ok df_output =>
    (* lines 191-192 *)
    let saving := log_of tables ++ [Saving output_file] in
    match write_file pf output_file with
    | Refused e => mkRun saving fs (Raise e)
    | Aborted e => mkRun saving (delete output_file fs) (Raise e)
    | Written =>
      let fs' := <[output_file := to_excel df_output]> fs in
      (* line 193 *)
      let out := saving ++ [Completed] in
      (* lines 197-201 *)
      if decide (os_name pf = py "nt") then
        match startfile pf output_file with
        | Ok _ => mkRun out fs' (Ok df_output)
        | Raise e => mkRun out fs' (Raise e)
        end
      else mkRun out fs' (Ok df_output)
    end
  end.

End convert_excel.

(** ** Vocabulary of the statements *)

(** The accumulated table either has the rows of the input table or is
    still the empty frame it started as. *)
Definition aligned (df_input df_output : DataFrame nat) : Prop :=
  NoDup (columns df_output)
  /\ (index df_output = index df_input \/ df_output = new_frame).

(** The first entry of a mapping whose source label is a column of the
    input and whose target label is [col]. *)
Definition find_source (cols : list pystr) (col : pystr)
    (mapping : list (pystr * pystr)) : option pystr :=
  match list_find (fun kv => kv.1 ∈ cols /\ kv.2 = col) mapping with
  | Some (_, kv) => Some kv.1
  | None => None
  end.

(** The source column that maps to a target label, if there is one. *)
Definition source_column (df_input : DataFrame nat) (col : pystr) : option pystr :=
  find_source (columns df_input) col COLUMN_MAPPING.

(** The cells the join writes for a matched column, given the dictionaries
    it has built. *)
Definition looked_up (cfg : config) (df_input : DataFrame nat)
    (rd : gmap (list N) (gmap cell cell)) (c : pystr) : option (list cell) :=
  match rd !! c, column df_input (material_code_eng cfg) with
  | Some d, Some codes => Some ((fun v => default NaN (d !! v)) <$> codes)
  | _, _ => None
  end.

(** The label is borne by exactly one column. *)
Definition occurs_once {L} (df : DataFrame L) (key : pystr) : Prop :=
  length (filter (fun p => p.1 = key) (items df)) = 1.

(** The item number of a row as the filter reads it: converted to text
    and trimmed. *)
Definition item_text (v : cell) : pystr := strip (py_str v).

(** Empty, white space only, or the text of a missing value. *)
Definition is_blank (t : pystr) : bool :=
  bool_decide (t = []) || forallb isspace t || bool_decide (t = py "nan").

(** Position of the first blank item number. *)
Definition first_blank (texts : list pystr) : option nat :=
  fst <$> list_find (fun t => is_blank t = true) texts.

(** Neither of the two lines printed around the write. *)
Definition before_saving (m : message) : Prop :=
  m ≠ Completed /\ forall output_file, m ≠ Saving output_file.

(** The value config.py gives a name, when the module is there and
    defines it. *)
Definition module_attr {A} (config_py : option config_module)
    (name : config_module -> option A) : option A :=
  m ← config_py; name m.

(** The table parsed from a heading row and the rows below it, once its
    first row is dropped and the rest renumbered: every parsed column loses
    its first cell. *)
Definition parsed_below (infer_header : list cell -> list pystr)
    (convert_cell : list cell -> nat -> cell)
    (header : list cell) (body : list (list cell)) : DataFrame nat :=
  mkDataFrame (seq 0 (length (drop 1 body)))
    (imap (fun j name =>
             (name, drop 1 (parse_column convert_cell (column_of_rows j body))))
       (infer_header header)).

(** ** Sample data *)

(** Headings as pandas labels them when no two are equal: a text or a
    number is its own label, a blank heading is named after its
    position. *)
Definition simple_header (header : list cell) : list pystr :=
  imap (fun k c =>
          match c with
          | Str s => if bool_decide (s = [])
                     then py "Unnamed: " ++ py (pretty (Z.of_nat k)) else s
          | Int z => int_label z
          | NaN => py "Unnamed: " ++ py (pretty (Z.of_nat k))
          end) header.

(** Columns whose cells pandas leaves as they are: an empty cell is
    missing. *)
Definition plain_cell (col : list cell) (i : nat) : cell :=
  match col !! i with
  | Some c => if is_empty_cell c then NaN else c
  | None => NaN
  end.

Definition sample_input : DataFrame nat :=
  mkDataFrame [0; 1; 2]
    [ (py "NO.", [Str (py "1"); Str (py "2"); Str (py "3")]);
      (py "DESCRIPTION", [Str (py "bolt"); Str (py "nut"); Str (py "pin")]);
      (py "MaterialCode", [Str (py "A1"); Str (py "B2"); Str (py "A1")]) ].

Definition sample_reference : DataFrame nat :=
  mkDataFrame [0; 1; 2]
    [ (py "MaterialCode", [Str (py "A1"); Str (py "C3"); Str (py "A1")]);
      (py "商品编号", [Int 100; Int 300; Int 111]) ].

Definition sample_config : config := {|
  PRESERVED_COLUMNS := [py "项号"; py "品名"; py "Column1"];
  MATERIAL_CODE_COLUMN := py "MaterialCode";
  MATCHED_COLUMNS := [py "商品编号"; py "申报要素"];
  FIXED_COLUMNS := [(py "币制", Str (py "USD")); (py "品名", Str (py "GOODS"))]
|}.

(** What [sample_config] accumulates from the sample tables, and the table
    it produces. *)
Definition sample_accumulated : DataFrame nat :=
  mkDataFrame [0; 1; 2]
    [ (py "项号", [Str (py "1"); Str (py "2"); Str (py "3")]);
      (py "品名", replicate 3 (Str (py "GOODS")));
      (py "商品编号", [Int 111; NaN; Int 111]);
      (py "币制", replicate 3 (Str (py "USD"))) ].

Definition sample_output : DataFrame nat :=
  reindex_columns sample_accumulated column_order.

Definition sample_joined : DataFrame nat :=
  mkDataFrame [0; 1; 2]
    [ (py "项号", [Str (py "1"); Str (py "2"); Str (py "3")]);
      (py "品名", [Str (py "bolt"); Str (py "nut"); Str (py "pin")]);
      (py "商品编号", [Int 111; NaN; Int 111]) ].

(** A table whose third item number is blank. *)
Definition listed_input : DataFrame nat :=
  mkDataFrame [0; 1; 2; 3]
    [ (py "NO.", [Int 1; Str (py " 2 "); Str (py "  "); Int 4]);
      (py "DESCRIPTION",
       [Str (py "bolt"); Str (py "nut"); Str (py "total"); Str (py "note")]) ].

(** The sheet the loader reads: the second when there are two or more,
    otherwise the first. *)
Definition selected_sheet (wb : Workbook) : option Sheet :=
  match wb with
  | [] => None
  | [first] => Some first
  | _ :: second :: _ => Some second
  end.

(** Nine banner rows, a heading row with padded labels, and one further
    row. *)
Definition short_sheet : Sheet :=
  replicate 9 [Str (py "banner")]
  ++ [ [Str (py " NO. "); Str (py "Qty ")];
       [Str (py "(no)"); Str (py "(pcs)")] ].

Definition short_files : filesystem :=
  {[ py "in.xlsx" := [short_sheet] ]}.

(** The same with two data rows after the discarded one. *)
Definition long_sheet : Sheet :=
  short_sheet ++ [ [Int 1; Int 10]; [Int 2; Int 20] ].

Definition sample_files : filesystem :=
  {[ py "in.xlsx" := [short_sheet; long_sheet] ]}.

(** Machines: one that is not Windows, a Windows machine that opens the
    file, one on which [os.startfile] raises, and one on which the output
    path cannot be opened for writing. *)
Definition posix : platform :=
  mkPlatform (py "posix") (fun _ => Raise OSError) (fun _ => Written).
Definition windows : platform :=
  mkPlatform (py "nt") (fun _ => Ok tt) (fun _ => Written).
Definition windows_unassociated : platform :=
  mkPlatform (py "nt") (fun _ => Raise OSError) (fun _ => Written).
Definition windows_locked : platform :=
  mkPlatform (py "nt") (fun _ => Ok tt) (fun _ => Refused OSError).

(** An input whose first material code carries a trailing blank, and the
    reference work book that lists the codes without it. *)
Definition padded_files : filesystem :=
  {[ py "in.xlsx" :=
       [ replicate 9 [Str (py "banner")]
         ++ [ [Str (py "NO."); Str (py "MaterialCode")];
              [Str (py "(no)"); Str (py "(code)")];
              [Int 1; Str (py "A1 ")];
              [Int 2; Str (py "B2")] ] ];
     py "ref.xlsx" :=
       [ [ [Str (py "MaterialCode"); Str (py "商品编号")];
           [Str (py "A1"); Int 100];
           [Str (py "B2"); Int 200] ] ] ]}.

(** The tables read from [padded_files] and the table built from them
    under [sample_config]. *)
Definition padded_input : DataFrame nat :=
  mkDataFrame [0; 1]
    [ (py "NO.", [Str (py "1"); Str (py "2")]);
      (py "MaterialCode", [Str (py "A1 "); Str (py "B2")]) ].

Definition padded_reference : DataFrame nat :=
  mkDataFrame [0; 1]
    [ (py "MaterialCode", [Str (py "A1"); Str (py "B2")]);
      (py "商品编号", [Int 100; Int 200]) ].

Definition padded_output : DataFrame nat :=
  reindex_columns
    (mkDataFrame [0; 1]
       [ (py "项号", [Str (py "1"); Str (py "2")]);
         (py "商品编号", [NaN; Int 200]);
         (py "币制", replicate 2 (Str (py "USD")));
         (py "品名", replicate 2 (Str (py "GOODS"))) ])
    column_order.

(** A sheet with two headings that differ only in their padding. *)
Definition merging_files : filesystem :=
  {[ py "in.xlsx" :=
       [ replicate 9 [Str (py "banner")]
         ++ [ [Str (py " NO."); Str (py "NO. "); Str (py "Qty")];
              [Str (py "(no)"); Str (py "(no)"); Str (py "(pcs)")];
              [Int 1; Int 1; Int 10] ] ] ]}.

(** [sample_config] with the code column listed among the matched
    columns. *)
Definition self_matched_config : config := {|
  PRESERVED_COLUMNS := PRESERVED_COLUMNS sample_config;
  MATERIAL_CODE_COLUMN := py "MaterialCode";
  MATCHED_COLUMNS := [py "商品编号"; py "MaterialCode"];
  FIXED_COLUMNS := FIXED_COLUMNS sample_config
|}.

(** A configuration whose code column is the item number. *)
Definition item_keyed_config : config := {|
  PRESERVED_COLUMNS := [py "项号"; py "品名"];
  MATERIAL_CODE_COLUMN := py "项号";
  MATCHED_COLUMNS := [py "商品编号"];
  FIXED_COLUMNS := []
|}.

(** A reference table keyed by item numbers held as numbers. *)
Definition numbered_reference : DataFrame nat :=
  mkDataFrame [0; 1]
    [ (py "项号", [Int 1; Int 2]);
      (py "商品编号", [Int 100; Int 200]) ].

(** A [config.py] that defines the preserved and the fixed columns
    only. *)
Definition partial_module : config_module := {|
  mod_PRESERVED_COLUMNS := Some [py "项号"; py "品名"];
  mod_MATERIAL_CODE_COLUMN := None;
  mod_MATCHED_COLUMNS := None;
  mod_FIXED_COLUMNS := Some [(py "币制", Str (py "USD"))]
|}.

(** A reference table that has the first built-in matched column. *)
Definition placeholder_reference : DataFrame nat :=
  mkDataFrame [0; 1]
    [ (py "MaterialCode", [Str (py "A1"); Str (py "B2")]);
      (py "MatchedColumn1", [Int 7; Int 8]) ].

(** Three rows of canonical columns, every cell null. *)
Definition blank_output : DataFrame nat :=
  mkDataFrame [0; 1; 2] ((fun c => (c, replicate 3 NaN)) <$> column_order).

(** A sheet whose first banner row is wider than its heading row. *)
Definition wide_banner_files : filesystem :=
  {[ py "in.xlsx" :=
       [ [ [Str (py "banner"); NaN; Str (py "remark")] ]
         ++ replicate 8 [Str (py "banner")]
         ++ [ [Str (py "NO."); Str (py "Qty")];
              [Str (py "(no)"); Str (py "(pcs)")];
              [Int 1; Int 10] ] ] ]}.

(** A sheet whose headings are all numbers. *)
Definition yearly_files : filesystem :=
  {[ py "in.xlsx" :=
       [ replicate 9 [Str (py "banner")]
         ++ [ [Int 2023; Int 2024];
              [Str (py "(pcs)"); Str (py "(pcs)")];
              [Int 1; Int 10] ] ] ]}.

(** * Properties *)

(** Decidable closed goals are settled by evaluation. *)
Ltac by_compute :=
  lazymatch goal with
  | |- ?P => apply (bool_decide_unpack P); vm_compute; exact I
  end.

(** ** The monad *)

Lemma value_bind {A B} (m : W A) (f : A -> W B) :
  value_of (m ≫= f) = value_of m ≫= fun a => value_of (f a).
Proof. unfold mbind, W_bind, result_bind. by destruct (value_of m). Qed.

Lemma bind_Ok {A B} (m : W A) (f : A -> W B) b :
  value_of (m ≫= f) = Ok b -> exists a, value_of m = Ok a /\ value_of (f a) = Ok b.
Proof. rewrite value_bind. unfold mbind, result_bind. destruct (value_of m); naive_solver. Qed.

Lemma log_bind {A B} (m : W A) (f : A -> W B) a :
  value_of m = Ok a -> log_of (m ≫= f) = log_of m ++ log_of (f a).
Proof. intros Hm. unfold mbind, W_bind. by rewrite Hm. Qed.

Lemma result_Ok_bind {A B} (a : A) (f : A -> result B) : Ok a ≫= f = f a.
Proof. done. Qed.

Lemma result_bind_Ok {A B} (r : result A) (f : A -> result B) b :
  r ≫= f = Ok b -> exists a, r = Ok a /\ f a = Ok b.
Proof. destruct r; naive_solver. Qed.

Lemma for_each_cons {A S} (x : A) xs (body : A -> S -> W S) s :
  for_each (x :: xs) body s = body x s ≫= fun s' => for_each xs body s'.
Proof. done. Qed.

Lemma for_each_cons_Ok {A S} (x : A) xs (body : A -> S -> W S) s out :
  value_of (for_each (x :: xs) body s) = Ok out ->
  exists s', value_of (body x s) = Ok s' /\ value_of (for_each xs body s') = Ok out.
Proof. simpl. apply bind_Ok. Qed.

(** ** Columns of a frame *)

Section frame_facts.
Context {L : Type} `{EqDecision L}.
Implicit Types (df : DataFrame L) (its : list (pystr * list cell)) (key c : pystr).

Lemma lookup_items_cons k v its c :
  lookup_items ((k, v) :: its) c = if decide (k = c) then Some v else lookup_items its c.
Proof.
  unfold lookup_items. simpl. case_decide; first done.
  by destruct (list_find _ its) as [[??]|].
Qed.

Lemma lookup_items_app its1 its2 c :
  lookup_items (its1 ++ its2) c
  = match lookup_items its1 c with Some v => Some v | None => lookup_items its2 c end.
Proof.
  induction its1 as [|[k v] its1 IH]; first done.
  rewrite <- app_comm_cons, !lookup_items_cons. by case_decide.
Qed.

Lemma lookup_items_Some its c v : lookup_items its c = Some v -> (c, v) ∈ its.
Proof.
  induction its as [|[k w] its IH]; first done.
  rewrite lookup_items_cons. case_decide; intros; simplify_eq; [left | right; auto].
Qed.

Lemma lookup_items_None its c : lookup_items its c = None <-> c ∉ its.*1.
Proof.
  induction its as [|[k w] its IH]; simpl.
  - split; [intros _; apply not_elem_of_nil | done].
  - rewrite lookup_items_cons, not_elem_of_cons. case_decide; intuition congruence.
Qed.

Lemma column_is_Some df c : is_Some (column df c) <-> c ∈ columns df.
Proof.
  unfold column, columns. destruct (lookup_items (items df) c) eqn:E.
  - split; [intros _ | by eauto]. apply lookup_items_Some in E.
    apply list_elem_of_fmap. by exists (c, l).
  - apply lookup_items_None in E. split; [by intros [??] | done].
Qed.

Lemma column_None df c : column df c = None <-> c ∉ columns df.
Proof. apply lookup_items_None. Qed.

Lemma column_new_frame c : column (@new_frame L) c = None.
Proof. done. Qed.

Lemma lookup_items_replace its key vals c :
  lookup_items ((fun p => if decide (p.1 = key) then (key, vals) else p) <$> its) c
  = if decide (c = key)
    then match lookup_items its key with Some _ => Some vals | None => None end
    else lookup_items its c.
Proof.
  induction its as [|[k w] its IH]; csimpl.
  - by case_decide.
  - destruct (decide (k = key)); rewrite !lookup_items_cons, IH;
      repeat case_decide; by simplify_eq.
Qed.

Lemma column_set_column df key vals c :
  column (set_column df key vals) c = if decide (c = key) then Some vals else column df c.
Proof.
  unfold set_column, column. case_decide as Hin; simpl.
  - rewrite lookup_items_replace. case_decide; [subst|done].
    apply column_is_Some in Hin as [v Hv]. unfold column in Hv. by rewrite Hv.
  - rewrite lookup_items_app. apply lookup_items_None in Hin.
    case_decide; subst.
    + rewrite Hin, lookup_items_cons. by case_decide.
    + destruct (lookup_items (items df) c); first done.
      rewrite lookup_items_cons. by case_decide.
Qed.

Lemma index_set_column df key vals : index (set_column df key vals) = index df.
Proof. unfold set_column. by case_decide. Qed.

Lemma columns_set_column df key vals :
  columns (set_column df key vals)
  = if decide (key ∈ columns df) then columns df else columns df ++ [key].
Proof.
  unfold set_column, columns. case_decide; simpl.
  - rewrite <- list_fmap_compose. apply list_fmap_ext. intros i [k w] _. simpl.
    by case_decide.
  - by rewrite fmap_app.
Qed.

Lemma column_reindex_columns df order c :
  column (reindex_columns df order) c
  = if decide (c ∈ order)
    then Some (default (replicate (len df) NaN) (column df c))
    else None.
Proof.
  unfold reindex_columns, column at 1. simpl.
  induction order as [|k order IH]; csimpl.
  - done.
  - rewrite lookup_items_cons, IH.
    destruct (decide (k = c)) as [->|Hkc].
    + by rewrite decide_True by left.
    + destruct (decide (c ∈ order)) as [Hin|Hin].
      * by rewrite decide_True by (by right).
      * rewrite decide_False; [done|]. rewrite not_elem_of_cons. by split.
Qed.

Lemma columns_reindex_columns df order : columns (reindex_columns df order) = order.
Proof.
  unfold reindex_columns, columns. simpl. rewrite <- list_fmap_compose.
  rewrite <- (list_fmap_id order) at 2. by apply list_fmap_ext.
Qed.

(** *** Selection by label *)

Lemma filter_label_head its key p rest :
  filter (fun q => q.1 = key) its = p :: rest -> p.1 = key /\ lookup_items its key = Some p.2.
Proof.
  induction its as [|[k w] its IH]; first done.
  rewrite filter_cons, lookup_items_cons. simpl. case_decide.
  - intros; simplify_eq. done.
  - auto.
Qed.

Lemma getitem_series df key s :
  getitem df key ≫= as_series = Ok s ->
  s_index s = index df /\ column df key = Some (s_values s).
Proof.
  unfold getitem, column.
  destruct (filter _ (items df)) as [|p [|q rest]] eqn:E; simpl; try done.
  intros; simplify_eq. simpl. split; first done.
  by apply filter_label_head in E as [_ ?].
Qed.

Lemma getitem_Ok_elem df key sel : getitem df key = Ok sel -> key ∈ columns df.
Proof.
  unfold getitem. destruct (filter _ (items df)) as [|p rest] eqn:E; first done.
  intros _. apply filter_label_head in E as [_ E].
  apply column_is_Some. unfold column. by rewrite E.
Qed.

Lemma filter_label_absent its key :
  key ∉ its.*1 -> filter (fun q => q.1 = key) its = [].
Proof.
  induction its as [|[k w] its IH]; first done.
  csimpl. rewrite not_elem_of_cons. intros [??].
  rewrite filter_cons_False by (simpl; congruence). auto.
Qed.

Lemma filter_label_NoDup its key :
  NoDup its.*1 -> key ∈ its.*1 ->
  exists v, filter (fun q => q.1 = key) its = [(key, v)].
Proof.
  induction its as [|[k w] its IH]; simpl; intros Hnd Hin.
  - by apply elem_of_nil in Hin.
  - apply NoDup_cons in Hnd as [Hk Hnd]. rewrite filter_cons. simpl.
    case_decide as Hd.
    + subst. exists w. f_equal. by apply filter_label_absent.
    + apply elem_of_cons in Hin as [?|Hin]; [congruence | auto].
Qed.

Lemma getitem_unique df key :
  NoDup (columns df) -> key ∈ columns df ->
  exists vals, column df key = Some vals
               /\ getitem df key = Ok (OneSeries (mkSeries (index df) vals)).
Proof.
  intros Hnd Hin. destruct (filter_label_NoDup _ _ Hnd Hin) as [v Hv].
  exists v. unfold getitem. rewrite Hv. split; [|done].
  by apply filter_label_head in Hv as [_ ?].
Qed.

End frame_facts.

(** ** Assignments to the accumulated table *)

Lemma well_formed_column {L} (df : DataFrame L) c vals :
  well_formed df -> column df c = Some vals -> length vals = len df.
Proof.
  intros Hwf Hc. apply lookup_items_Some in Hc.
  unfold well_formed in Hwf. rewrite Forall_forall in Hwf. by apply Hwf in Hc.
Qed.

Lemma NoDup_set_column {L} (df : DataFrame L) key vals :
  NoDup (columns df) -> NoDup (columns (set_column df key vals)).
Proof.
  intros Hnd. rewrite columns_set_column. case_decide; [done|].
  apply NoDup_app. split_and!; [done | | apply NoDup_singleton].
  intros x Hx Hk. apply list_elem_of_singleton in Hk. by subst.
Qed.

Lemma setitem_series_aligned df_input s col vals :
  aligned df_input s -> length vals = len df_input ->
  aligned df_input (setitem_series s col (mkSeries (index df_input) vals))
  /\ index (setitem_series s col (mkSeries (index df_input) vals)) = index df_input
  /\ forall c, column (setitem_series s col (mkSeries (index df_input) vals)) c
              = if decide (c = col) then Some vals else column s c.
Proof.
  intros [Hnd Hal] Hlen.
  cut (NoDup (columns (setitem_series s col (mkSeries (index df_input) vals)))
    /\ index (setitem_series s col (mkSeries (index df_input) vals)) = index df_input
    /\ forall c, column (setitem_series s col (mkSeries (index df_input) vals)) c
              = if decide (c = col) then Some vals else column s c).
  { intros (? & ? & ?). split_and!; try done. split; [done | by left]. }
  unfold setitem_series, ensure_valid_index, reindex_like. simpl.
  destruct Hal as [Hidx | ->].
  - assert (bool_decide (len s = 0) && bool_decide (0 < length vals) = false) as ->.
    { unfold len in *. rewrite Hidx, Hlen.
      destruct (length (index df_input)); [|done].
      rewrite andb_false_iff. right. apply bool_decide_eq_false. lia. }
    rewrite Hidx, decide_True by done.
    rewrite index_set_column. split_and!; [by apply NoDup_set_column | done |].
    intros c. apply column_set_column.
  - destruct (bool_decide (0 < length vals)) eqn:E; simpl.
    + rewrite decide_True by done.
      split_and!; [apply NoDup_singleton | done |]. intros c.
      rewrite column_set_column. by case_decide.
    + apply bool_decide_eq_false in E.
      assert (index df_input = []) as Hnil.
      { apply length_zero_iff_nil. unfold len in Hlen. lia. }
      rewrite Hnil, decide_True by done.
      split_and!; [apply NoDup_singleton | done |]. intros c.
      rewrite column_set_column. by case_decide.
Qed.

Lemma getitem_SubFrame {L} (df : DataFrame L) key d :
  getitem df key = Ok (SubFrame d) -> 2 <= length (items d).
Proof.
  unfold getitem. destruct (filter _ (items df)) as [|p [|q rest]]; try done.
  intros; simplify_eq. simpl. lia.
Qed.

Lemma setitem_frame_NoDup {L} `{EqDecision L} (df d : DataFrame L) key :
  NoDup (columns df) -> 2 <= length (items d) -> setitem_frame df key d = Raise ValueError.
Proof.
  intros Hnd Hlen. unfold setitem_frame. case_decide as Hd; [|done].
  destruct Hd as [Hcount Hin].
  destruct (filter_label_NoDup _ _ Hnd Hin) as [v Hv].
  rewrite Hv in Hcount. simpl in Hcount. lia.
Qed.

(** ** Projection of the preserved columns *)

Lemma find_source_cons cols col eng cn mapping :
  find_source cols col ((eng, cn) :: mapping)
  = if decide (eng ∈ cols /\ cn = col) then Some eng else find_source cols col mapping.
Proof.
  unfold find_source. simpl. case_decide; first done.
  by destruct (list_find _ mapping) as [[??]|].
Qed.

Lemma find_source_Some cols col mapping eng :
  find_source cols col mapping = Some eng -> eng ∈ cols /\ (eng, col) ∈ mapping.
Proof.
  induction mapping as [|[e c] mapping IH]; first done.
  rewrite find_source_cons. case_decide as Hd.
  - intros; simplify_eq. destruct Hd as [? ->]. split; [done | left].
  - intros Hf. destruct (IH Hf). split; [done | by right].
Qed.

Lemma copy_preserved_value df_input col mapping s s' :
  NoDup (columns s) ->
  value_of (copy_preserved df_input col mapping s) = Ok s' ->
  match find_source (columns df_input) col mapping with
  | Some eng => exists vals, column df_input eng = Some vals
                  /\ s' = setitem_series s col (mkSeries (index df_input) vals)
  | None => s' = s
  end.
Proof.
  intros Hnd. induction mapping as [|[eng cn] mapping IH]; simpl.
  - intros; by simplify_eq.
  - rewrite find_source_cons. case_decide; [|done].
    intros Hv. apply bind_Ok in Hv as (sel & Hsel & Hset). simpl in *.
    destruct sel as [srs | sub]; simpl in Hset.
    + simplify_eq. exists (s_values srs).
      destruct (getitem_series df_input eng srs) as [Hi Hc]; [by rewrite Hsel|].
      split; [done|]. destruct srs; simpl in *. by subst.
    + rewrite setitem_frame_NoDup in Hset; [done | done |].
      by eapply getitem_SubFrame.
Qed.

Lemma copy_preserved_log df_input col mapping s :
  log_of (copy_preserved df_input col mapping s)
  = match find_source (columns df_input) col mapping with
    | Some _ => []
    | None => [WarnColumnNotFound col]
    end.
Proof.
  induction mapping as [|[eng cn] mapping IH]; simpl; [done|].
  rewrite find_source_cons. case_decide; [|done].
  unfold mbind, W_bind. simpl. by destruct (getitem df_input eng).
Qed.

Lemma for_each_log {A S} (f : A -> list message) (body : A -> S -> W S) xs s out :
  (forall x s, log_of (body x s) = f x) ->
  value_of (for_each xs body s) = Ok out ->
  log_of (for_each xs body s) = xs ≫= f.
Proof.
  intros Hf. revert s. induction xs as [|x xs IH]; intros s Hv; first done.
  apply for_each_cons_Ok in Hv as (s' & Hb & Hv). simpl.
  rewrite (log_bind _ _ s') by done. by rewrite Hf, (IH s').
Qed.

Lemma preserved_loop df_input ps s out :
  well_formed df_input -> aligned df_input s ->
  value_of (for_each ps (fun col => copy_preserved df_input col COLUMN_MAPPING) s) = Ok out ->
  aligned df_input out
  /\ forall c, column out c
       = match (if decide (c ∈ ps) then source_column df_input c else None) with
         | Some eng => column df_input eng
         | None => column s c
         end.
Proof.
  intros Hwf. revert s. induction ps as [|p ps IH]; intros s Hal Hv.
  - simpl in Hv. simplify_eq. split; [done|]. intros c.
    by rewrite decide_False by apply not_elem_of_nil.
  - apply for_each_cons_Ok in Hv as (s1 & Hb & Hv).
    apply copy_preserved_value in Hb; [|by destruct Hal].
    fold (source_column df_input p) in Hb.
    assert (aligned df_input s1 /\
            forall c, column s1 c
              = if decide (c = p)
                then match source_column df_input p with
                     | Some eng => column df_input eng
                     | None => column s p
                     end
                else column s c) as [Hal1 Hs1].
    { destruct (source_column df_input p) as [eng|] eqn:Hsrc.
      - destruct Hb as (vals & Hc & ->).
        destruct (setitem_series_aligned df_input s p vals Hal) as (? & _ & Hcol).
        { by eapply well_formed_column. }
        split; [done|]. intros c. rewrite Hcol, Hc. done.
      - subst. split; [done|]. intros c. by case_decide; subst. }
    destruct (IH s1 Hal1 Hv) as [Halo Hout]. split; [done|].
    intros c. rewrite Hout, Hs1.
    destruct (decide (c = p)) as [->|Hne].
    + rewrite (decide_True (P := p ∈ p :: ps)) by left.
      case_decide; by destruct (source_column df_input p).
    + destruct (decide (c ∈ ps)).
      * by rewrite decide_True by (by right).
      * rewrite decide_False; [done|]. rewrite not_elem_of_cons. done.
Qed.

(** ** The lookup dictionary *)

Lemma foldl_insert_absent (kvs : list (cell * cell)) (d : gmap cell cell) k :
  k ∉ kvs.*1 ->
  foldl (fun d kv => <[kv.1 := kv.2]> d) d kvs !! k = d !! k.
Proof.
  revert d. induction kvs as [|[k' v'] kvs IH]; intros d Hk; first done.
  csimpl in *. apply not_elem_of_cons in Hk as [Hne Hk].
  rewrite IH by done. by rewrite lookup_insert_ne.
Qed.

Lemma foldl_insert_last (kvs : list (cell * cell)) (d : gmap cell cell) j k v :
  kvs !! j = Some (k, v) ->
  (forall j' kv, j < j' -> kvs !! j' = Some kv -> kv.1 ≠ k) ->
  foldl (fun d kv => <[kv.1 := kv.2]> d) d kvs !! k = Some v.
Proof.
  revert d j. induction kvs as [|[k' v'] kvs IH]; intros d j Hj Hlast; first done.
  destruct j as [|j]; simpl in *.
  - simplify_eq. rewrite foldl_insert_absent; [by rewrite lookup_insert_eq|].
    intros Hin. apply list_elem_of_fmap in Hin as ([k2 v2] & -> & Hin).
    apply list_elem_of_lookup in Hin as [i Hi].
    by apply (Hlast (S i) (k2, v2)); [lia | |].
  - apply (IH _ j); [done|]. intros j' kv ? Hkv.
    apply (Hlast (S j') kv); [lia | done].
Qed.

Lemma to_dict_absent keys vals k :
  k ∉ keys -> to_dict (mkSeries keys vals) !! k = None.
Proof.
  intros Hk. unfold to_dict. rewrite foldl_insert_absent; [done|]. simpl.
  intros Hin. apply Hk. apply list_elem_of_fmap in Hin as ([k2 v2] & -> & Hin).
  by apply elem_of_zip_l in Hin.
Qed.

Lemma to_dict_last keys vals j k v :
  keys !! j = Some k -> vals !! j = Some v ->
  (forall j', j < j' -> keys !! j' ≠ Some k) ->
  to_dict (mkSeries keys vals) !! k = Some v.
Proof.
  intros Hk Hv Hlast. unfold to_dict. simpl. apply (foldl_insert_last _ _ j).
  - apply lookup_zip_with_Some. by exists k, v.
  - intros j' [k2 v2] Hlt Hz Heq. simpl in Heq. subst.
    apply lookup_zip_with_Some in Hz as (? & ? & ? & Hk2 & _). simplify_eq.
    by apply (Hlast j').
Qed.

Lemma lookup_items_filter_ne (its : list (pystr * list cell)) key c :
  lookup_items (filter (fun p => p.1 ≠ key) its) c
  = if decide (c = key) then None else lookup_items its c.
Proof.
  induction its as [|[k w] its IH]; simpl.
  - by case_decide.
  - rewrite filter_cons, lookup_items_cons. simpl.
    destruct (decide (k ≠ key)) as [Hne|Heq].
    + rewrite lookup_items_cons, IH. repeat case_decide; by simplify_eq.
    + apply dec_stable in Heq. subst. rewrite IH.
      repeat case_decide; by simplify_eq.
Qed.

Lemma set_index_Ok {L} `{EqDecision L} (df : DataFrame L) key keyed :
  set_index df key = Ok keyed ->
  column df key = Some (index keyed)
  /\ forall c, column keyed c = if decide (c = key) then None else column df c.
Proof.
  unfold set_index. intros Hs.
  apply result_bind_Ok in Hs as (sel & Hsel & Hs).
  apply result_bind_Ok in Hs as (s & Hser & Hs). simplify_eq. simpl.
  destruct (getitem_series df key s) as [_ Hc]; [by rewrite Hsel|].
  split; [done|]. intros c. apply lookup_items_filter_ne.
Qed.

Section join_facts.
Variable cfg : config.
Implicit Types (df_input df_reference : DataFrame nat).

Lemma add_mapping_value df_reference col rd rd' :
  value_of (add_mapping cfg df_reference col rd) = Ok rd' ->
  if decide (col ∈ columns df_reference)
  then exists keys vals,
         column df_reference (MATERIAL_CODE_COLUMN cfg) = Some keys
         /\ column df_reference col = Some vals
         /\ rd' = <[col := to_dict (mkSeries keys vals)]> rd
  else rd' = rd.
Proof.
  unfold add_mapping. case_decide; [|intros Hv; simpl in Hv; by simplify_eq].
  intros Hv. apply bind_Ok in Hv as ([] & _ & Hv).
  apply bind_Ok in Hv as (keyed & Hk & Hv).
  apply bind_Ok in Hv as (sel & Hsel & Hv).
  apply bind_Ok in Hv as (s & Hs & Hv). simpl in *. simplify_eq.
  apply set_index_Ok in Hk as [Hkeys Hcols].
  destruct (getitem_series keyed col s) as [Hi Hc]; [by rewrite Hsel|].
  rewrite Hcols in Hc. case_decide; [done|].
  exists (index keyed), (s_values s). split_and!; [done..|].
  destruct s; simpl in *. by subst.
Qed.

Lemma reference_dict_loop df_reference ms rd rd' :
  value_of (for_each ms (add_mapping cfg df_reference) rd) = Ok rd' ->
  forall c,
    if decide (c ∈ ms /\ c ∈ columns df_reference)
    then exists keys vals,
           column df_reference (MATERIAL_CODE_COLUMN cfg) = Some keys
           /\ column df_reference c = Some vals
           /\ rd' !! c = Some (to_dict (mkSeries keys vals))
    else rd' !! c = rd !! c.
Proof.
  revert rd. induction ms as [|m ms IH]; intros rd Hv c.
  - simpl in Hv. simplify_eq. rewrite decide_False; [done|].
    intros [Hc _]. by apply elem_of_nil in Hc.
  - apply for_each_cons_Ok in Hv as (rd1 & Hb & Hv).
    apply add_mapping_value in Hb. specialize (IH rd1 Hv c).
    destruct (decide (c ∈ ms /\ c ∈ columns df_reference)) as [[??]|Hn].
    + rewrite decide_True; [done|]. split; [by right | done].
    + destruct (decide (c = m)) as [->|Hne].
      * case_decide as Hm.
        -- rewrite decide_True by (split; [left | done]).
           destruct Hb as (keys & vals & ? & ? & ->).
           exists keys, vals. split_and!; [done..|].
           by rewrite IH, lookup_insert_eq.
        -- subst. rewrite decide_False; [done|]. by intros [_ ?].
      * rewrite decide_False.
        -- rewrite IH. case_decide; [|by subst].
           destruct Hb as (? & ? & ? & ? & ->). by rewrite lookup_insert_ne.
        -- rewrite elem_of_cons. tauto.
Qed.

Lemma assign_loop (P : DataFrame nat -> Prop) (G : pystr -> option (list cell))
    (body : pystr -> DataFrame nat -> W (DataFrame nat)) xs s out :
  (forall x s s', P s -> value_of (body x s) = Ok s' ->
     P s' /\ forall c, column s' c
               = if decide (c = x)
                 then match G x with Some v => Some v | None => column s x end
                 else column s c) ->
  P s -> value_of (for_each xs body s) = Ok out ->
  P out
  /\ forall c, column out c
       = match (if decide (c ∈ xs) then G c else None) with
         | Some v => Some v
         | None => column s c
         end.
Proof.
  intros Hstep. revert s. induction xs as [|x xs IH]; intros s HP Hv.
  - simpl in Hv. simplify_eq. split; [done|]. intros c.
    by rewrite decide_False by apply not_elem_of_nil.
  - apply for_each_cons_Ok in Hv as (s1 & Hb & Hv).
    destruct (Hstep x s s1 HP Hb) as [HP1 Hs1].
    destruct (IH s1 HP1 Hv) as [HPo Hout]. split; [done|].
    intros c. rewrite Hout, Hs1.
    destruct (decide (c = x)) as [->|Hne].
    + rewrite (decide_True (P := x ∈ x :: xs)) by left.
      case_decide; by destruct (G x).
    + destruct (decide (c ∈ xs)).
      * by rewrite decide_True by (by right).
      * rewrite decide_False; [done|]. rewrite not_elem_of_cons. done.
Qed.

Lemma apply_mapping_value df_input rd col s s' :
  value_of (apply_mapping cfg df_input rd col s) = Ok s' ->
  match rd !! col with
  | Some d =>
    exists codes, column df_input (material_code_eng cfg) = Some codes
      /\ s' = setitem_series s col
                (mkSeries (index df_input) ((fun v => default NaN (d !! v)) <$> codes))
  | None => s' = s
  end.
Proof.
  unfold apply_mapping. destruct (rd !! col) as [d|]; [|intros Hv; simpl in Hv; by simplify_eq].
  intros Hv. apply bind_Ok in Hv as ([] & _ & Hv).
  apply bind_Ok in Hv as (sel & Hsel & Hv).
  apply bind_Ok in Hv as (codes & Hs & Hv). simpl in *. simplify_eq.
  destruct (getitem_series df_input (material_code_eng cfg) codes) as [Hi Hc];
    [by rewrite Hsel|].
  exists (s_values codes). split; [done|]. unfold series_map. by rewrite Hi.
Qed.

Lemma apply_loop df_input rd ms s out :
  well_formed df_input -> aligned df_input s ->
  value_of (for_each ms (apply_mapping cfg df_input rd) s) = Ok out ->
  aligned df_input out
  /\ forall c, column out c
       = match (if decide (c ∈ ms) then looked_up cfg df_input rd c else None) with
         | Some v => Some v
         | None => column s c
         end.
Proof.
  intros Hwf. apply assign_loop. clear s out. intros x s s' Hal Hv.
  apply apply_mapping_value in Hv. unfold looked_up.
  destruct (rd !! x) as [d|]; simpl.
  - destruct Hv as (codes & Hc & ->). rewrite Hc. simpl.
    destruct (setitem_series_aligned df_input s x
                ((fun v => default NaN (d !! v)) <$> codes) Hal) as (? & _ & Hcol).
    { rewrite length_fmap. by eapply well_formed_column. }
    split; [done|]. intros c. by rewrite Hcol.
  - subst. split; [done|]. intros c. by case_decide; subst.
Qed.

Lemma match_columns_value df_input df_reference s out :
  well_formed df_input -> aligned df_input s ->
  value_of (match_columns cfg df_input df_reference s) = Ok out ->
  aligned df_input out
  /\ forall c,
       if decide (material_code_eng cfg ∈ columns df_input
                  /\ MATERIAL_CODE_COLUMN cfg ∈ columns df_reference
                  /\ c ∈ MATCHED_COLUMNS cfg /\ c ∈ columns df_reference)
       then exists codes keys vals,
              column df_input (material_code_eng cfg) = Some codes
              /\ column df_reference (MATERIAL_CODE_COLUMN cfg) = Some keys
              /\ column df_reference c = Some vals
              /\ column out c
                 = Some ((fun v => default NaN (to_dict (mkSeries keys vals) !! v)) <$> codes)
       else column out c = column s c.
Proof.
  intros Hwf Hal. unfold match_columns. intros Hv.
  apply bind_Ok in Hv as ([] & _ & Hv). case_decide as Hjoin.
  - apply bind_Ok in Hv as ([] & _ & Hv).
    apply bind_Ok in Hv as (rd & Hrd & Hv).
    destruct (apply_loop _ _ _ _ _ Hwf Hal Hv) as [Halo Hout]. split; [done|].
    intros c. rewrite Hout. pose proof (reference_dict_loop _ _ _ _ Hrd c) as Hc.
    destruct Hjoin as [Heng HK].
    pose proof (proj2 (column_is_Some _ _) Heng) as [codes Hcodes].
    unfold looked_up. rewrite Hcodes.
    destruct (decide (c ∈ MATCHED_COLUMNS cfg /\ c ∈ columns df_reference)) as [[??]|Hn].
    + destruct Hc as (keys & vals & ? & ? & Hd).
      rewrite (decide_True (P := c ∈ MATCHED_COLUMNS cfg)) by done.
      rewrite decide_True, Hd by done.
      by exists codes, keys, vals.
    + rewrite lookup_empty in Hc. rewrite Hc.
      rewrite decide_False by tauto. by case_decide.
  - apply bind_Ok in Hv as ([] & _ & Hv).
    apply bind_Ok in Hv as ([] & _ & Hv).
    apply bind_Ok in Hv as ([] & _ & Hv). simpl in Hv. simplify_eq.
    split; [done|]. intros c. rewrite decide_False; [done | tauto].
Qed.

End join_facts.

(** ** Fixed columns *)

Lemma fixed_loop_value fixed s :
  value_of (for_each fixed add_fixed s)
  = Ok (foldl (fun s it => setitem_scalar s it.1 it.2) s fixed).
Proof.
  revert s. induction fixed as [|[col v] fixed IH]; intros s; first done.
  rewrite for_each_cons, value_bind. simpl. apply IH.
Qed.

Lemma fixed_fold_index fixed (s : DataFrame nat) :
  index (foldl (fun s it => setitem_scalar s it.1 it.2) s fixed) = index s.
Proof.
  revert s. induction fixed as [|[col v] fixed IH]; intros s; first done.
  simpl. rewrite IH. apply index_set_column.
Qed.

Lemma fixed_fold_NoDup fixed (s : DataFrame nat) :
  NoDup (columns s) ->
  NoDup (columns (foldl (fun s it => setitem_scalar s it.1 it.2) s fixed)).
Proof.
  revert s. induction fixed as [|[col v] fixed IH]; intros s Hnd; first done.
  simpl. apply IH. by apply NoDup_set_column.
Qed.

Lemma fixed_fold_other (fixed : list (pystr * cell)) (s : DataFrame nat) c :
  c ∉ fixed.*1 ->
  column (foldl (fun s it => setitem_scalar s it.1 it.2) s fixed) c = column s c.
Proof.
  revert s. induction fixed as [|[col v] fixed IH]; intros s Hc; first done.
  csimpl in *. apply not_elem_of_cons in Hc as [? ?].
  rewrite IH by done. unfold setitem_scalar. rewrite column_set_column.
  by rewrite decide_False.
Qed.

Lemma fixed_fold_column (fixed : list (pystr * cell)) (s : DataFrame nat) c v :
  NoDup fixed.*1 -> (c, v) ∈ fixed ->
  column (foldl (fun s it => setitem_scalar s it.1 it.2) s fixed) c
  = Some (replicate (len s) v).
Proof.
  revert s. induction fixed as [|[col w] fixed IH]; intros s Hnd Hin.
  - by apply elem_of_nil in Hin.
  - csimpl in *. apply NoDup_cons in Hnd as [Hcol Hnd].
    apply elem_of_cons in Hin as [Heq | Hin].
    + simplify_eq. rewrite fixed_fold_other by done.
      unfold setitem_scalar. rewrite column_set_column. by rewrite decide_True.
    + rewrite IH by done. unfold setitem_scalar, len. by rewrite index_set_column.
Qed.

(** ** The accumulated table, phase by phase *)

Section pipeline_facts.
Variable cfg : config.
Implicit Types (df_input df_reference : DataFrame nat).

Lemma aligned_new_frame df_input : aligned df_input new_frame.
Proof. split; [apply NoDup_nil_2 | by right]. Qed.

Lemma project_and_match_Ok df_input df_reference t :
  value_of (project_and_match cfg df_input df_reference) = Ok t ->
  exists d1,
    value_of (for_each (PRESERVED_COLUMNS cfg)
                (fun col => copy_preserved df_input col COLUMN_MAPPING) new_frame) = Ok d1
    /\ value_of (match_columns cfg df_input df_reference d1) = Ok t.
Proof. unfold project_and_match. apply bind_Ok. Qed.

Lemma accumulate_Ok df_input df_reference acc :
  value_of (accumulate cfg df_input df_reference) = Ok acc ->
  exists t,
    value_of (project_and_match cfg df_input df_reference) = Ok t
    /\ acc = foldl (fun s it => setitem_scalar s it.1 it.2) t (FIXED_COLUMNS cfg).
Proof.
  unfold accumulate. intros Hv. apply bind_Ok in Hv as (t & Ht & Hv).
  rewrite fixed_loop_value in Hv. exists t. by simplify_eq.
Qed.

Lemma build_output_Ok df_input df_reference out :
  value_of (build_output cfg df_input df_reference) = Ok out ->
  exists acc,
    value_of (accumulate cfg df_input df_reference) = Ok acc
    /\ out = reindex_columns acc column_order.
Proof.
  unfold build_output. intros Hv. apply bind_Ok in Hv as (acc & Hacc & Hv).
  exists acc. split; [done|]. simpl in Hv. by simplify_eq.
Qed.

Lemma build_output_value df_input df_reference acc :
  value_of (accumulate cfg df_input df_reference) = Ok acc ->
  value_of (build_output cfg df_input df_reference)
  = Ok (reindex_columns acc column_order).
Proof. intros Hacc. unfold build_output. rewrite value_bind, Hacc. done. Qed.

Lemma project_and_match_aligned df_input df_reference t :
  well_formed df_input ->
  value_of (project_and_match cfg df_input df_reference) = Ok t ->
  aligned df_input t.
Proof.
  intros Hwf Ht. apply project_and_match_Ok in Ht as (d1 & Hd1 & Ht).
  apply preserved_loop in Hd1 as [Hal1 _]; [|done|apply aligned_new_frame].
  by apply match_columns_value in Ht as [? _].
Qed.

End pipeline_facts.

(** ** The conversion yields a table *)

Lemma columns_ensure_valid_index {L} (df : DataFrame L) s :
  columns (ensure_valid_index df s) = columns df.
Proof.
  unfold ensure_valid_index, columns. destruct (_ && _); [|done]. simpl.
  rewrite <- list_fmap_compose. by apply list_fmap_ext.
Qed.

Lemma NoDup_setitem_series {L} `{EqDecision L} (df : DataFrame L) key s :
  NoDup (columns df) -> NoDup (columns (setitem_series df key s)).
Proof.
  intros Hnd. unfold setitem_series. apply NoDup_set_column.
  by rewrite columns_ensure_valid_index.
Qed.

Lemma copy_preserved_total df_input col mapping s :
  NoDup (columns df_input) -> NoDup (columns s) ->
  exists s', value_of (copy_preserved df_input col mapping s) = Ok s'
             /\ NoDup (columns s').
Proof.
  intros Hin Hs. induction mapping as [|[eng cn] mapping IH]; simpl.
  - by exists s.
  - case_decide as Hd; [|done]. destruct Hd as [Heng _].
    destruct (getitem_unique df_input eng Hin Heng) as (vals & _ & Hget).
    rewrite value_bind. simpl. rewrite Hget. simpl.
    eexists. split; [done|]. by apply NoDup_setitem_series.
Qed.

Lemma NoDup_filter_labels (its : list (pystr * list cell)) key :
  NoDup its.*1 -> NoDup (filter (fun p => p.1 ≠ key) its).*1.
Proof.
  induction its as [|[k w] its IH]; first done.
  csimpl. intros [Hk Hnd]%NoDup_cons. rewrite filter_cons. simpl.
  case_decide; [|auto]. csimpl. apply NoDup_cons. split; [|auto].
  intros Hin. apply Hk. apply list_elem_of_fmap in Hin as (p & -> & Hp).
  apply list_elem_of_filter in Hp as [_ Hp]. apply list_elem_of_fmap. by exists p.
Qed.

Section totality.
Variable cfg : config.
Variables df_input df_reference : DataFrame nat.
Hypothesis input_labels : NoDup (columns df_input).
Hypothesis reference_labels : NoDup (columns df_reference).
Hypothesis code_not_matched : MATERIAL_CODE_COLUMN cfg ∉ MATCHED_COLUMNS cfg.

Lemma add_mapping_total col rd :
  MATERIAL_CODE_COLUMN cfg ∈ columns df_reference -> col ∈ MATCHED_COLUMNS cfg ->
  exists rd', value_of (add_mapping cfg df_reference col rd) = Ok rd'.
Proof using reference_labels code_not_matched.
  intros HK Hcol. unfold add_mapping. case_decide as Hc; [|by eexists].
  destruct (getitem_unique df_reference (MATERIAL_CODE_COLUMN cfg)) as (keys & _ & HgK);
    [done..|].
  assert (col ≠ MATERIAL_CODE_COLUMN cfg) as Hne by (intros ->; done).
  rewrite value_bind. simpl. rewrite value_bind. simpl.
  unfold set_index. rewrite HgK. simpl.
  rewrite value_bind. simpl.
  match goal with
  | |- context [getitem ?keyed col] =>
    destruct (getitem_unique keyed col) as (vals & _ & Hg)
  end.
  - by apply NoDup_filter_labels.
  - apply column_is_Some. unfold column. simpl.
    rewrite lookup_items_filter_ne, decide_False by done.
    by apply column_is_Some.
  - rewrite Hg. simpl. by eexists.
Qed.

Lemma build_output_total :
  exists out, value_of (build_output cfg df_input df_reference) = Ok out.
Proof using input_labels reference_labels code_not_matched.
  assert (forall ps s, NoDup (columns s) ->
            exists d1, value_of (for_each ps
                                   (fun col => copy_preserved df_input col COLUMN_MAPPING) s)
                       = Ok d1 /\ NoDup (columns d1)) as Hphase1.
  { induction ps as [|p ps IH]; intros s Hs; [by exists s|].
    destruct (copy_preserved_total df_input p COLUMN_MAPPING s input_labels Hs)
      as (s1 & Hs1 & Hnd1).
    destruct (IH s1 Hnd1) as (d1 & Hd1 & ?).
    exists d1. by rewrite for_each_cons, value_bind, Hs1. }
  destruct (Hphase1 (PRESERVED_COLUMNS cfg) new_frame) as (d1 & Hd1 & _);
    [apply NoDup_nil_2|].
  assert (exists t, value_of (match_columns cfg df_input df_reference d1) = Ok t)
    as [t Ht].
  { unfold match_columns. rewrite value_bind. simpl.
    case_decide as Hjoin; [|by eexists]. destruct Hjoin as [Heng HK].
    rewrite value_bind. simpl. rewrite value_bind.
    assert (forall ms rd, ms ⊆ MATCHED_COLUMNS cfg ->
              exists rd', value_of (for_each ms (add_mapping cfg df_reference) rd)
                          = Ok rd') as Hrd.
    { induction ms as [|m ms IH]; intros rd Hms; [by eexists|].
      destruct (add_mapping_total m rd HK) as [rd1 Hrd1]; [apply Hms; left|].
      destruct (IH rd1) as [rd' Hrd']; [intros x ?; apply Hms; by right|].
      exists rd'. by rewrite for_each_cons, value_bind, Hrd1. }
    destruct (Hrd (MATCHED_COLUMNS cfg) ∅) as [rd Hrd']; [done|].
    rewrite Hrd'. simpl.
    destruct (getitem_unique df_input (material_code_eng cfg) input_labels Heng)
      as (codes & _ & Hget).
    assert (forall m s, exists s',
              value_of (apply_mapping cfg df_input rd m s) = Ok s') as Hstep.
    { intros m s. unfold apply_mapping. destruct (rd !! m); [|by eexists].
      rewrite value_bind. simpl. rewrite value_bind. simpl. rewrite Hget. simpl.
      by eexists. }
    generalize (MATCHED_COLUMNS cfg) d1. clear -Hstep.
    induction l as [|m ms IH]; intros s; [by eexists|].
    destruct (Hstep m s) as [s' Hs']. destruct (IH s') as [t Ht].
    exists t. by rewrite for_each_cons, value_bind, Hs'. }
  exists (reindex_columns
            (foldl (fun s it => setitem_scalar s it.1 it.2) t (FIXED_COLUMNS cfg))
            column_order).
  apply build_output_value. unfold accumulate, project_and_match.
  rewrite !value_bind, Hd1, result_Ok_bind, Ht, result_Ok_bind.
  apply fixed_loop_value.
Qed.

End totality.

(** ** Well-formed tables *)

Lemma well_formed_set_column {L} (df : DataFrame L) key vals :
  well_formed df -> length vals = len df -> well_formed (set_column df key vals).
Proof.
  unfold well_formed, set_column, len. intros Hwf Hlen. case_decide; simpl.
  - apply Forall_fmap. eapply Forall_impl; [exact Hwf|].
    intros [k w] Hw. simpl in *. by case_decide.
  - apply Forall_app. split; [done|]. by apply Forall_singleton.
Qed.

Lemma fixed_fold_well_formed fixed (s : DataFrame nat) :
  well_formed s ->
  well_formed (foldl (fun s it => setitem_scalar s it.1 it.2) s fixed).
Proof.
  revert s. induction fixed as [|[col v] fixed IH]; intros s Hwf; first done.
  simpl. apply IH. apply well_formed_set_column; [done|]. apply length_replicate.
Qed.

Lemma well_formed_reindex_columns {L} (df : DataFrame L) order :
  well_formed df -> well_formed (reindex_columns df order).
Proof.
  intros Hwf. unfold well_formed, reindex_columns, len. simpl.
  apply Forall_fmap, Forall_forall. intros c _. simpl.
  destruct (column df c) as [v|] eqn:E; simpl.
  - by apply (well_formed_column df c).
  - apply length_replicate.
Qed.

(** ** The empty accumulated table *)

Lemma copy_preserved_None df_input col mapping s :
  find_source (columns df_input) col mapping = None ->
  value_of (copy_preserved df_input col mapping s) = Ok s.
Proof.
  induction mapping as [|[eng cn] mapping IH]; first done.
  rewrite find_source_cons. simpl. by case_decide.
Qed.

Lemma preserved_loop_None df_input ps s :
  (forall col, col ∈ ps -> source_column df_input col = None) ->
  value_of (for_each ps (fun col => copy_preserved df_input col COLUMN_MAPPING) s) = Ok s.
Proof.
  induction ps as [|p ps IH]; intros Hps; first done.
  rewrite for_each_cons, value_bind, copy_preserved_None by (apply Hps; left).
  simpl. apply IH. intros col ?. apply Hps. by right.
Qed.

Lemma add_mapping_absent cfg df_reference col rd :
  col ∉ columns df_reference ->
  value_of (add_mapping cfg df_reference col rd) = Ok rd.
Proof. intros Hc. unfold add_mapping. by rewrite decide_False. Qed.

Lemma add_mapping_loop_absent cfg df_reference ms rd :
  (forall c, c ∈ ms -> c ∉ columns df_reference) ->
  value_of (for_each ms (add_mapping cfg df_reference) rd) = Ok rd.
Proof.
  induction ms as [|m ms IH]; intros Hms; first done.
  rewrite for_each_cons, value_bind, add_mapping_absent by (apply Hms; left).
  simpl. apply IH. intros c ?. apply Hms. by right.
Qed.

Lemma apply_mapping_loop_empty cfg df_input ms s :
  value_of (for_each ms (apply_mapping cfg df_input ∅) s) = Ok s.
Proof.
  induction ms as [|m ms IH]; first done.
  rewrite for_each_cons, value_bind.
  assert (value_of (apply_mapping cfg df_input ∅ m s) = Ok s) as ->.
  { unfold apply_mapping. by rewrite lookup_empty. }
  apply IH.
Qed.

Lemma match_columns_idle cfg df_input df_reference s :
  (material_code_eng cfg ∉ columns df_input
   \/ MATERIAL_CODE_COLUMN cfg ∉ columns df_reference
   \/ forall c, c ∈ MATCHED_COLUMNS cfg -> c ∉ columns df_reference) ->
  value_of (match_columns cfg df_input df_reference s) = Ok s.
Proof.
  intros Hidle. unfold match_columns. rewrite value_bind. simpl.
  case_decide as Hjoin; [|done].
  destruct Hidle as [?|[?|Hnone]]; [by destruct Hjoin..|].
  rewrite value_bind. simpl.
  rewrite value_bind, add_mapping_loop_absent by done. simpl.
  apply apply_mapping_loop_empty.
Qed.

(** ** What the steps print *)

Lemma log_bind_Forall {A B} (Q : message -> Prop) (m : W A) (f : A -> W B) :
  Forall Q (log_of m) -> (forall a, Forall Q (log_of (f a))) ->
  Forall Q (log_of (m ≫= f)).
Proof.
  intros Hm Hf. unfold mbind, W_bind. destruct (value_of m); simpl; [|done].
  apply Forall_app. auto.
Qed.

Lemma for_each_log_Forall {A S} (Q : message -> Prop) (body : A -> S -> W S) xs s :
  (forall x s, Forall Q (log_of (body x s))) ->
  Forall Q (log_of (for_each xs body s)).
Proof.
  intros Hb. revert s. induction xs as [|x xs IH]; intros s.
  - by apply Forall_nil.
  - rewrite for_each_cons. by apply log_bind_Forall.
Qed.

Lemma print_log_Forall (Q : message -> Prop) m : Q m -> Forall Q (log_of (print m)).
Proof. intros. by apply Forall_singleton. Qed.

Lemma lift_log_Forall {A} (Q : message -> Prop) (r : result A) : Forall Q (log_of (lift r)).
Proof. by apply Forall_nil. Qed.

Lemma mret_log_Forall {A} (Q : message -> Prop) (a : A) : Forall Q (log_of (mret a : W A)).
Proof. by apply Forall_nil. Qed.

Ltac quiet_log :=
  repeat first
    [ apply log_bind_Forall; [|intros ?]
    | apply for_each_log_Forall; intros ? ?
    | apply print_log_Forall; done
    | apply lift_log_Forall
    | apply mret_log_Forall ].

Lemma match_columns_log cfg df_input df_reference s :
  Forall (fun m => forall col, m ≠ WarnColumnNotFound col)
    (log_of (match_columns cfg df_input df_reference s)).
Proof.
  unfold match_columns. quiet_log. case_decide; quiet_log.
  - unfold add_mapping. case_decide; quiet_log.
  - unfold apply_mapping. destruct (_ !! _); quiet_log.
Qed.

Lemma fixed_loop_log fixed s :
  Forall (fun m => forall col, m ≠ WarnColumnNotFound col)
    (log_of (for_each fixed add_fixed s)).
Proof. unfold add_fixed. quiet_log. Qed.

Lemma preserved_loop_log df_input ps s out col :
  value_of (for_each ps (fun col => copy_preserved df_input col COLUMN_MAPPING) s) = Ok out ->
  WarnColumnNotFound col
    ∈ log_of (for_each ps (fun col => copy_preserved df_input col COLUMN_MAPPING) s)
  <-> col ∈ ps /\ source_column df_input col = None.
Proof.
  intros Hv.
  pose proof (for_each_log
                (fun col => match source_column df_input col with
                            | Some _ => []
                            | None => [WarnColumnNotFound col]
                            end)
                (fun col => copy_preserved df_input col COLUMN_MAPPING) ps s out
                (fun x s => copy_preserved_log df_input x COLUMN_MAPPING s) Hv) as Hlog.
  rewrite Hlog, list_elem_of_bind. split.
  - intros (p & Hin & Hp). destruct (source_column df_input p) eqn:E.
    + by apply elem_of_nil in Hin.
    + apply list_elem_of_singleton in Hin. by simplify_eq.
  - intros [Hp Hsrc]. exists col. rewrite Hsrc. split; [apply list_elem_of_singleton|]; done.
Qed.

Lemma not_warning_in (l : list message) col :
  Forall (fun m => forall col, m ≠ WarnColumnNotFound col) l ->
  WarnColumnNotFound col ∉ l.
Proof. rewrite Forall_forall. intros Hl Hin. by apply (Hl _ Hin col). Qed.

Lemma build_output_warning cfg df_input df_reference out col :
  value_of (build_output cfg df_input df_reference) = Ok out ->
  WarnColumnNotFound col ∈ log_of (build_output cfg df_input df_reference)
  <-> col ∈ PRESERVED_COLUMNS cfg /\ source_column df_input col = None.
Proof.
  intros Hv. apply build_output_Ok in Hv as (acc & Hacc & _).
  unfold build_output. rewrite (log_bind _ _ acc) by done.
  pose proof Hacc as Hacc'. unfold accumulate in Hacc'.
  apply bind_Ok in Hacc' as (t & Ht & _).
  unfold accumulate at 1. rewrite (log_bind _ _ t) by done.
  pose proof Ht as Ht'. unfold project_and_match in Ht'.
  apply bind_Ok in Ht' as (d1 & Hd1 & _).
  unfold project_and_match at 1. rewrite (log_bind _ _ d1) by done.
  rewrite !elem_of_app, (preserved_loop_log _ _ _ _ _ Hd1).
  split; [|by auto].
  intros [[[?|Hin]|Hin]|Hin]; [done|exfalso..].
  - by eapply not_warning_in; [apply match_columns_log|].
  - by eapply not_warning_in; [apply fixed_loop_log|].
  - revert Hin. apply not_warning_in. quiet_log.
Qed.

(** ** A label borne once *)

Lemma getitem_once {L} (df : DataFrame L) key :
  occurs_once df key ->
  exists vals, column df key = Some vals
               /\ getitem df key = Ok (OneSeries (mkSeries (index df) vals)).
Proof.
  unfold occurs_once, getitem. intros Hone.
  destruct (filter _ (items df)) as [|p [|q rest]] eqn:E; try done.
  exists p.2. split; [|done]. by apply filter_label_head in E as [_ ?].
Qed.

Lemma occurs_once_NoDup {L} (df : DataFrame L) key :
  NoDup (columns df) -> key ∈ columns df -> occurs_once df key.
Proof.
  intros Hnd Hin. unfold occurs_once.
  by destruct (filter_label_NoDup _ _ Hnd Hin) as [v ->].
Qed.

Lemma filter_label_replace (its : list (pystr * list cell)) key vals :
  length (filter (fun p => p.1 = key)
            ((fun p => if decide (p.1 = key) then (key, vals) else p) <$> its))
  = length (filter (fun p => p.1 = key) its).
Proof.
  induction its as [|[k w] its IH]; first done.
  csimpl. destruct (decide (k = key)) as [->|Hne].
  - rewrite !filter_cons_True by done. simpl. by rewrite IH.
  - by rewrite !filter_cons_False.
Qed.

Lemma occurs_once_set_column {L} (df : DataFrame L) key vals :
  occurs_once df key -> occurs_once (set_column df key vals) key.
Proof.
  unfold occurs_once. intros Hone.
  assert (key ∈ columns df) as Hin.
  { destruct (filter _ (items df)) as [|p rest] eqn:E; [done|].
    apply filter_label_head in E as [_ E]. apply column_is_Some. unfold column. eauto. }
  unfold set_column. rewrite decide_True by done. simpl.
  by rewrite filter_label_replace.
Qed.

(** ** Trimming *)

Lemma lstrip_head s c r : lstrip s = c :: r -> isspace c = false.
Proof.
  induction s as [|a s IH]; simpl; first done.
  destruct (isspace a) eqn:E; [done|]. intros; by simplify_eq.
Qed.

Lemma lstrip_app_nonspace l c :
  isspace c = false -> lstrip (l ++ [c]) = lstrip l ++ [c].
Proof.
  intros Hc. induction l as [|a l IH]; simpl.
  - by rewrite Hc.
  - by destruct (isspace a).
Qed.

Lemma strip_head s c r : strip s = c :: r -> isspace c = false.
Proof.
  unfold strip, rstrip. destruct (lstrip s) as [|c0 u] eqn:E; first done.
  apply lstrip_head in E. rewrite reverse_cons, lstrip_app_nonspace by done.
  rewrite reverse_app. simpl. intros; by simplify_eq.
Qed.

Lemma strip_all_space s : forallb isspace (strip s) = true -> strip s = [].
Proof.
  destruct (strip s) as [|c r] eqn:E; first done.
  apply strip_head in E. simpl. by rewrite E.
Qed.

(** On trimmed text the test of line 101 is the blank test. *)
Lemma isin_blank s :
  bool_decide (Str (strip s) ∈ [Str (py "nan"); Str (py ""); Str (py " ")])
  = is_blank (strip s).
Proof.
  unfold is_blank.
  destruct (decide (strip s = [])) as [H0|H0]; [by rewrite H0|].
  destruct (decide (strip s = py "nan")) as [H1|H1]; [by rewrite H1|].
  rewrite (bool_decide_eq_false_2 (strip s = [])) by done.
  rewrite (bool_decide_eq_false_2 (strip s = py "nan")) by done.
  assert (forallb isspace (strip s) = false) as ->.
  { apply not_true_is_false. intros Hsp. by apply strip_all_space in Hsp. }
  apply bool_decide_eq_false. rewrite !elem_of_cons, elem_of_nil.
  intros [?|[?|[Hone|[]]]]; simplify_eq.
  pose proof (strip_head s 32%N [] Hone) as Hsp. by vm_compute in Hsp.
Qed.

(** ** The row filter *)

Lemma mask_filter_seq_head mask a n :
  length mask = n ->
  head (mask_filter mask (seq a n))
  = (fun i => a + i) <$> (fst <$> list_find (fun b => b = true) mask).
Proof.
  revert a n. induction mask as [|b mask IH]; intros a n Hn.
  - by destruct n.
  - destruct n as [|n]; [done|]. simpl in Hn. destruct b; simpl.
    + f_equal. lia.
    + rewrite IH by lia. destruct (list_find _ mask) as [[i x]|]; simpl; [|done].
      f_equal. lia.
Qed.

Lemma first_blank_isin nos :
  fst <$> list_find (fun b => b = true)
            ((fun v => bool_decide (v ∈ [Str (py "nan"); Str (py ""); Str (py " ")]))
               <$> ((fun v => Str (item_text v)) <$> nos))
  = first_blank (item_text <$> nos).
Proof.
  unfold first_blank. induction nos as [|v nos IH]; first done.
  csimpl. pose proof (isin_blank (py_str v)) as Hv. fold (item_text v) in Hv.
  repeat case_decide; try congruence; simpl; try done.
  destruct (list_find _ (_ <$> (_ <$> nos))) as [[i x]|];
    destruct (list_find _ (item_text <$> nos)) as [[j y]|]; simpl in *; by simplify_eq.
Qed.

Lemma setitem_series_same_index {L} `{EqDecision L} (df : DataFrame L) key vals :
  length vals = len df ->
  setitem_series df key (mkSeries (index df) vals) = set_column df key vals.
Proof.
  intros Hlen. unfold setitem_series, ensure_valid_index, reindex_like. simpl.
  assert (bool_decide (len df = 0) && bool_decide (0 < length vals) = false) as ->.
  { rewrite Hlen. destruct (len df); [|done].
    rewrite andb_false_iff. right. apply bool_decide_eq_false. lia. }
  by rewrite decide_True.
Qed.

Lemma lookup_items_take k (its : list (pystr * list cell)) c :
  lookup_items ((fun p => (p.1, take k p.2)) <$> its) c = take k <$> lookup_items its c.
Proof.
  induction its as [|[l w] its IH]; first done.
  csimpl. rewrite !lookup_items_cons, IH. by case_decide.
Qed.

Lemma column_iloc_upto {L} k (df : DataFrame L) c :
  column (iloc_upto k df) c = take k <$> column df c.
Proof. apply lookup_items_take. Qed.

Lemma columns_iloc_upto {L} k (df : DataFrame L) : columns (iloc_upto k df) = columns df.
Proof.
  unfold columns, iloc_upto. simpl. rewrite <- list_fmap_compose.
  by apply list_fmap_ext.
Qed.

Lemma columns_set_column_elem {L} (df : DataFrame L) key vals :
  key ∈ columns df -> columns (set_column df key vals) = columns df.
Proof. intros. by rewrite columns_set_column, decide_True. Qed.

(** ** The loader *)

Lemma mask_filter_nonzero {A} a n (xs : list A) :
  mask_filter ((fun x => bool_decide (x ≠ 0)) <$> seq (S a) n) xs = take n xs.
Proof.
  revert a xs. induction n as [|n IH]; intros a xs; first by destruct xs.
  destruct xs as [|x xs]; first done. csimpl. by rewrite IH.
Qed.

Lemma mask_filter_drop_first {A} n (xs : list A) :
  length xs = S n ->
  mask_filter ((fun x => bool_decide (x ≠ 0)) <$> seq 0 (S n)) xs = drop 1 xs.
Proof.
  destruct xs as [|x xs]; first done. intros Hlen. csimpl.
  rewrite mask_filter_nonzero. rewrite drop_0. apply take_ge. simpl in Hlen. lia.
Qed.

Lemma selected_sheet_lookup wb sheet :
  selected_sheet wb = Some sheet ->
  wb !! (if bool_decide (2 ≤ length wb) then 1 else 0) = Some sheet.
Proof. destruct wb as [|s0 [|s1 rest]]; simpl; intros; by simplify_eq. Qed.

Lemma column_of_rows_length j rows : length (column_of_rows j rows) = length rows.
Proof. apply length_fmap. Qed.

Lemma imap_labels {B} (g : nat -> B) (labels : list pystr) :
  (imap (fun j name => (name, g j)) labels).*1 = labels.
Proof.
  rewrite fmap_imap. rewrite (imap_ext _ (const id)) by done.
  by rewrite imap_const, list_fmap_id.
Qed.

Lemma imap_values {B} (g : nat -> B) (labels : list pystr) :
  (imap (fun j name => (name, g j)) labels).*2 = g <$> seq 0 (length labels).
Proof.
  rewrite fmap_imap. rewrite (imap_ext _ (fun j _ => g j)) by done.
  apply imap_seq_0.
Qed.

Lemma parse_column_length convert_cell col :
  length (parse_column convert_cell col) = length col.
Proof. unfold parse_column. by rewrite length_fmap, length_seq. Qed.

(** Dropping the row labelled 0 and renumbering leaves every parsed column
    without its first cell. *)
Lemma drop_first_data_row infer_header convert_cell header body :
  (if bool_decide (0 < len (parse_sheet infer_header convert_cell (header :: body)))
   then reset_index <$> drop_index (parse_sheet infer_header convert_cell (header :: body)) 0
   else Ok (parse_sheet infer_header convert_cell (header :: body)))
  = Ok (parsed_below infer_header convert_cell header body).
Proof.
  destruct body as [|r body]; first done.
  rewrite bool_decide_eq_true_2 by (unfold len; simpl; lia).
  unfold drop_index. rewrite decide_True by (simpl; left).
  unfold parse_sheet, parsed_below, select_rows, reset_index, len.
  simpl index. simpl items.
  change (0 :: seq 1 (length body)) with (seq 0 (S (length body))).
  rewrite (mask_filter_drop_first (length body) (seq 0 (S (length body))))
    by (by rewrite length_seq).
  rewrite fmap_imap. unfold fmap at 1, result_fmap. simpl index. simpl items.
  f_equal. f_equal.
  - simpl. by rewrite !drop_0, length_seq.
  - apply imap_ext. intros j name _. simpl. f_equal. rewrite drop_0.
    etrans; [apply (mask_filter_nonzero 0)|].
    apply take_ge. by rewrite length_fmap, length_seq, column_of_rows_length.
Qed.

Lemma drop_first_data_row_value infer_header convert_cell header body :
  value_of
    (if bool_decide (0 < len (parse_sheet infer_header convert_cell (header :: body)))
     then lift (reset_index
                  <$> drop_index (parse_sheet infer_header convert_cell (header :: body)) 0)
     else mret (parse_sheet infer_header convert_cell (header :: body)))
  = Ok (parsed_below infer_header convert_cell header body).
Proof.
  rewrite <- drop_first_data_row.
  by destruct (bool_decide
                 (0 < len (parse_sheet infer_header convert_cell (header :: body)))).
Qed.

Lemma columns_strip_labels {L} (df : DataFrame L) :
  columns (strip_labels df) = strip_label <$> columns df.
Proof.
  unfold columns, strip_labels. simpl. rewrite <- !list_fmap_compose.
  by apply list_fmap_ext.
Qed.

Lemma values_strip_labels {L} (df : DataFrame L) :
  (items (strip_labels df)).*2 = (items df).*2.
Proof.
  unfold strip_labels. simpl. rewrite <- !list_fmap_compose.
  by apply list_fmap_ext.
Qed.

Lemma columns_str_strip_Ok {L} (df df' : DataFrame L) :
  columns_str_strip df = Ok df' -> df' = strip_labels df.
Proof. unfold columns_str_strip. destruct (_ || _); intros; by simplify_eq. Qed.

Lemma columns_parsed_below infer_header convert_cell header body :
  columns (parsed_below infer_header convert_cell header body) = infer_header header.
Proof. apply imap_labels. Qed.

Lemma values_parsed_below infer_header convert_cell header body :
  (items (parsed_below infer_header convert_cell header body)).*2
  = (fun j => drop 1 (parse_column convert_cell (column_of_rows j body)))
      <$> seq 0 (length (infer_header header)).
Proof. apply imap_values. Qed.

(** ** Lines 91-92 change nothing *)

Lemma replace_columns_self key (its : list (pystr * list cell)) :
  replace_columns key (snd <$> filter (fun p => p.1 = key) its) its = its.
Proof.
  induction its as [|[k w] its IH]; first done.
  rewrite filter_cons. simpl. case_decide; csimpl; by rewrite IH.
Qed.

Lemma replace_single (its : list (pystr * list cell)) key p :
  filter (fun q => q.1 = key) its = [p] ->
  (fun q => if decide (q.1 = key) then (key, p.2) else q) <$> its = its.
Proof.
  intros Hf. rewrite <- (list_fmap_id its) at 2. apply list_fmap_ext.
  intros i [k w] Hi. simpl. case_decide as Hk; [|done]. simpl in Hk.
  assert ((k, w) ∈ filter (fun q => q.1 = key) its) as Hin.
  { apply list_elem_of_filter. split; [done|]. by eapply list_elem_of_lookup_2. }
  rewrite Hf in Hin. apply list_elem_of_singleton in Hin. by subst.
Qed.

Lemma setitem_getitem {L} `{EqDecision L} (df : DataFrame L) key sel :
  well_formed df -> getitem df key = Ok sel -> setitem df key sel = Ok df.
Proof.
  intros Hwf. unfold getitem.
  destruct (filter _ (items df)) as [|p [|q rest]] eqn:E; [done| |];
    intros; simplify_eq; cbn [setitem].
  - pose proof (filter_label_head _ _ _ _ E) as [Hp Hcol].
    rewrite setitem_series_same_index by (by eapply well_formed_column).
    unfold set_column. rewrite decide_True by (apply column_is_Some; eauto).
    rewrite (replace_single _ _ p) by done. by destruct df.
  - unfold setitem_frame. cbn [index items].
    assert (key ∈ columns df) as Hin.
    { pose proof (filter_label_head _ _ _ _ E) as [_ Hcol].
      apply column_is_Some. eauto. }
    rewrite E, decide_True by done. f_equal.
    assert ((fun p0 : pystr * list cell => reindex_like (index df) (index df) p0.2)
              <$> p :: q :: rest
            = snd <$> filter (fun p => p.1 = key) (items df)) as ->.
    { rewrite E. apply list_fmap_ext. intros i x _. unfold reindex_like.
      by rewrite decide_True. }
    rewrite replace_columns_self. by destruct df.
Qed.

Lemma reassign_columns_unchanged names df :
  well_formed df -> Forall (fun c => c ∈ columns df) names ->
  reassign_columns names df = Ok df.
Proof.
  intros Hwf. induction names as [|c names IH]; intros Hnames; first done.
  apply Forall_cons in Hnames as [Hc Hnames]. simpl.
  destruct (getitem df c) as [sel|e] eqn:Hget.
  - rewrite result_Ok_bind, (setitem_getitem df c sel), result_Ok_bind by done. auto.
  - exfalso. unfold getitem in Hget.
    destruct (filter _ (items df)) as [|p [|q rest]] eqn:E; try done.
    apply column_is_Some in Hc as [v Hv]. apply lookup_items_Some in Hv.
    assert ((c, v) ∈ filter (fun p => p.1 = c) (items df)) as Hin
      by (by apply list_elem_of_filter).
    rewrite E in Hin. by apply elem_of_nil in Hin.
Qed.

Lemma object_columns_elem df : Forall (fun c => c ∈ columns df) (object_columns df).
Proof.
  apply Forall_forall. intros c Hc. unfold object_columns in Hc.
  apply list_elem_of_fmap in Hc as (p & -> & Hp).
  apply list_elem_of_filter in Hp as [_ Hp]. apply list_elem_of_fmap. by exists p.
Qed.

(** The loop meant to strip the text cells returns the table it was given. *)
Lemma text_cells_not_stripped df :
  well_formed df -> reassign_columns (object_columns df) df = Ok df.
Proof. intros. apply reassign_columns_unchanged; [done | apply object_columns_elem]. Qed.

(** ** The whole run *)

(** ** The tables the program reads are well formed *)

Lemma well_formed_iloc_upto {L} k (df : DataFrame L) :
  well_formed df -> well_formed (iloc_upto k df).
Proof.
  unfold well_formed, iloc_upto, len. simpl. intros Hwf.
  apply Forall_fmap. eapply Forall_impl; [exact Hwf|].
  intros [c v] Hv. simpl in *. by rewrite !length_take, Hv.
Qed.

Lemma well_formed_strip_labels {L} (df : DataFrame L) :
  well_formed df -> well_formed (strip_labels df).
Proof.
  unfold well_formed, strip_labels, len. simpl. intros Hwf.
  apply Forall_fmap. eapply Forall_impl; [exact Hwf|]. by intros [c v].
Qed.

Lemma well_formed_parsed_below infer_header convert_cell header body :
  well_formed (parsed_below infer_header convert_cell header body).
Proof.
  unfold well_formed, parsed_below, len. simpl.
  apply Forall_forall. intros p Hp.
  apply list_elem_of_lookup in Hp as [j Hj].
  rewrite list_lookup_imap in Hj.
  destruct (infer_header header !! j); simplify_eq/=.
  by rewrite !length_drop, parse_column_length, column_of_rows_length, length_seq.
Qed.

(** The loaded table is the parsed table without its first row, its labels
    stripped when it has a row and a column. *)
Lemma load_input_cases (infer_header : list cell -> list pystr)
    (convert_cell : list cell -> nat -> cell) (fs : filesystem)
    (input_file : pystr) df :
  value_of (load_input infer_header convert_cell fs input_file) = Ok df ->
  exists df0,
    well_formed df0 /\ index df0 = seq 0 (len df0)
    /\ (if negb (empty_frame df0) && bool_decide (0 < length (columns df0))
        then columns_str_strip df0 = Ok df
        else df = df0).
Proof.
  unfold load_input. intros Hv.
  apply bind_Ok in Hv as ([] & _ & Hv).
  apply bind_Ok in Hv as (wb & _ & Hv).
  apply bind_Ok in Hv as (df0 & Hread & Hv).
  apply bind_Ok in Hv as (df1 & Hdrop & Hv).
  assert (well_formed df1 /\ index df1 = seq 0 (len df1)) as [Hwf Hidx].
  { simpl in Hread. unfold read_excel in Hread.
    apply result_bind_Ok in Hread as (wb' & _ & Hread).
    destruct (wb' !! _) as [sheet|]; [|done]. simplify_eq.
    destruct (drop 9 (sheet_data sheet)) as [|header body] eqn:Hrows.
    - destruct (bool_decide _); simpl in Hdrop; simplify_eq;
        (split; [by apply Forall_nil | done]).
    - rewrite drop_first_data_row_value in Hdrop. simplify_eq.
      split; [apply well_formed_parsed_below|].
      unfold len. simpl. by rewrite length_seq. }
  exists df1. split_and!; [done..|].
  destruct (_ && _); simpl in Hv; [done | by simplify_eq].
Qed.

Lemma load_input_shape (infer_header : list cell -> list pystr)
    (convert_cell : list cell -> nat -> cell) (fs : filesystem)
    (input_file : pystr) df :
  value_of (load_input infer_header convert_cell fs input_file) = Ok df ->
  well_formed df /\ index df = seq 0 (len df).
Proof.
  intros Hv. apply load_input_cases in Hv as (df0 & Hwf & Hidx & Hdf).
  destruct (_ && _); [|by subst].
  apply columns_str_strip_Ok in Hdf as ->.
  split; [by apply well_formed_strip_labels | done].
Qed.

Lemma load_input_value (infer_header : list cell -> list pystr)
    (convert_cell : list cell -> nat -> cell) (fs : filesystem)
    (input_file : pystr) wb sheet :
  fs !! input_file = Some wb ->
  selected_sheet wb = Some sheet ->
  value_of (load_input infer_header convert_cell fs input_file)
  = match drop 9 (sheet_data sheet) with
    | [] => Ok new_frame
    | header :: body =>
      let df := parsed_below infer_header convert_cell header body in
      if negb (empty_frame df) && bool_decide (0 < length (columns df))
      then columns_str_strip df
      else Ok df
    end.
Proof.
  intros Hfs Hsel. apply selected_sheet_lookup in Hsel.
  unfold load_input. rewrite !value_bind. simpl.
  unfold ExcelFile at 1. rewrite Hfs. rewrite result_Ok_bind.
  rewrite value_bind. simpl. unfold read_excel, ExcelFile. rewrite Hfs.
  rewrite result_Ok_bind, Hsel, result_Ok_bind.
  destruct (drop 9 (sheet_data sheet)) as [|header body] eqn:Hrows.
  - done.
  - rewrite value_bind, drop_first_data_row_value, result_Ok_bind.
    simpl. by destruct (_ && _).
Qed.

(** The labels are stripped when a row and a label are left. *)
Lemma strip_guard infer_header convert_cell header body :
  negb (empty_frame (parsed_below infer_header convert_cell header body))
  && bool_decide (0 < length (columns (parsed_below infer_header convert_cell header body)))
  = bool_decide (drop 1 body ≠ [] /\ infer_header header ≠ []).
Proof.
  unfold empty_frame. rewrite columns_parsed_below.
  assert (len (parsed_below infer_header convert_cell header body)
          = length (drop 1 body)) as ->.
  { unfold len. simpl. apply length_seq. }
  by destruct (drop 1 body) as [|r rest], (infer_header header) as [|l labels].
Qed.

Lemma truncate_rows_shape df df' :
  well_formed df -> index df = seq 0 (len df) -> truncate_rows df = Ok df' ->
  well_formed df' /\ index df' = seq 0 (len df').
Proof.
  intros Hwf Hidx. unfold truncate_rows. case_decide; [|intros; by simplify_eq].
  intros Hv. apply result_bind_Ok in Hv as (sel & Hsel & Hv).
  apply result_bind_Ok in Hv as (no & Hno & Hv).
  destruct (getitem_series df (py "NO.") no) as [Hi Hc]; [by rewrite Hsel|].
  assert (setitem_series df (py "NO.") (str_strip (astype_str no))
          = set_column df (py "NO.")
              ((fun v => match v with Str t => Str (strip t) | _ => NaN end)
                 <$> ((fun v => Str (py_str v)) <$> s_values no))) as Hset.
  { unfold str_strip, astype_str. simpl. rewrite Hi.
    apply setitem_series_same_index. rewrite !length_fmap.
    by eapply well_formed_column. }
  rewrite Hset in Hv. clear Hset.
  match type of Hv with
  | context [getitem ?d _] => set (df1 := d) in *
  end.
  assert (well_formed df1) as Hwf1.
  { apply well_formed_set_column; [done|]. rewrite !length_fmap.
    by eapply well_formed_column. }
  assert (index df1 = seq 0 (len df1)) as Hidx1.
  { unfold df1, len. by rewrite !index_set_column. }
  apply result_bind_Ok in Hv as (sel1 & _ & Hv).
  apply result_bind_Ok in Hv as (no1 & _ & Hv).
  destruct (index (select_rows _ df1)) as [|first rest]; simplify_eq; [done|].
  split; [by apply well_formed_iloc_upto|].
  unfold len. simpl. rewrite Hidx1, take_seq, length_seq. done.
Qed.

(** Every table [read_tables] hands to the later steps meets the
    assumptions made of the input table. *)
Lemma read_tables_shape (infer_header : list cell -> list pystr)
    (convert_cell : list cell -> nat -> cell) (fs : filesystem)
    (input_file reference_file : pystr) df_input df_reference :
  value_of (read_tables infer_header convert_cell fs input_file reference_file)
  = Ok (df_input, df_reference) ->
  well_formed df_input /\ index df_input = seq 0 (len df_input).
Proof.
  unfold read_tables. intros Hv.
  apply bind_Ok in Hv as (df0 & Hload & Hv).
  apply bind_Ok in Hv as (df1 & Hre & Hv).
  apply bind_Ok in Hv as (df2 & Htr & Hv).
  apply bind_Ok in Hv as ([] & _ & Hv).
  apply bind_Ok in Hv as ([] & _ & Hv).
  apply bind_Ok in Hv as (dr & _ & Hv). simpl in *. simplify_eq.
  apply load_input_shape in Hload as [Hwf Hidx].
  rewrite text_cells_not_stripped in Hre by done. simplify_eq.
  by eapply truncate_rows_shape.
Qed.

(** ** Sample runs *)

Lemma sample_run :
  value_of (build_output sample_config sample_input sample_reference) = Ok sample_output.
Proof. vm_compute. reflexivity. Qed.

Lemma padded_tables :
  value_of (read_tables simple_header plain_cell padded_files (py "in.xlsx") (py "ref.xlsx"))
  = Ok (padded_input, padded_reference).
Proof. vm_compute. reflexivity. Qed.

Lemma padded_run :
  value_of (build_output sample_config padded_input padded_reference) = Ok padded_output.
Proof. vm_compute. reflexivity. Qed.

(** * The claims *)

(** C1 (join correctness).  Once the preserved columns are copied and the
    join has run with both code columns present, every matched column name
    that is a column of the reference table is a column of the accumulated
    table with one cell per source row: null when the row's code is no key
    of the reference table, and otherwise the reference value in the last
    row bearing that key.  The same cells reach the output table when the
    name is canonical and no fixed column takes it over. *)
Theorem join_correctness cfg df_input df_reference t c codes keys vals :
  well_formed df_input ->
  value_of (project_and_match cfg df_input df_reference) = Ok t ->
  column df_input (material_code_eng cfg) = Some codes ->
  column df_reference (MATERIAL_CODE_COLUMN cfg) = Some keys ->
  c ∈ MATCHED_COLUMNS cfg ->
  column df_reference c = Some vals ->
  exists cells,
    column t c = Some cells /\ length cells = length codes
    /\ (forall i code, codes !! i = Some code ->
          (code ∉ keys -> cells !! i = Some NaN)
          /\ (forall j v, keys !! j = Some code -> vals !! j = Some v ->
                (forall j', j < j' -> keys !! j' ≠ Some code) ->
                cells !! i = Some v))
    /\ (forall out, value_of (build_output cfg df_input df_reference) = Ok out ->
          c ∉ (FIXED_COLUMNS cfg).*1 -> c ∈ column_order ->
          column out c = Some cells).
Proof.
  intros Hwf Ht Hcodes Hkeys Hc Hvals.
  pose proof Ht as Ht'. apply project_and_match_Ok in Ht' as (d1 & Hd1 & Hm).
  apply preserved_loop in Hd1 as [Hal1 _]; [|done|apply aligned_new_frame].
  apply match_columns_value in Hm as [_ Hm]; [|done..].
  specialize (Hm c). rewrite decide_True in Hm.
  2:{ split_and!; try done; apply column_is_Some; eauto. }
  destruct Hm as (codes' & keys' & vals' & ? & ? & ? & Hcol). simplify_eq.
  eexists. split_and!; [done | by rewrite length_fmap | |].
  - intros i code Hi. rewrite list_lookup_fmap, Hi. simpl. split.
    + intros Habs. by rewrite to_dict_absent.
    + intros j v Hj Hv Hlast. by rewrite (to_dict_last _ _ j code v).
  - intros out Hout Hfix Hcan.
    apply build_output_Ok in Hout as (acc & Hacc & ->).
    apply accumulate_Ok in Hacc as (t' & Ht' & ->). rewrite Ht in Ht'. simplify_eq.
    rewrite column_reindex_columns, decide_True by done.
    rewrite fixed_fold_other by done. by rewrite Hcol.
Qed.

Lemma join_correctness_witness :
  (well_formed sample_input
   /\ value_of (project_and_match sample_config sample_input sample_reference)
      = Ok sample_joined
   /\ column sample_input (material_code_eng sample_config)
      = Some [Str (py "A1"); Str (py "B2"); Str (py "A1")]
   /\ column sample_reference (MATERIAL_CODE_COLUMN sample_config)
      = Some [Str (py "A1"); Str (py "C3"); Str (py "A1")]
   /\ py "商品编号" ∈ MATCHED_COLUMNS sample_config
   /\ column sample_reference (py "商品编号") = Some [Int 100; Int 300; Int 111])
  /\ exists cells,
       column sample_joined (py "商品编号") = Some cells /\ length cells = 3
       /\ (forall i code,
             [Str (py "A1"); Str (py "B2"); Str (py "A1")] !! i = Some code ->
             (code ∉ [Str (py "A1"); Str (py "C3"); Str (py "A1")] ->
              cells !! i = Some NaN)
             /\ (forall j v,
                   [Str (py "A1"); Str (py "C3"); Str (py "A1")] !! j = Some code ->
                   [Int 100; Int 300; Int 111] !! j = Some v ->
                   (forall j', j < j' ->
                      [Str (py "A1"); Str (py "C3"); Str (py "A1")] !! j' ≠ Some code) ->
                   cells !! i = Some v))
       /\ (forall out,
             value_of (build_output sample_config sample_input sample_reference) = Ok out ->
             py "商品编号" ∉ (FIXED_COLUMNS sample_config).*1 ->
             py "商品编号" ∈ column_order ->
             column out (py "商品编号") = Some cells).
Proof.
  assert (well_formed sample_input) as Hwf by (repeat constructor).
  assert (value_of (project_and_match sample_config sample_input sample_reference)
          = Ok sample_joined) as Ht by (vm_compute; reflexivity).
  assert (column sample_input (material_code_eng sample_config)
          = Some [Str (py "A1"); Str (py "B2"); Str (py "A1")]) as Hcodes
    by (vm_compute; reflexivity).
  assert (column sample_reference (MATERIAL_CODE_COLUMN sample_config)
          = Some [Str (py "A1"); Str (py "C3"); Str (py "A1")]) as Hkeys
    by (vm_compute; reflexivity).
  assert (py "商品编号" ∈ MATCHED_COLUMNS sample_config) as Hc by by_compute.
  assert (column sample_reference (py "商品编号") = Some [Int 100; Int 300; Int 111])
    as Hvals by (vm_compute; reflexivity).
  split; [by split_and!|].
  exact (join_correctness _ _ _ _ _ _ _ _ Hwf Ht Hcodes Hkeys Hc Hvals).
Defined.

(** The join on the sample tables: "A1" occurs twice in the reference
    table and resolves to the later row, "B2" is no key and yields null. *)
Example join_sample :
  column sample_output (py "商品编号") = Some [Int 111; NaN; Int 111].
Proof. vm_compute. reflexivity. Qed.

(** C2 (canonical shape).  Tables with distinct labels, under a
    configuration that does not list the code column among the matched
    columns, always yield an output table.  Whenever a table is produced,
    its column sequence is exactly the fifteen canonical names in order; a
    column of the accumulated table whose name is not canonical is absent
    from the output, a canonical name the accumulated table lacks is an
    all-null column, and a canonical name it has keeps its cells. *)
Theorem canonical_shape cfg df_input df_reference :
  (NoDup (columns df_input) -> NoDup (columns df_reference) ->
   MATERIAL_CODE_COLUMN cfg ∉ MATCHED_COLUMNS cfg ->
   exists out, value_of (build_output cfg df_input df_reference) = Ok out)
  /\ forall out,
       value_of (build_output cfg df_input df_reference) = Ok out ->
       columns out = column_order /\ length (columns out) = 15
       /\ exists acc,
            value_of (accumulate cfg df_input df_reference) = Ok acc
            /\ index out = index acc
            /\ (forall c, c ∈ columns acc -> c ∉ column_order -> c ∉ columns out)
            /\ (forall c, c ∈ column_order -> c ∉ columns acc ->
                  column out c = Some (replicate (len out) NaN))
            /\ (forall c cells, c ∈ column_order -> column acc c = Some cells ->
                  column out c = Some cells).
Proof.
  split; [apply build_output_total|].
  intros out Hv. apply build_output_Ok in Hv as (acc & Hacc & ->).
  rewrite columns_reindex_columns. split_and!; [done..|].
  exists acc. split_and!; try done.
  - intros c Hc Hnot. rewrite column_reindex_columns, decide_True by done.
    apply column_None in Hnot. by rewrite Hnot.
  - intros c cells Hc Hcells.
    rewrite column_reindex_columns, decide_True, Hcells by done. done.
Qed.

Lemma canonical_shape_witness :
  (NoDup (columns sample_input) /\ NoDup (columns sample_reference)
   /\ (MATERIAL_CODE_COLUMN sample_config ∉ MATCHED_COLUMNS sample_config)
   /\ value_of (build_output sample_config sample_input sample_reference)
      = Ok sample_output)
  /\ (exists out,
        value_of (build_output sample_config sample_input sample_reference) = Ok out)
  /\ columns sample_output = column_order.
Proof.
  assert (NoDup (columns sample_input)) as Hin by by_compute.
  assert (NoDup (columns sample_reference)) as Href by by_compute.
  assert (MATERIAL_CODE_COLUMN sample_config ∉ MATCHED_COLUMNS sample_config) as HK
    by by_compute.
  split; [split_and!; try done; exact sample_run|].
  destruct (canonical_shape sample_config sample_input sample_reference)
    as [Htotal Hshape].
  split; [exact (Htotal Hin Href HK)|].
  exact (proj1 (Hshape _ sample_run)).
Defined.

(** C3 (projection completeness), as the code has it.  A preserved name
    is a column of the output table exactly when it is one of the canonical
    names.  For such a name that is neither a matched nor a fixed column
    name, the column holds the cells of the source column that maps to it,
    and is entirely null when no source column does.  The warning is
    printed exactly for the preserved names without a source column. *)
Theorem projection_completeness cfg df_input df_reference out col :
  well_formed df_input ->
  value_of (build_output cfg df_input df_reference) = Ok out ->
  col ∈ PRESERVED_COLUMNS cfg ->
  (col ∈ columns out <-> col ∈ column_order)
  /\ (col ∈ column_order -> col ∉ MATCHED_COLUMNS cfg ->
      col ∉ (FIXED_COLUMNS cfg).*1 ->
      match source_column df_input col with
      | Some eng => exists cells,
                      column df_input eng = Some cells /\ column out col = Some cells
      | None => column out col = Some (replicate (len out) NaN)
      end)
  /\ (WarnColumnNotFound col ∈ log_of (build_output cfg df_input df_reference)
      <-> source_column df_input col = None).
Proof.
  intros Hwf Hv Hcol. split_and!.
  - pose proof Hv as Hv'. apply build_output_Ok in Hv' as (acc & _ & ->).
    by rewrite columns_reindex_columns.
  - intros Hcan Hm Hf.
    pose proof Hv as Hv'. apply build_output_Ok in Hv' as (acc & Hacc & ->).
    apply accumulate_Ok in Hacc as (t & Ht & ->).
    apply project_and_match_Ok in Ht as (d1 & Hd1 & Ht).
    apply preserved_loop in Hd1 as [Hal1 Hd1]; [|done|apply aligned_new_frame].
    apply match_columns_value in Ht as [_ Ht]; [|done..].
    specialize (Ht col). rewrite decide_False in Ht by tauto.
    specialize (Hd1 col). rewrite decide_True in Hd1 by done.
    rewrite column_reindex_columns, decide_True by done.
    rewrite fixed_fold_other, Ht, Hd1 by done.
    destruct (source_column df_input col) as [eng|] eqn:Hsrc.
    + apply find_source_Some in Hsrc as [Heng _].
      apply column_is_Some in Heng as [cells Hcells].
      exists cells. by rewrite Hcells.
    + by rewrite column_new_frame.
  - rewrite (build_output_warning _ _ _ _ _ Hv). tauto.
Qed.

Lemma projection_completeness_witness :
  (well_formed sample_input
   /\ value_of (build_output sample_config sample_input sample_reference) = Ok sample_output
   /\ py "项号" ∈ PRESERVED_COLUMNS sample_config)
  /\ (py "项号" ∈ columns sample_output <-> py "项号" ∈ column_order)
  /\ (py "项号" ∈ column_order -> py "项号" ∉ MATCHED_COLUMNS sample_config ->
      py "项号" ∉ (FIXED_COLUMNS sample_config).*1 ->
      match source_column sample_input (py "项号") with
      | Some eng => exists cells,
                      column sample_input eng = Some cells
                      /\ column sample_output (py "项号") = Some cells
      | None => column sample_output (py "项号") = Some (replicate (len sample_output) NaN)
      end)
  /\ (WarnColumnNotFound (py "项号")
        ∈ log_of (build_output sample_config sample_input sample_reference)
      <-> source_column sample_input (py "项号") = None).
Proof.
  assert (well_formed sample_input) as Hwf by (repeat constructor).
  assert (py "项号" ∈ PRESERVED_COLUMNS sample_config) as Hcol by by_compute.
  split; [by split_and!; try exact sample_run|].
  exact (projection_completeness _ _ _ _ _ Hwf sample_run Hcol).
Defined.

(** With the built-in configuration the preserved names are [Column1],
    [Column2] and [Column3]; none is canonical, so none is a column of the
    output table. *)
Lemma projection_counterexample :
  exists out,
    value_of (build_output default_config sample_input sample_reference) = Ok out
    /\ py "Column1" ∈ PRESERVED_COLUMNS default_config
    /\ py "Column1" ∉ columns out.
Proof.
  eexists. split; [vm_compute; reflexivity|]. split; by_compute.
Qed.

(** C4 (truncation).  Without an item-number column the table is left as
    it is.  With one (the label occurring once, in a table indexed from
    zero), the item numbers are replaced by their trimmed text,
    and the rows kept are exactly those before the first row whose text is
    blank (empty, white space only, or "nan"): all rows when there is no
    such row. *)
Theorem truncation df_input :
  (py "NO." ∉ columns df_input -> truncate_rows df_input = Ok df_input)
  /\ (forall nos,
        index df_input = seq 0 (len df_input) ->
        well_formed df_input ->
        occurs_once df_input (py "NO.") ->
        column df_input (py "NO.") = Some nos ->
        let texts := item_text <$> nos in
        let k := default (length texts) (first_blank texts) in
        exists df,
          truncate_rows df_input = Ok df
          /\ index df = seq 0 k
          /\ columns df = columns df_input
          /\ column df (py "NO.") = Some (Str <$> take k texts)
          /\ (forall c cells, c ≠ py "NO." -> column df_input c = Some cells ->
                column df c = Some (take k cells))
          /\ (forall i t, i < k -> texts !! i = Some t -> is_blank t = false)
          /\ (k < length texts -> exists t, texts !! k = Some t /\ is_blank t = true)).
Proof.
  split.
  { intros Hno. unfold truncate_rows. by rewrite decide_False. }
  intros nos Hidx Hwf Hone Hnos texts k.
  assert (py "NO." ∈ columns df_input) as Hin by (apply column_is_Some; eauto).
  assert (length nos = len df_input) as Hlen by (by eapply well_formed_column).
  unfold truncate_rows. rewrite decide_True by done.
  destruct (getitem_once df_input (py "NO.") Hone) as (nos' & Hnos' & ->).
  rewrite Hnos in Hnos'. injection Hnos' as <-. rewrite result_Ok_bind. simpl as_series.
  rewrite result_Ok_bind.
  assert (str_strip (astype_str (mkSeries (index df_input) nos))
          = mkSeries (index df_input) (Str <$> texts)) as ->.
  { unfold str_strip, astype_str, texts. simpl. f_equal.
    rewrite <- !list_fmap_compose. by apply list_fmap_ext. }
  rewrite setitem_series_same_index by (unfold texts; by rewrite !length_fmap).
  set (df1 := set_column df_input (py "NO.") (Str <$> texts)).
  assert (columns df1 = columns df_input) as Hcols by (by apply columns_set_column_elem).
  assert (index df1 = seq 0 (len df_input)) as Hidx1.
  { unfold df1. by rewrite index_set_column. }
  assert (forall c, column df1 c
                    = if decide (c = py "NO.") then Some (Str <$> texts) else column df_input c)
    as Hcol1 by (intros c; apply column_set_column).
  destruct (getitem_once df1 (py "NO.")) as (no1 & Hno1 & ->);
    [by apply occurs_once_set_column|].
  rewrite Hcol1, decide_True in Hno1 by done. simplify_eq.
  rewrite result_Ok_bind. simpl as_series. rewrite result_Ok_bind.
  assert (head (index (select_rows
                  (isin (mkSeries (index df1) (Str <$> texts))
                     [Str (py "nan"); Str (py ""); Str (py " ")]) df1))
          = first_blank texts) as Hhead.
  { unfold select_rows, isin. simpl. rewrite Hidx1, mask_filter_seq_head.
    - unfold texts. rewrite <- (first_blank_isin nos).
      replace (Str <$> (item_text <$> nos)) with ((fun v => Str (item_text v)) <$> nos)
        by (by rewrite <- list_fmap_compose).
      by destruct (list_find _ _) as [[??]|].
    - unfold texts. by rewrite !length_fmap. }
  assert (length texts = len df_input) as Hlt by (unfold texts; by rewrite length_fmap).
  assert ((forall i t, i < k -> texts !! i = Some t -> is_blank t = false)
          /\ (k < length texts -> exists t, texts !! k = Some t /\ is_blank t = true)
          /\ k <= length texts) as (Hbefore & Hat & Hk).
  { unfold k, first_blank.
    destruct (list_find (fun t => is_blank t = true) texts) as [[i x]|] eqn:E; simpl.
    - apply list_find_Some in E as (Hi & Hx & Hprev). split_and!.
      + intros j t Hj Ht. apply not_true_is_false. by eapply Hprev.
      + intros _. by exists x.
      + apply lookup_lt_Some in Hi. lia.
    - rewrite list_find_None, Forall_forall in E. split_and!; [|lia|lia].
      intros j t _ Ht. apply not_true_is_false. apply E.
      by eapply list_elem_of_lookup_2. }
  destruct (index (select_rows _ df1)) as [|first rest] eqn:Eidx; simpl in Hhead.
  - eexists. split; [done|].
    assert (k = len df_input) as Hkn by (unfold k; by rewrite <- Hhead, Hlt).
    rewrite <- Hlt in Hkn.
    split_and!; try done.
    + by rewrite Hidx1, Hkn, Hlt.
    + rewrite Hcol1, decide_True by done. by rewrite Hkn, firstn_all.
    + intros c cells Hc Hcells. rewrite Hcol1, decide_False, Hcells by done.
      f_equal. symmetry. apply take_ge.
      apply (well_formed_column _ _ _ Hwf) in Hcells. lia.
  - eexists. split; [done|].
    assert (k = first) as <- by (unfold k; by rewrite <- Hhead).
    split_and!; try done.
    + simpl. rewrite Hidx1. rewrite take_seq. f_equal. lia.
    + by rewrite columns_iloc_upto.
    + rewrite column_iloc_upto, Hcol1, decide_True by done. simpl.
      by rewrite fmap_take.
    + intros c cells Hc Hcells.
      by rewrite column_iloc_upto, Hcol1, decide_False, Hcells.
Qed.

Lemma truncation_witness :
  (index listed_input = seq 0 (len listed_input)
   /\ well_formed listed_input
   /\ occurs_once listed_input (py "NO.")
   /\ column listed_input (py "NO.") = Some [Int 1; Str (py " 2 "); Str (py "  "); Int 4]
   /\ item_text <$> [Int 1; Str (py " 2 "); Str (py "  "); Int 4]
      = [py "1"; py "2"; py ""; py "4"])
  /\ exists df,
       truncate_rows listed_input = Ok df
       /\ index df = seq 0 2
       /\ columns df = columns listed_input
       /\ column df (py "NO.") = Some [Str (py "1"); Str (py "2")]
       /\ (forall c cells, c ≠ py "NO." -> column listed_input c = Some cells ->
             column df c = Some (take 2 cells))
       /\ (forall i t, i < 2 -> [py "1"; py "2"; py ""; py "4"] !! i = Some t ->
             is_blank t = false)
       /\ (2 < 4 -> exists t, [py "1"; py "2"; py ""; py "4"] !! 2 = Some t
                              /\ is_blank t = true).
Proof.
  assert (index listed_input = seq 0 (len listed_input)) as Hidx by reflexivity.
  assert (well_formed listed_input) as Hwf by (repeat constructor).
  assert (occurs_once listed_input (py "NO.")) as Hnd by reflexivity.
  assert (column listed_input (py "NO.")
          = Some [Int 1; Str (py " 2 "); Str (py "  "); Int 4]) as Hnos
    by (vm_compute; reflexivity).
  split; [split_and!; try done; vm_compute; reflexivity|].
  exact (proj2 (truncation listed_input) _ Hidx Hwf Hnd Hnos).
Defined.

(** The example of the specification: of the item numbers "1", "2", "",
    "4" only the rows of "1" and "2" remain. *)
Example truncation_sample :
  truncate_rows listed_input
  = Ok (mkDataFrame [0; 1]
          [ (py "NO.", [Str (py "1"); Str (py "2")]);
            (py "DESCRIPTION", [Str (py "bolt"); Str (py "nut")]) ]).
Proof. vm_compute. reflexivity. Qed.

(** C5 (fixed overwrite).  For every pair of the fixed-column dict, the
    accumulated table holds the constant in every row of that column,
    whatever projection or join wrote there before, and so does the output
    table in the column of that name (present exactly when the name is
    canonical). *)
Theorem fixed_overwrite cfg df_input df_reference out name value :
  NoDup (FIXED_COLUMNS cfg).*1 ->
  (name, value) ∈ FIXED_COLUMNS cfg ->
  value_of (build_output cfg df_input df_reference) = Ok out ->
  (exists acc, value_of (accumulate cfg df_input df_reference) = Ok acc
               /\ column acc name = Some (replicate (len acc) value))
  /\ column out name
     = if decide (name ∈ column_order) then Some (replicate (len out) value) else None.
Proof.
  intros Hnd Hin Hv. apply build_output_Ok in Hv as (acc & Hacc & ->).
  pose proof Hacc as Hacc'. apply accumulate_Ok in Hacc' as (t & Ht & ->).
  assert (column (foldl (fun s it => setitem_scalar s it.1 it.2) t (FIXED_COLUMNS cfg)) name
          = Some (replicate
                    (len (foldl (fun s it => setitem_scalar s it.1 it.2) t (FIXED_COLUMNS cfg)))
                    value)) as Hcol.
  { rewrite (fixed_fold_column _ _ name value) by done.
    unfold len. by rewrite fixed_fold_index. }
  split; [eauto|].
  rewrite column_reindex_columns, Hcol. done.
Qed.

Lemma fixed_overwrite_witness :
  NoDup (FIXED_COLUMNS sample_config).*1
  /\ (py "品名", Str (py "GOODS")) ∈ FIXED_COLUMNS sample_config
  /\ py "品名" ∈ PRESERVED_COLUMNS sample_config
  /\ source_column sample_input (py "品名") = Some (py "DESCRIPTION")
  /\ column sample_output (py "品名") = Some (replicate 3 (Str (py "GOODS"))).
Proof.
  assert (NoDup (FIXED_COLUMNS sample_config).*1) as Hnd
    by by_compute.
  assert ((py "品名", Str (py "GOODS")) ∈ FIXED_COLUMNS sample_config) as Hin
    by by_compute.
  split_and!; [exact Hnd | exact Hin | by_compute
              | vm_compute; reflexivity |].
  exact (proj2 (fixed_overwrite _ _ _ _ _ _ Hnd Hin sample_run)).
Defined.

(** C6 (table loader), as the code has it.  The loader reads the second
    sheet of a work book with two or more sheets and the first otherwise.
    The table it returns is built from the rows of that sheet after the
    first nine, as the reader hands them over (filled up to the widest row
    of the sheet): the tenth row gives the labels, the parsed columns lose
    their first cell, and the remaining rows are indexed from zero.  When
    at least one row and one label remain, the labels that are text are
    trimmed and the others become the missing label, unless no label is
    text, in which case the trimming stops the load with [AttributeError];
    otherwise the labels are left as parsed. *)
Theorem loader_contract
    (infer_header : list cell -> list pystr)
    (convert_cell : list cell -> nat -> cell) (fs : filesystem)
    input_file wb sheet :
  fs !! input_file = Some wb ->
  selected_sheet wb = Some sheet ->
  match drop 9 (sheet_data sheet) with
  | [] => value_of (load_input infer_header convert_cell fs input_file) = Ok new_frame
  | header :: body =>
    let labels := infer_header header in
    let loaded (names : list pystr) :=
      exists df,
        value_of (load_input infer_header convert_cell fs input_file) = Ok df
        /\ index df = seq 0 (length (drop 1 body))
        /\ columns df = names
        /\ (items df).*2
           = (fun j => drop 1 (parse_column convert_cell (column_of_rows j body)))
               <$> seq 0 (length labels) in
    if bool_decide (drop 1 body ≠ [] /\ labels ≠ [])
    then if existsb is_text labels
         then loaded ((fun l => if is_text l then strip l else nan_label) <$> labels)
         else value_of (load_input infer_header convert_cell fs input_file)
              = Raise AttributeError
    else loaded labels
  end.
Proof.
  intros Hfs Hsel.
  rewrite (load_input_value infer_header convert_cell _ _ _ _ Hfs Hsel).
  destruct (drop 9 (sheet_data sheet)) as [|header body]; [done|].
  cbv zeta. rewrite strip_guard.
  destruct (bool_decide (drop 1 body ≠ [] /\ infer_header header ≠ [])) eqn:Hguard.
  - unfold columns_str_strip. rewrite columns_parsed_below.
    apply bool_decide_eq_true in Hguard as [_ Hne].
    rewrite (bool_decide_eq_false_2 (infer_header header = [])) by done.
    rewrite orb_false_r.
    destruct (existsb is_text (infer_header header)); [|done].
    eexists. split; [done|]. split_and!.
    + done.
    + by rewrite columns_strip_labels, columns_parsed_below.
    + by rewrite values_strip_labels, values_parsed_below.
  - eexists. split; [done|]. split_and!.
    + done.
    + apply columns_parsed_below.
    + apply values_parsed_below.
Qed.

Lemma loader_contract_witness :
  (sample_files !! py "in.xlsx" = Some [short_sheet; long_sheet]
   /\ selected_sheet [short_sheet; long_sheet] = Some long_sheet)
  /\ exists df,
       value_of (load_input simple_header plain_cell sample_files (py "in.xlsx")) = Ok df
       /\ index df = [0; 1]
       /\ columns df = [py "NO."; py "Qty"]
       /\ (items df).*2 = [[Int 1; Int 2]; [Int 10; Int 20]].
Proof.
  assert (sample_files !! py "in.xlsx" = Some [short_sheet; long_sheet]) as Hfs
    by (vm_compute; reflexivity).
  assert (selected_sheet [short_sheet; long_sheet] = Some long_sheet) as Hsel
    by reflexivity.
  split; [done|].
  exact (loader_contract simple_header plain_cell sample_files (py "in.xlsx") _ _ Hfs Hsel).
Defined.

(** One row is left after the nine skipped rows and the heading; it is
    discarded, the table is empty, and the padded labels stay as they
    are. *)
Lemma loader_counterexample :
  exists df,
    value_of (load_input simple_header plain_cell short_files (py "in.xlsx")) = Ok df
    /\ columns df = [py " NO. "; py "Qty "]
    /\ columns df ≠ strip <$> columns df.
Proof.
  eexists. split; [vm_compute; reflexivity|]. split; [reflexivity|].
  vm_compute. discriminate.
Qed.

(** A banner row wider than the heading row widens the table: the reader
    fills the heading row up, and the added column is named after its
    position. *)
Example loader_wide_banner :
  exists df,
    value_of (load_input simple_header plain_cell wide_banner_files (py "in.xlsx")) = Ok df
    /\ columns df = [py "NO."; py "Qty"; py "Unnamed: 2"]
    /\ (items df).*2 = [[Int 1]; [Int 10]; [NaN]].
Proof. eexists. split; [vm_compute; reflexivity|]. split; reflexivity. Qed.

(** Headings that are all numbers: the trimming of line 87 stops the
    load. *)
Example loader_numeric_headings :
  value_of (load_input simple_header plain_cell yearly_files (py "in.xlsx"))
  = Raise AttributeError.
Proof. vm_compute. reflexivity. Qed.

(** C7 (code-column normalization) fails on the code.  The first source
    code is "A1 " and the reference lists "A1"; the two agree once the code
    is trimmed, yet the run leaves the matched cell null. *)
Theorem code_column_not_normalized :
  strip (py "A1 ") = py "A1"
  /\ exists out,
       returned (convert_excel simple_header plain_cell sample_config posix
                   (py "in.xlsx") (py "ref.xlsx") (py "out.xlsx") padded_files) = Ok out
       /\ column out (py "项号") = Some [Str (py "1"); Str (py "2")]
       /\ column out (py "商品编号") = Some [NaN; Int 200].
Proof.
  split; [reflexivity|]. eexists. split; [vm_compute; reflexivity|].
  split; reflexivity.
Qed.

(** C8 (auto-open) fails on the code.  On a Windows machine where
    [os.startfile] raises, the output file is written and the success line
    printed, and then the call ends in that exception instead of returning
    the table.  On the same files the call returns the table where the
    open succeeds and where it is not attempted, and the file written is
    the same in all three cases. *)
Theorem auto_open_failure_is_fatal :
  let run_on pf :=
    convert_excel simple_header plain_cell sample_config pf
      (py "in.xlsx") (py "ref.xlsx") (py "out.xlsx") padded_files in
  startfile windows_unassociated (py "out.xlsx") = Raise OSError
  /\ write_file windows_unassociated (py "out.xlsx") = Written
  /\ returned (run_on windows_unassociated) = Raise OSError
  /\ files (run_on windows_unassociated) !! py "out.xlsx" = Some (to_excel padded_output)
  /\ last (stdout (run_on windows_unassociated)) = Some Completed
  /\ returned (run_on windows) = Ok padded_output
  /\ returned (run_on posix) = Ok padded_output
  /\ files (run_on windows_unassociated) = files (run_on windows)
  /\ files (run_on windows_unassociated) = files (run_on posix).
Proof. cbv zeta. split_and!; vm_compute; reflexivity. Qed.

(** C10 (zero rows).  When no preserved name has a source column and the
    join writes no column, the conversion still yields a table, and that
    table has no rows whatever the number of input rows: the fixed values
    land in a frame without index.  The sheet written from it consists of
    the canonical heading row alone. *)
Theorem zero_rows cfg df_input df_reference :
  (forall col, col ∈ PRESERVED_COLUMNS cfg -> source_column df_input col = None) ->
  (material_code_eng cfg ∉ columns df_input
   \/ MATERIAL_CODE_COLUMN cfg ∉ columns df_reference
   \/ forall c, c ∈ MATCHED_COLUMNS cfg -> c ∉ columns df_reference) ->
  exists out,
    value_of (build_output cfg df_input df_reference) = Ok out
    /\ index out = [] /\ columns out = column_order
    /\ (forall c cells, column out c = Some cells -> cells = [])
    /\ to_excel out = [[Str <$> column_order]].
Proof.
  intros Hps Hidle.
  assert (value_of (accumulate cfg df_input df_reference)
          = Ok (foldl (fun s it => setitem_scalar s it.1 it.2) new_frame
                  (FIXED_COLUMNS cfg))) as Hacc.
  { unfold accumulate, project_and_match.
    rewrite !value_bind, preserved_loop_None by done.
    rewrite result_Ok_bind, match_columns_idle by done.
    rewrite result_Ok_bind. apply fixed_loop_value. }
  eexists. split; [by apply build_output_value|].
  assert (index (reindex_columns
                   (foldl (fun s it => setitem_scalar s it.1 it.2)
                      (new_frame : DataFrame nat)
                      (FIXED_COLUMNS cfg)) column_order) = []) as Hidx.
  { simpl. by rewrite fixed_fold_index. }
  split_and!; [done | apply columns_reindex_columns | |].
  - intros c cells Hc. apply well_formed_column in Hc.
    + unfold len in Hc. rewrite Hidx in Hc. by apply length_zero_iff_nil.
    + apply well_formed_reindex_columns, fixed_fold_well_formed. by apply Forall_nil.
  - unfold to_excel, len. by rewrite Hidx, columns_reindex_columns.
Qed.

Lemma zero_rows_witness :
  ((forall col, col ∈ PRESERVED_COLUMNS default_config ->
      source_column sample_input col = None)
   /\ (forall c, c ∈ MATCHED_COLUMNS default_config -> c ∉ columns sample_reference)
   /\ len sample_input = 3)
  /\ exists out,
       value_of (build_output default_config sample_input sample_reference) = Ok out
       /\ index out = [] /\ columns out = column_order
       /\ (forall c cells, column out c = Some cells -> cells = [])
       /\ to_excel out = [[Str <$> column_order]].
Proof.
  assert (forall col, col ∈ PRESERVED_COLUMNS default_config ->
            source_column sample_input col = None) as Hps.
  { apply Forall_forall. by_compute. }
  assert (forall c, c ∈ MATCHED_COLUMNS default_config -> c ∉ columns sample_reference)
    as Hms.
  { apply Forall_forall. by_compute. }
  split; [by split_and!|].
  exact (zero_rows default_config sample_input sample_reference Hps
           (or_intror (or_intror Hms))).
Defined.


(** * Further properties of the code *)

(** ** Trimming twice *)

Lemma lstrip_id s :
  (forall c r, s = c :: r -> isspace c = false) -> lstrip s = s.
Proof.
  destruct s as [|c r]; [done|]. intros Hc. simpl. by rewrite (Hc c r).
Qed.

Lemma strip_last s r c : strip s = r ++ [c] -> isspace c = false.
Proof.
  unfold strip, rstrip. intros Hs.
  apply (f_equal reverse) in Hs. rewrite reverse_involutive, reverse_app in Hs.
  simpl in Hs. by apply lstrip_head in Hs.
Qed.

Lemma strip_strip s : strip (strip s) = strip s.
Proof.
  assert (lstrip (strip s) = strip s) as Hl.
  { apply lstrip_id. intros c r. apply strip_head. }
  unfold strip at 1. rewrite Hl. unfold rstrip.
  rewrite lstrip_id; [by rewrite reverse_involutive|].
  intros c r Hr. apply (f_equal reverse) in Hr.
  rewrite reverse_involutive, reverse_cons in Hr. by apply strip_last in Hr.
Qed.

(** ** The loaded table, read off the sheet *)

(** X1 (trimmed labels).  A loaded table that has at least one row bears
    only labels without leading or trailing white space: trimming any of
    them again changes nothing. *)
Theorem loaded_labels_trimmed (infer_header : list cell -> list pystr)
    (convert_cell : list cell -> nat -> cell)
    (fs : filesystem) (input_file : pystr) df label :
  value_of (load_input infer_header convert_cell fs input_file) = Ok df ->
  0 < len df ->
  label ∈ columns df ->
  strip label = label
  /\ (forall c r, label = c :: r -> isspace c = false)
  /\ (forall r c, label = r ++ [c] -> isspace c = false).
Proof.
  intros Hv Hlen Hin. apply load_input_cases in Hv as (df0 & _ & _ & Hdf).
  assert (exists l, label = strip_label l) as [l ->].
  { destruct (negb (empty_frame df0) && bool_decide (0 < length (columns df0))) eqn:Hguard.
    - apply columns_str_strip_Ok in Hdf as ->.
      rewrite columns_strip_labels in Hin.
      apply list_elem_of_fmap in Hin as (l & -> & _). by exists l.
    - subst df0. exfalso. unfold empty_frame in Hguard.
      rewrite (bool_decide_eq_false_2 (len df = 0)) in Hguard by lia.
      destruct (columns df) as [|c cs]; [by apply elem_of_nil in Hin|].
      rewrite (bool_decide_eq_false_2 (length (c :: cs) = 0)) in Hguard by done.
      rewrite bool_decide_eq_true_2 in Hguard by (simpl; lia). done. }
  unfold strip_label. destruct (is_text l).
  - split_and!.
    + apply strip_strip.
    + intros c r. apply strip_head.
    + intros r c. apply strip_last.
  - split_and!.
    + reflexivity.
    + intros c r Hl. by injection Hl as <- _.
    + intros r c Hl. destruct r as [|c' r]; simpl in Hl.
      * by injection Hl as <-.
      * injection Hl as _ Hl. by destruct r.
Qed.

Lemma loaded_labels_trimmed_witness :
  exists df,
    value_of (load_input simple_header plain_cell sample_files (py "in.xlsx")) = Ok df
    /\ 0 < len df
    /\ py "NO." ∈ columns df
    /\ strip (py "NO.") = py "NO."
    /\ (forall c r, py "NO." = c :: r -> isspace c = false)
    /\ (forall r c, py "NO." = r ++ [c] -> isspace c = false).
Proof.
  eexists.
  assert (value_of (load_input simple_header plain_cell sample_files (py "in.xlsx")) = Ok _) as Hv
    by (vm_compute; reflexivity).
  assert (0 < len (mkDataFrame [0; 1] [(py "NO.", [Int 1; Int 2]); (py "Qty", [Int 10; Int 20])]))
    as Hlen by (vm_compute; lia).
  assert (py "NO." ∈ columns
            (mkDataFrame [0; 1] [(py "NO.", [Int 1; Int 2]); (py "Qty", [Int 10; Int 20])]))
    as Hin by by_compute.
  split; [exact Hv|]. split; [exact Hlen|]. split; [exact Hin|].
  exact (loaded_labels_trimmed _ _ _ _ _ _ Hv Hlen Hin).
Defined.

(** ** The row filter applied twice *)

Lemma iloc_upto_all {L} k (df : DataFrame L) :
  well_formed df -> len df <= k -> iloc_upto k df = df.
Proof.
  destruct df as [idx its]. unfold well_formed, iloc_upto, len. simpl.
  intros Hwf Hk. f_equal; [by apply take_ge|].
  induction Hwf as [|[c v] its Hv _ IH]; [done|]. csimpl. f_equal; [|done].
  simpl in *. f_equal. apply take_ge. lia.
Qed.

Lemma set_column_self {L} (df : DataFrame L) key vals :
  occurs_once df key -> column df key = Some vals -> set_column df key vals = df.
Proof.
  intros Hone Hcol. unfold set_column.
  rewrite decide_True by (apply column_is_Some; eauto).
  unfold occurs_once in Hone.
  destruct (filter (fun p => p.1 = key) (items df)) as [|p [|??]] eqn:E; try done.
  pose proof (filter_label_head _ _ _ _ E) as [_ Hp].
  unfold column in Hcol. rewrite Hp in Hcol. injection Hcol as <-.
  rewrite (replace_single _ _ _ E). by destruct df.
Qed.

Lemma truncate_rows_once df df' :
  truncate_rows df = Ok df' -> py "NO." ∈ columns df -> occurs_once df (py "NO.").
Proof.
  unfold truncate_rows, occurs_once. intros Ht Hin. rewrite decide_True in Ht by done.
  apply result_bind_Ok in Ht as (sel & Hsel & Ht).
  apply result_bind_Ok in Ht as (no & Hno & _).
  unfold getitem in Hsel.
  destruct (filter _ (items df)) as [|p [|??]]; by simplify_eq.
Qed.

Lemma first_blank_bounds texts :
  let k := default (length texts) (first_blank texts) in
  k <= length texts /\ first_blank (take k texts) = None.
Proof.
  unfold first_blank.
  destruct (list_find (fun t => is_blank t = true) texts) as [[i x]|] eqn:E; simpl.
  - apply list_find_Some in E as (Hi & Hx & Hprev).
    split; [apply lookup_lt_Some in Hi; lia|].
    assert (list_find (fun t => is_blank t = true) (take i texts) = None) as ->; [|done].
    apply list_find_None, Forall_forall. intros t Ht.
    apply list_elem_of_lookup in Ht as [j Hj].
    apply lookup_take_Some in Hj as [Hj Hlt]. by eapply Hprev.
  - split; [lia|]. by rewrite firstn_all, E.
Qed.

(** The table the filter yields, in closed form. *)
Lemma truncate_rows_value df_input nos :
  index df_input = seq 0 (len df_input) ->
  well_formed df_input ->
  occurs_once df_input (py "NO.") ->
  column df_input (py "NO.") = Some nos ->
  truncate_rows df_input
  = Ok (iloc_upto (default (length nos) (first_blank (item_text <$> nos)))
          (set_column df_input (py "NO.") (Str <$> (item_text <$> nos)))).
Proof.
  intros Hidx Hwf Hone Hnos.
  assert (py "NO." ∈ columns df_input) as Hin by (apply column_is_Some; eauto).
  assert (length nos = len df_input) as Hlen by (by eapply well_formed_column).
  unfold truncate_rows. rewrite decide_True by done.
  destruct (getitem_once df_input (py "NO.") Hone) as (nos' & Hnos' & ->).
  rewrite Hnos in Hnos'. injection Hnos' as <-. rewrite result_Ok_bind. simpl as_series.
  rewrite result_Ok_bind.
  assert (str_strip (astype_str (mkSeries (index df_input) nos))
          = mkSeries (index df_input) (Str <$> (item_text <$> nos))) as ->.
  { unfold str_strip, astype_str. simpl. f_equal.
    rewrite <- !list_fmap_compose. by apply list_fmap_ext. }
  rewrite setitem_series_same_index by (by rewrite !length_fmap).
  set (df1 := set_column df_input (py "NO.") (Str <$> (item_text <$> nos))).
  assert (index df1 = seq 0 (len df_input)) as Hidx1.
  { unfold df1. by rewrite index_set_column. }
  assert (well_formed df1) as Hwf1.
  { apply well_formed_set_column; [done|]. by rewrite !length_fmap. }
  destruct (getitem_once df1 (py "NO.")) as (no1 & Hno1 & ->);
    [by apply occurs_once_set_column|].
  unfold df1 in Hno1. rewrite column_set_column, decide_True in Hno1 by done.
  injection Hno1 as <-. fold df1.
  rewrite result_Ok_bind. simpl as_series. rewrite result_Ok_bind.
  assert (head (index (select_rows
                  (isin (mkSeries (index df1) (Str <$> (item_text <$> nos)))
                     [Str (py "nan"); Str (py ""); Str (py " ")]) df1))
          = first_blank (item_text <$> nos)) as Hhead.
  { unfold select_rows, isin. simpl. rewrite Hidx1, mask_filter_seq_head.
    - rewrite <- (first_blank_isin nos).
      replace (Str <$> (item_text <$> nos)) with ((fun v => Str (item_text v)) <$> nos)
        by (by rewrite <- list_fmap_compose).
      by destruct (list_find _ _) as [[??]|].
    - by rewrite !length_fmap. }
  destruct (index (select_rows _ df1)) as [|first rest] eqn:Eidx; simpl in Hhead.
  - rewrite <- Hhead. simpl. rewrite iloc_upto_all; [done|done|].
    unfold len. rewrite Hidx1, length_seq. lia.
  - by rewrite <- Hhead.
Qed.

(** X2 (the filter is idempotent).  A table the filter has produced is left
    as it is by the filter: its item numbers are already trimmed text and
    none of them is blank. *)
Theorem truncation_idempotent df df' :
  well_formed df ->
  index df = seq 0 (len df) ->
  truncate_rows df = Ok df' ->
  truncate_rows df' = Ok df'.
Proof.
  intros Hwf Hidx Ht.
  destruct (decide (py "NO." ∈ columns df)) as [Hin|Hout].
  2:{ unfold truncate_rows in Ht. rewrite decide_False in Ht by done.
      injection Ht as <-. unfold truncate_rows. by rewrite decide_False. }
  pose proof (truncate_rows_once _ _ Ht Hin) as Hone.
  destruct (getitem_once df (py "NO.") Hone) as (nos & Hnos & _).
  rewrite (truncate_rows_value df nos Hidx Hwf Hone Hnos) in Ht. injection Ht as Hdf'.
  set (texts := item_text <$> nos) in *.
  set (k := default (length nos) (first_blank texts)) in *.
  set (df1 := set_column df (py "NO.") (Str <$> texts)) in *.
  assert (length texts = length nos) as Hlt by (unfold texts; by rewrite length_fmap).
  assert (length nos = len df) as Hlen by (by eapply well_formed_column).
  destruct (first_blank_bounds texts) as [Hk Hnone]. rewrite Hlt in Hk, Hnone.
  fold k in Hk, Hnone.
  assert (well_formed df1) as Hwf1.
  { apply well_formed_set_column; [done|]. by rewrite length_fmap, Hlt. }
  assert (well_formed df') as Hwf' by (subst df'; by apply well_formed_iloc_upto).
  assert (index df' = seq 0 k) as Hidx'.
  { subst df'. simpl. unfold df1. rewrite index_set_column, Hidx, take_seq.
    f_equal. lia. }
  assert (len df' = k) as Hlen' by (unfold len; by rewrite Hidx', length_seq).
  assert (column df' (py "NO.") = Some (Str <$> take k texts)) as Hcol'.
  { subst df'. unfold df1.
    rewrite column_iloc_upto, column_set_column, decide_True by done. simpl.
    by rewrite fmap_take. }
  assert (occurs_once df' (py "NO.")) as Hone'.
  { pose proof (occurs_once_set_column df (py "NO.") (Str <$> texts) Hone) as H1.
    fold df1 in H1. subst df'. unfold occurs_once, iloc_upto in *. simpl.
    rewrite <- H1. clear. induction (items df1) as [|[c v] its IH]; [done|].
    csimpl. rewrite !filter_cons. simpl. case_decide; simpl; by rewrite IH. }
  assert (item_text <$> (Str <$> take k texts) = take k texts) as Htexts'.
  { rewrite <- list_fmap_compose. rewrite <- (list_fmap_id (take k texts)) at 2.
    apply Forall_fmap_ext, Forall_forall. intros t Ht.
    apply list_elem_of_lookup in Ht as [i Hi].
    apply lookup_take_Some in Hi as [Hi _]. unfold texts in Hi.
    rewrite list_lookup_fmap in Hi.
    destruct (nos !! i) as [v|]; [|done]. injection Hi as <-.
    unfold item_text. simpl. apply strip_strip. }
  rewrite (truncate_rows_value df' (Str <$> take k texts)); try done.
  2:{ by rewrite Hidx', Hlen'. }
  rewrite Htexts', Hnone. simpl.
  rewrite set_column_self by done.
  rewrite iloc_upto_all; [done|done|].
  rewrite length_fmap, length_take. lia.
Qed.

Lemma truncation_idempotent_witness :
  well_formed listed_input
  /\ index listed_input = seq 0 (len listed_input)
  /\ exists df',
       truncate_rows listed_input = Ok df'
       /\ len df' = 2
       /\ truncate_rows df' = Ok df'.
Proof.
  assert (well_formed listed_input) as Hwf by (repeat constructor).
  assert (index listed_input = seq 0 (len listed_input)) as Hidx by reflexivity.
  split; [exact Hwf|]. split; [exact Hidx|]. eexists.
  assert (truncate_rows listed_input = Ok _) as Ht by (vm_compute; reflexivity).
  split; [exact Ht|]. split; [reflexivity|].
  exact (truncation_idempotent _ _ Hwf Hidx Ht).
Defined.

(** ** Runs that stop before the tables are read *)

Lemma W_bind_Ok {A B} (m : W A) (f : A -> W B) a :
  value_of m = Ok a -> m ≫= f = mkW (log_of m ++ log_of (f a)) (value_of (f a)).
Proof. intros Hm. unfold mbind, W_bind. by rewrite Hm. Qed.

Lemma W_bind_Raise {A B} (m : W A) (f : A -> W B) e :
  value_of m = Raise e -> m ≫= f = mkW (log_of m) (Raise e).
Proof. intros Hm. unfold mbind, W_bind. by rewrite Hm. Qed.

Lemma log_bind_nil {A B} (m : W A) (f : A -> W B) :
  log_of m = [] -> (forall a, log_of (f a) = []) -> log_of (m ≫= f) = [].
Proof.
  intros Hm Hf. unfold mbind, W_bind. destruct (value_of m); simpl; [|done].
  by rewrite Hm, Hf.
Qed.

Lemma load_input_log (infer_header : list cell -> list pystr)
    (convert_cell : list cell -> nat -> cell) (fs : filesystem)
    (input_file : pystr) :
  log_of (load_input infer_header convert_cell fs input_file) = [ReadingInput input_file].
Proof.
  unfold load_input. rewrite (W_bind_Ok _ _ tt) by done. simpl.
  f_equal. apply log_bind_nil; [done|]. intros wb.
  apply log_bind_nil; [done|]. intros df.
  apply log_bind_nil; [by destruct (bool_decide _)|]. intros df1.
  by destruct (_ && _).
Qed.

(** X3 (missing input file).  When nothing is stored at the input path the
    call ends with [FileNotFoundError] after its first printed line; the
    file system is as it was, whatever the reference and output paths. *)
Theorem missing_input_file (infer_header : list cell -> list pystr)
    (convert_cell : list cell -> nat -> cell) (cfg : config)
    (pf : platform) (input_file reference_file output_file : pystr) (fs : filesystem) :
  fs !! input_file = None ->
  convert_excel infer_header convert_cell cfg pf input_file reference_file output_file fs
  = mkRun [ReadingInput input_file] fs (Raise FileNotFoundError).
Proof.
  intros Hnone. unfold convert_excel, read_tables, load_input, ExcelFile.
  by rewrite Hnone.
Qed.

Lemma missing_input_file_witness :
  padded_files !! py "absent.xlsx" = None
  /\ convert_excel simple_header plain_cell sample_config windows
       (py "absent.xlsx") (py "ref.xlsx") (py "out.xlsx") padded_files
     = mkRun [ReadingInput (py "absent.xlsx")] padded_files (Raise FileNotFoundError).
Proof.
  assert (padded_files !! py "absent.xlsx" = None) as Hnone by (vm_compute; reflexivity).
  split; [exact Hnone|].
  exact (missing_input_file simple_header plain_cell sample_config windows
           (py "absent.xlsx") (py "ref.xlsx") (py "out.xlsx") padded_files Hnone).
Defined.

(** X4 (missing reference file).  When the input has been loaded and
    filtered but nothing is stored at the reference path, the call ends
    with [FileNotFoundError]: three lines are printed, the last naming the
    reference file, and the file system is as it was. *)
Theorem missing_reference_file (infer_header : list cell -> list pystr)
    (convert_cell : list cell -> nat -> cell) (cfg : config)
    (pf : platform) (input_file reference_file output_file : pystr) (fs : filesystem)
    df_loaded df_input :
  value_of (load_input infer_header convert_cell fs input_file) = Ok df_loaded ->
  truncate_rows df_loaded = Ok df_input ->
  fs !! reference_file = None ->
  convert_excel infer_header convert_cell cfg pf input_file reference_file output_file fs
  = mkRun [ReadingInput input_file; InputColumns (columns df_input);
           ReadingReference reference_file]
      fs (Raise FileNotFoundError).
Proof.
  intros Hload Htrunc Hnone.
  pose proof (load_input_shape _ _ _ _ _ Hload) as [Hwf _].
  assert (read_tables infer_header convert_cell fs input_file reference_file
          = mkW [ReadingInput input_file; InputColumns (columns df_input);
                 ReadingReference reference_file] (Raise FileNotFoundError)) as Htables.
  { unfold read_tables. rewrite (W_bind_Ok _ _ df_loaded) by done.
    rewrite load_input_log, (text_cells_not_stripped _ Hwf).
    rewrite (W_bind_Ok _ _ df_loaded) by done. rewrite Htrunc.
    rewrite (W_bind_Ok _ _ df_input) by done.
    unfold read_excel, ExcelFile. by rewrite Hnone. }
  unfold convert_excel. by rewrite Htables.
Qed.

Lemma missing_reference_file_witness :
  exists df_loaded df_input,
    value_of (load_input simple_header plain_cell sample_files (py "in.xlsx")) = Ok df_loaded
    /\ truncate_rows df_loaded = Ok df_input
    /\ sample_files !! py "ref.xlsx" = None
    /\ convert_excel simple_header plain_cell sample_config posix
         (py "in.xlsx") (py "ref.xlsx") (py "out.xlsx") sample_files
       = mkRun [ReadingInput (py "in.xlsx"); InputColumns (columns df_input);
                ReadingReference (py "ref.xlsx")]
           sample_files (Raise FileNotFoundError).
Proof.
  eexists _, _.
  assert (value_of (load_input simple_header plain_cell sample_files (py "in.xlsx")) = Ok _) as Hload
    by (vm_compute; reflexivity).
  assert (truncate_rows
            (mkDataFrame [0; 1] [(py "NO.", [Int 1; Int 2]); (py "Qty", [Int 10; Int 20])])
          = Ok _) as Htrunc by (vm_compute; reflexivity).
  assert (sample_files !! py "ref.xlsx" = None) as Hnone by (vm_compute; reflexivity).
  split; [exact Hload|]. split; [exact Htrunc|]. split; [exact Hnone|].
  exact (missing_reference_file simple_header plain_cell sample_config posix
           (py "in.xlsx") (py "ref.xlsx") (py "out.xlsx") sample_files _ _
           Hload Htrunc Hnone).
Defined.

(** ** The closing lines of a run *)

Lemma copy_preserved_before_saving df_input col mapping s :
  Forall before_saving (log_of (copy_preserved df_input col mapping s)).
Proof.
  induction mapping as [|[eng cn] mapping IH]; simpl.
  - unfold before_saving. quiet_log.
  - case_decide; [|done]. quiet_log.
Qed.

Lemma read_tables_before_saving (infer_header : list cell -> list pystr)
    (convert_cell : list cell -> nat -> cell)
    (fs : filesystem) (input_file reference_file : pystr) :
  Forall before_saving (log_of (read_tables infer_header convert_cell fs input_file reference_file)).
Proof.
  unfold read_tables. apply log_bind_Forall.
  { rewrite load_input_log. by apply Forall_singleton. }
  intros df. unfold before_saving. quiet_log.
Qed.

Lemma build_output_before_saving cfg df_input df_reference :
  Forall before_saving (log_of (build_output cfg df_input df_reference)).
Proof.
  unfold build_output, accumulate, project_and_match.
  apply log_bind_Forall; [|intros ?; unfold before_saving; quiet_log].
  apply log_bind_Forall; [|intros ?; unfold add_fixed, before_saving; quiet_log].
  apply log_bind_Forall.
  { apply for_each_log_Forall. intros. apply copy_preserved_before_saving. }
  intros d1. unfold match_columns, before_saving. quiet_log. case_decide; quiet_log.
  - unfold add_mapping. case_decide; quiet_log.
  - unfold apply_mapping. destruct (_ !! _); quiet_log.
Qed.

Lemma before_saving_not_in (l : list message) :
  Forall before_saving l -> (Completed ∉ l) /\ forall output_file, Saving output_file ∉ l.
Proof.
  rewrite Forall_forall. intros Hl. split.
  - intros Hin. by destruct (Hl _ Hin).
  - intros f Hin. destruct (Hl _ Hin) as [_ Hs]. by apply (Hs f).
Qed.

(** X5 (written exactly when announced).  Every call ends in one of
    three ways.  An exception stops it before the write: the file system
    is as it was, and neither the saving line nor the success line is
    printed.  Or the write itself fails: the saving line is the last line
    printed, the success line is not printed, the call ends in the
    exception of the write, and every path other than the output path
    holds what it held.  Or the output is written: the work book of a
    table with the canonical columns is stored at the output path, the
    saving line and the success line are the last two lines printed and
    occur nowhere before, and the call returns that table unless opening
    the file raises. *)
Theorem written_exactly_when_announced (infer_header : list cell -> list pystr)
    (convert_cell : list cell -> nat -> cell)
    (cfg : config) (pf : platform) (input_file reference_file output_file : pystr)
    (fs : filesystem) :
  let r := convert_excel infer_header convert_cell cfg pf
             input_file reference_file output_file fs in
  (exists e,
     returned r = Raise e /\ files r = fs
     /\ (Completed ∉ stdout r) /\ forall f, Saving f ∉ stdout r)
  \/ (exists e l,
        write_file pf output_file ≠ Written
        /\ returned r = Raise e
        /\ stdout r = l ++ [Saving output_file]
        /\ (Completed ∉ stdout r) /\ (forall f, Saving f ∉ l)
        /\ (files r = fs \/ files r = delete output_file fs)
        /\ forall path, path ≠ output_file -> files r !! path = fs !! path)
  \/ (exists t l,
        write_file pf output_file = Written
        /\ stdout r = l ++ [Saving output_file; Completed]
        /\ (Completed ∉ l) /\ (forall f, Saving f ∉ l)
        /\ files r = <[output_file := to_excel t]> fs
        /\ columns t = column_order
        /\ (returned r = Ok t
            \/ os_name pf = py "nt"
               /\ exists e, startfile pf output_file = Raise e /\ returned r = Raise e)).
Proof.
  intros r. subst r. unfold convert_excel.
  set (tables := _ ≫= _).
  assert (Forall before_saving (log_of tables)) as Hlog.
  { unfold tables. apply log_bind_Forall; [apply read_tables_before_saving|].
    intros [df_input df_reference]. apply build_output_before_saving. }
  apply before_saving_not_in in Hlog as [Hc Hs].
  destruct (value_of tables) as [t|e] eqn:Ht; [|left; by exists e].
  right.
  assert (Completed ∉ log_of tables ++ [Saving output_file]) as Hc'.
  { rewrite elem_of_app, list_elem_of_singleton. by intros [?|?]. }
  destruct (write_file pf output_file) as [|e|e] eqn:Hw.
  - right. exists t, (log_of tables).
    assert (columns t = column_order) as Hcols.
    { unfold tables in Ht. apply bind_Ok in Ht as ([df_input df_reference] & _ & Ht).
      apply build_output_Ok in Ht as (acc & _ & ->). apply columns_reindex_columns. }
    rewrite <- app_assoc. simpl.
    case_decide as Hnt; [|by auto 10].
    destruct (startfile pf output_file) as [[]|e] eqn:Hopen; simpl; [by auto 10|].
    split_and!; try done. right. split; [done|]. by exists e.
  - left. exists e, (log_of tables). simpl. split_and!; try done; auto.
  - left. exists e, (log_of tables). simpl. split_and!; try done; auto.
    intros path Hne. by apply lookup_delete_ne.
Qed.

(** ** The shape of the output table *)

Lemma for_each_invariant {A S} (P : S -> Prop) (body : A -> S -> W S) xs s out :
  (forall x s s', P s -> value_of (body x s) = Ok s' -> P s') ->
  P s -> value_of (for_each xs body s) = Ok out -> P out.
Proof.
  intros Hbody. revert s. induction xs as [|x xs IH]; intros s Hs Hv.
  - simpl in Hv. by simplify_eq.
  - apply for_each_cons_Ok in Hv as (s' & Hx & Hv). eauto.
Qed.

Lemma setitem_series_well_formed df_input s col vals :
  aligned df_input s -> well_formed s -> length vals = len df_input ->
  well_formed (setitem_series s col (mkSeries (index df_input) vals)).
Proof.
  intros [_ Hal] Hwf Hlen.
  unfold setitem_series, ensure_valid_index, reindex_like. simpl.
  destruct (bool_decide (len s = 0) && bool_decide (0 < length vals)) eqn:E; simpl.
  - rewrite decide_True by done. apply well_formed_set_column; [|done].
    unfold well_formed, len. simpl. apply Forall_fmap, Forall_forall.
    intros p _. simpl. by rewrite length_replicate.
  - assert (index s = index df_input) as Hidx.
    { destruct Hal as [?| ->]; [done|]. simpl in *.
      apply bool_decide_eq_false in E. symmetry. apply length_zero_iff_nil.
      unfold len in Hlen. lia. }
    rewrite Hidx, decide_True by done. apply well_formed_set_column; [done|].
    unfold len. by rewrite Hidx.
Qed.

Section shape_facts.
Variable cfg : config.

Lemma project_and_match_well_formed df_input df_reference t :
  well_formed df_input ->
  value_of (project_and_match cfg df_input df_reference) = Ok t ->
  well_formed t.
Proof.
  intros Hwf Ht. apply project_and_match_Ok in Ht as (d1 & Hd1 & Ht).
  set (P := fun s : DataFrame nat => aligned df_input s /\ well_formed s).
  cut (P t); [by intros [_ ?]|].
  assert (P d1) as Hd1'.
  { revert Hd1. apply for_each_invariant.
    - intros col s s' [Hal Hs] Hv.
      apply copy_preserved_value in Hv; [|by destruct Hal].
      destruct (find_source _ _ _); [|by subst].
      destruct Hv as (vals & Hvals & ->).
      pose proof (well_formed_column _ _ _ Hwf Hvals) as Hlen.
      split; [by apply setitem_series_aligned | by apply setitem_series_well_formed].
    - split; [apply aligned_new_frame | by apply Forall_nil]. }
  unfold match_columns in Ht.
  apply bind_Ok in Ht as ([] & _ & Ht). case_decide.
  - apply bind_Ok in Ht as ([] & _ & Ht).
    apply bind_Ok in Ht as (rd & _ & Ht).
    revert Ht. apply for_each_invariant; [|done].
    intros col s s' [Hal Hs] Hv. apply apply_mapping_value in Hv.
    destruct (rd !! col) as [d|]; [|by subst].
    destruct Hv as (codes & Hcodes & ->).
    assert (length ((fun v => default NaN (d !! v)) <$> codes) = len df_input) as Hlen.
    { rewrite length_fmap. by eapply well_formed_column. }
    split; [by apply setitem_series_aligned | by apply setitem_series_well_formed].
  - apply bind_Ok in Ht as ([] & _ & Ht).
    apply bind_Ok in Ht as ([] & _ & Ht).
    apply bind_Ok in Ht as ([] & _ & Ht). simpl in Ht. by simplify_eq.
Qed.

Lemma build_output_well_formed df_input df_reference out :
  well_formed df_input ->
  value_of (build_output cfg df_input df_reference) = Ok out ->
  well_formed out.
Proof.
  intros Hwf Hv. apply build_output_Ok in Hv as (acc & Hacc & ->).
  apply accumulate_Ok in Hacc as (t & Ht & ->).
  apply well_formed_reindex_columns, fixed_fold_well_formed.
  by eapply project_and_match_well_formed.
Qed.

End shape_facts.

(** X6 (the written sheet is the table).  The table handed to the writer
    is rectangular, each of its 15 columns having one cell per row, so the
    sheet written is the heading of the canonical names followed by one row
    of 15 cells per table row, and the cell in row [i] under heading [j] is
    cell [i] of column [j] of the table: no cell is made up by the
    writer. *)
Theorem written_sheet_is_table cfg df_input df_reference out :
  well_formed df_input ->
  value_of (build_output cfg df_input df_reference) = Ok out ->
  well_formed out
  /\ exists rows,
       to_excel out = [(Str <$> column_order) :: rows]
       /\ length rows = len out
       /\ Forall (fun row => length row = 15) rows
       /\ forall i j row v,
            rows !! i = Some row -> row !! j = Some v ->
            exists c cells,
              column_order !! j = Some c
              /\ column out c = Some cells
              /\ cells !! i = Some v.
Proof.
  intros Hwf Hv.
  pose proof (build_output_well_formed _ _ _ _ Hwf Hv) as Hwfo.
  split; [done|].
  apply build_output_Ok in Hv as (acc & _ & Hout).
  assert (columns out = column_order) as Hcols
    by (subst out; apply columns_reindex_columns).
  unfold to_excel. rewrite Hcols. eexists. split; [done|]. split_and!.
  - by rewrite length_fmap, length_seq.
  - apply Forall_fmap, Forall_forall. intros i _. simpl.
    rewrite length_fmap.
    rewrite <- (length_fmap fst (items out)). fold (columns out). by rewrite Hcols.
  - intros i j row v Hrow Hcell.
    rewrite list_lookup_fmap in Hrow.
    destruct (seq 0 (len out) !! i) as [i'|] eqn:Hi; [|done].
    apply lookup_seq in Hi as [-> Hlt]. simpl in Hrow. injection Hrow as <-.
    rewrite list_lookup_fmap in Hcell.
    destruct (items out !! j) as [[c cells]|] eqn:Hj; [|done].
    simpl in Hcell. exists c, cells.
    assert (column_order !! j = Some c) as Hc.
    { rewrite <- Hcols. unfold columns. by rewrite list_lookup_fmap, Hj. }
    assert (column out c = Some cells) as Hcol.
    { assert (NoDup (columns out)) as Hnd by (rewrite Hcols; by_compute).
      pose proof (list_elem_of_lookup_2 _ _ _ Hj) as Hin.
      destruct (filter_label_NoDup (items out) c Hnd) as [w Hw].
      { apply list_elem_of_fmap. by exists (c, cells). }
      assert ((c, cells) ∈ filter (fun q => q.1 = c) (items out)) as Hf
        by (by apply list_elem_of_filter).
      rewrite Hw in Hf. apply list_elem_of_singleton in Hf. injection Hf as <-.
      unfold column. by destruct (filter_label_head _ _ _ _ Hw) as [_ ->]. }
    split_and!; [done..|].
    unfold well_formed in Hwfo. rewrite Forall_forall in Hwfo.
    pose proof (Hwfo _ (list_elem_of_lookup_2 _ _ _ Hj)) as Hlen. simpl in Hlen.
    destruct (cells !! i) as [w|] eqn:Hw; [by simplify_eq|].
    apply lookup_ge_None in Hw. lia.
Qed.

Lemma written_sheet_is_table_witness :
  well_formed padded_input
  /\ value_of (build_output sample_config padded_input padded_reference) = Ok padded_output
  /\ well_formed padded_output
  /\ exists rows,
       to_excel padded_output = [(Str <$> column_order) :: rows]
       /\ length rows = len padded_output
       /\ Forall (fun row => length row = 15) rows
       /\ forall i j row v,
            rows !! i = Some row -> row !! j = Some v ->
            exists c cells,
              column_order !! j = Some c
              /\ column padded_output c = Some cells
              /\ cells !! i = Some v.
Proof.
  assert (well_formed padded_input) as Hwf by (repeat constructor).
  split; [exact Hwf|]. split; [exact padded_run|].
  exact (written_sheet_is_table _ _ _ _ Hwf padded_run).
Defined.

(** X7 (rows are kept).  The output has the row labels of the filtered
    input or none at all; it has those of the input as soon as one
    preserved name has a source column, or the join is enabled and one
    matched name is a column of the reference table.  No step drops,
    duplicates or reorders rows. *)
Theorem rows_kept cfg df_input df_reference out :
  well_formed df_input ->
  value_of (build_output cfg df_input df_reference) = Ok out ->
  (index out = index df_input \/ index out = [])
  /\ ((exists c, c ∈ PRESERVED_COLUMNS cfg /\ is_Some (source_column df_input c))
      \/ (material_code_eng cfg ∈ columns df_input
          /\ MATERIAL_CODE_COLUMN cfg ∈ columns df_reference
          /\ exists c, c ∈ MATCHED_COLUMNS cfg /\ c ∈ columns df_reference) ->
      index out = index df_input).
Proof.
  intros Hwf Hv. apply build_output_Ok in Hv as (acc & Hacc & ->).
  apply accumulate_Ok in Hacc as (t & Ht & ->).
  change (index (reindex_columns ?d _)) with (index d).
  rewrite fixed_fold_index.
  pose proof (project_and_match_aligned _ _ _ _ Hwf Ht) as [_ Hal].
  split; [by destruct Hal as [?| ->]; auto|].
  intros Hsome. destruct Hal as [?|Hnew]; [done|]. exfalso.
  assert (exists c, is_Some (column t c)) as [c [vals Hc]]; [|by rewrite Hnew in Hc].
  apply project_and_match_Ok in Ht as (d1 & Hd1 & Ht).
  apply preserved_loop in Hd1 as [Hal1 Hd1]; [|done|apply aligned_new_frame].
  apply match_columns_value in Ht as [_ Ht]; [|done..].
  destruct Hsome as [(c & Hc & [eng Heng])|(Heng & HK & c & Hc & Hcr)].
  - exists c. specialize (Ht c). specialize (Hd1 c).
    rewrite decide_True, Heng in Hd1 by done.
    apply find_source_Some in Heng as [Hin _].
    apply column_is_Some in Hin. rewrite <- Hd1 in Hin.
    case_decide; [|by rewrite Ht].
    destruct Ht as (? & ? & ? & _ & _ & _ & ->). done.
  - exists c. specialize (Ht c). rewrite decide_True in Ht by done.
    destruct Ht as (? & ? & ? & _ & _ & _ & ->). done.
Qed.

Lemma rows_kept_witness :
  well_formed padded_input
  /\ value_of (build_output sample_config padded_input padded_reference) = Ok padded_output
  /\ (index padded_output = index padded_input \/ index padded_output = [])
  /\ ((exists c, c ∈ PRESERVED_COLUMNS sample_config
                 /\ is_Some (source_column padded_input c))
      \/ (material_code_eng sample_config ∈ columns padded_input
          /\ MATERIAL_CODE_COLUMN sample_config ∈ columns padded_reference
          /\ exists c, c ∈ MATCHED_COLUMNS sample_config /\ c ∈ columns padded_reference) ->
      index padded_output = index padded_input).
Proof.
  assert (well_formed padded_input) as Hwf by (repeat constructor).
  split; [exact Hwf|]. split; [exact padded_run|].
  exact (rows_kept _ _ _ _ Hwf padded_run).
Defined.

(** ** Labels that collide *)

Lemma filter_label_length (its : list (pystr * list cell)) key :
  length (filter (fun p => p.1 = key) its) = length (filter (fun l => l = key) its.*1).
Proof.
  induction its as [|[c v] its IH]; [done|]. csimpl. rewrite !filter_cons. simpl.
  case_decide; simpl; by rewrite IH.
Qed.

Lemma isspace_is_text c : isspace c = true -> is_text [c] = true.
Proof.
  unfold isspace, is_text. simpl. rewrite andb_true_r.
  rewrite !orb_true_iff, !andb_true_iff, !N.leb_le, !N.eqb_eq, N.ltb_lt. lia.
Qed.

Lemma is_text_cons c l : is_text (c :: l) = is_text [c] && is_text l.
Proof. unfold is_text. simpl. by rewrite andb_true_r. Qed.

Lemma is_text_app l1 l2 : is_text (l1 ++ l2) = is_text l1 && is_text l2.
Proof. unfold is_text. apply forallb_app. Qed.

Lemma is_text_reverse l : is_text (reverse l) = is_text l.
Proof.
  induction l as [|c l IH]; [done|].
  rewrite reverse_cons, is_text_app, IH, (is_text_cons c l). apply andb_comm.
Qed.

Lemma lstrip_is_text l : is_text (lstrip l) = true -> is_text l = true.
Proof.
  induction l as [|c l IH]; [done|]. cbn [lstrip].
  destruct (isspace c) eqn:Hc; [|done]. intros Hl.
  by rewrite is_text_cons, (isspace_is_text c Hc), IH.
Qed.

(** Only text strips to text. *)
Lemma strip_is_text l : is_text (strip l) = true -> is_text l = true.
Proof.
  unfold strip, rstrip. rewrite is_text_reverse. intros Hl.
  apply lstrip_is_text in Hl. rewrite is_text_reverse in Hl.
  by apply lstrip_is_text.
Qed.

Lemma strip_label_eq l key :
  is_text key = true -> strip_label l = key <-> strip l = key.
Proof.
  intros Hkey. unfold strip_label. destruct (is_text l) eqn:Hl; [done|].
  split.
  - intros <-. done.
  - intros <-. apply strip_is_text in Hkey. congruence.
Qed.

Lemma filter_strip_length (labels : list pystr) key :
  is_text key = true ->
  length (filter (fun l => l = key) (strip_label <$> labels))
  = length (filter (fun l => strip l = key) labels).
Proof.
  intros Hkey. induction labels as [|l labels IH]; [done|]. csimpl.
  rewrite !filter_cons. pose proof (strip_label_eq l key Hkey).
  repeat case_decide; simpl; rewrite ?IH; tauto.
Qed.

Lemma getitem_repeated {L} (df : DataFrame L) key :
  2 <= length (filter (fun p => p.1 = key) (items df)) ->
  exists d, getitem df key = Ok (SubFrame d).
Proof.
  unfold getitem. destruct (filter _ (items df)) as [|p [|q r]]; simpl; [lia|lia|].
  by eexists.
Qed.

(** X8 (labels merged by the trimming).  When the sheet has a data row and
    two or more of its heading labels trim to [NO.], the trimming of line
    87 gives them the same label; the item-number column is then no longer
    a single column and the filter stops the call with [AttributeError]
    before the reference file is read. *)
Theorem trimming_merges_labels (infer_header : list cell -> list pystr)
    (convert_cell : list cell -> nat -> cell)
    (fs : filesystem) (input_file reference_file : pystr)
    wb sheet header discarded row rest :
  fs !! input_file = Some wb ->
  selected_sheet wb = Some sheet ->
  drop 9 (sheet_data sheet) = header :: discarded :: row :: rest ->
  2 <= length (filter (fun l => strip l = py "NO.") (infer_header header)) ->
  read_tables infer_header convert_cell fs input_file reference_file
  = mkW [ReadingInput input_file] (Raise AttributeError).
Proof.
  intros Hfs Hsel Hrows Htwo.
  pose proof (load_input_value infer_header convert_cell _ _ _ _ Hfs Hsel) as Hload.
  rewrite Hrows in Hload. cbv zeta in Hload. rewrite strip_guard in Hload.
  set (parsed := parsed_below infer_header convert_cell header
                   (discarded :: row :: rest)) in *.
  assert (columns parsed = infer_header header) as Hcols
    by apply columns_parsed_below.
  assert (exists l, l ∈ infer_header header /\ strip l = py "NO.") as (l & Hl & Hstrip).
  { destruct (filter (fun l => strip l = py "NO.") (infer_header header))
      as [|l ?] eqn:E; [simpl in Htwo; lia|].
    assert (l ∈ filter (fun l => strip l = py "NO.") (infer_header header)) as Hin
      by (rewrite E; left).
    apply list_elem_of_filter in Hin as [??]. by exists l. }
  rewrite bool_decide_eq_true_2 in Hload.
  2:{ split; [done|]. intros Hnil. rewrite Hnil in Hl. by apply elem_of_nil in Hl. }
  unfold columns_str_strip in Hload. rewrite Hcols in Hload.
  assert (existsb is_text (infer_header header) = true) as Htext.
  { apply existsb_exists. exists l. split; [by apply list_elem_of_In|].
    apply strip_is_text. by rewrite Hstrip. }
  rewrite Htext in Hload. simpl in Hload.
  set (df := strip_labels parsed) in *.
  assert (well_formed df) as Hwf
    by apply well_formed_strip_labels, well_formed_parsed_below.
  assert (2 <= length (filter (fun p => p.1 = py "NO.") (items df))) as Hrep.
  { rewrite filter_label_length. fold (columns df). unfold df.
    by rewrite columns_strip_labels, Hcols, filter_strip_length. }
  assert (truncate_rows df = Raise AttributeError) as Htrunc.
  { unfold truncate_rows. rewrite decide_True.
    - by destruct (getitem_repeated df (py "NO.") Hrep) as [d ->].
    - unfold columns. rewrite filter_label_length in Hrep.
      destruct (filter (fun l => l = py "NO.") (items df).*1) as [|l' ?] eqn:E;
        [simpl in Hrep; lia|].
      assert (l' ∈ filter (fun l => l = py "NO.") (items df).*1) as Hl'
        by (rewrite E; left).
      by apply list_elem_of_filter in Hl' as [-> ?]. }
  unfold read_tables. rewrite (W_bind_Ok _ _ df) by done.
  rewrite load_input_log, (text_cells_not_stripped _ Hwf).
  rewrite (W_bind_Ok _ _ df) by done. by rewrite Htrunc.
Qed.

Lemma trimming_merges_labels_witness :
  exists wb sheet header discarded row rest,
    merging_files !! py "in.xlsx" = Some wb
    /\ selected_sheet wb = Some sheet
    /\ drop 9 (sheet_data sheet) = header :: discarded :: row :: rest
    /\ 2 <= length (filter (fun l => strip l = py "NO.") (simple_header header))
    /\ read_tables simple_header plain_cell merging_files (py "in.xlsx") (py "ref.xlsx")
       = mkW [ReadingInput (py "in.xlsx")] (Raise AttributeError).
Proof.
  eexists _, _, _, _, _, _.
  assert (merging_files !! py "in.xlsx" = Some _) as Hfs by (vm_compute; reflexivity).
  assert (selected_sheet
            [ replicate 9 [Str (py "banner")]
              ++ [ [Str (py " NO."); Str (py "NO. "); Str (py "Qty")];
                   [Str (py "(no)"); Str (py "(no)"); Str (py "(pcs)")];
                   [Int 1; Int 1; Int 10] ] ] = Some _) as Hsel by reflexivity.
  assert (drop 9 (sheet_data
                    (replicate 9 [Str (py "banner")]
                     ++ [ [Str (py " NO."); Str (py "NO. "); Str (py "Qty")];
                          [Str (py "(no)"); Str (py "(no)"); Str (py "(pcs)")];
                          [Int 1; Int 1; Int 10] ]))
          = [Str (py " NO."); Str (py "NO. "); Str (py "Qty")]
            :: [Str (py "(no)"); Str (py "(no)"); Str (py "(pcs)")]
            :: [Int 1; Int 1; Int 10] :: []) as Hrows by (vm_compute; reflexivity).
  assert (2 <= length (filter (fun l => strip l = py "NO.")
                         (simple_header [Str (py " NO."); Str (py "NO. "); Str (py "Qty")])))
    as Htwo by (vm_compute; lia).
  split; [exact Hfs|]. split; [exact Hsel|]. split; [exact Hrows|]. split; [exact Htwo|].
  exact (trimming_merges_labels simple_header plain_cell merging_files
           (py "in.xlsx") (py "ref.xlsx") _ _ _ _ _ _ Hfs Hsel Hrows Htwo).
Defined.

(** ** The code column listed as a matched column *)

Lemma preserved_loop_total df_input ps s :
  NoDup (columns df_input) -> NoDup (columns s) ->
  exists d1,
    value_of (for_each ps (fun col => copy_preserved df_input col COLUMN_MAPPING) s) = Ok d1
    /\ NoDup (columns d1).
Proof.
  intros Hin. revert s. induction ps as [|p ps IH]; intros s Hs; [by exists s|].
  destruct (copy_preserved_total df_input p COLUMN_MAPPING s Hin Hs) as (s1 & Hs1 & Hnd1).
  destruct (IH s1 Hnd1) as (d1 & Hd1 & ?).
  exists d1. by rewrite for_each_cons, value_bind, Hs1.
Qed.

Lemma add_mapping_cases cfg df_reference col rd :
  NoDup (columns df_reference) ->
  MATERIAL_CODE_COLUMN cfg ∈ columns df_reference ->
  if decide (col = MATERIAL_CODE_COLUMN cfg)
  then value_of (add_mapping cfg df_reference col rd) = Raise KeyError
  else exists rd', value_of (add_mapping cfg df_reference col rd) = Ok rd'.
Proof.
  intros Hnd HK. unfold add_mapping.
  destruct (getitem_unique df_reference (MATERIAL_CODE_COLUMN cfg)) as (keys & _ & HgK);
    [done..|].
  case_decide as Hcol.
  - subst col. rewrite decide_True by done.
    rewrite value_bind. simpl. rewrite value_bind. simpl.
    unfold set_index. rewrite HgK. simpl.
    rewrite value_bind. simpl. unfold getitem. simpl.
    rewrite filter_label_absent; [done|].
    intros Hin. apply list_elem_of_fmap in Hin as (p & Hp & Hin).
    by apply list_elem_of_filter in Hin as [? _].
  - case_decide as Hc; [|by eexists].
    rewrite value_bind. simpl. rewrite value_bind. simpl.
    unfold set_index. rewrite HgK. simpl.
    rewrite value_bind. simpl.
    match goal with
    | |- context [getitem ?keyed col] =>
      destruct (getitem_unique keyed col) as (vals & _ & Hg)
    end.
    + by apply NoDup_filter_labels.
    + apply column_is_Some. unfold column. simpl.
      rewrite lookup_items_filter_ne, decide_False by done.
      by apply column_is_Some.
    + rewrite Hg. simpl. by eexists.
Qed.

Lemma reference_dict_loop_raises cfg df_reference ms rd :
  NoDup (columns df_reference) ->
  MATERIAL_CODE_COLUMN cfg ∈ columns df_reference ->
  MATERIAL_CODE_COLUMN cfg ∈ ms ->
  value_of (for_each ms (add_mapping cfg df_reference) rd) = Raise KeyError.
Proof.
  intros Hnd HK. revert rd. induction ms as [|m ms IH]; intros rd Hin.
  { by apply elem_of_nil in Hin. }
  rewrite for_each_cons, value_bind.
  pose proof (add_mapping_cases cfg df_reference m rd Hnd HK) as Hm.
  case_decide as Heq.
  - by rewrite Hm.
  - destruct Hm as [rd' ->]. rewrite result_Ok_bind. apply IH.
    apply elem_of_cons in Hin as [?|?]; [by subst|done].
Qed.

(** X9 (code column among the matched columns).  When the join is enabled
    and the configured code column is itself listed among the matched
    columns, the call stops with [KeyError] while the dictionaries are
    built: the reference table keyed by its code column has no column of
    that name left to read. *)
Theorem code_column_matched cfg df_input df_reference :
  NoDup (columns df_input) ->
  NoDup (columns df_reference) ->
  material_code_eng cfg ∈ columns df_input ->
  MATERIAL_CODE_COLUMN cfg ∈ columns df_reference ->
  MATERIAL_CODE_COLUMN cfg ∈ MATCHED_COLUMNS cfg ->
  value_of (build_output cfg df_input df_reference) = Raise KeyError.
Proof.
  intros Hin Href Heng HK Hm.
  destruct (preserved_loop_total df_input (PRESERVED_COLUMNS cfg) new_frame Hin)
    as (d1 & Hd1 & _); [apply NoDup_nil_2|].
  unfold build_output, accumulate, project_and_match.
  rewrite !value_bind, Hd1, result_Ok_bind.
  unfold match_columns. rewrite value_bind. simpl.
  rewrite decide_True by done.
  rewrite value_bind. simpl. rewrite value_bind.
  by rewrite reference_dict_loop_raises.
Qed.

Lemma code_column_matched_witness :
  NoDup (columns sample_input)
  /\ NoDup (columns sample_reference)
  /\ material_code_eng self_matched_config ∈ columns sample_input
  /\ MATERIAL_CODE_COLUMN self_matched_config ∈ columns sample_reference
  /\ MATERIAL_CODE_COLUMN self_matched_config ∈ MATCHED_COLUMNS self_matched_config
  /\ value_of (build_output self_matched_config sample_input sample_reference)
     = Raise KeyError.
Proof.
  assert (NoDup (columns sample_input)) as Hin by by_compute.
  assert (NoDup (columns sample_reference)) as Href by by_compute.
  assert (material_code_eng self_matched_config ∈ columns sample_input) as Heng
    by by_compute.
  assert (MATERIAL_CODE_COLUMN self_matched_config ∈ columns sample_reference) as HK
    by by_compute.
  assert (MATERIAL_CODE_COLUMN self_matched_config ∈ MATCHED_COLUMNS self_matched_config)
    as Hm by by_compute.
  split_and!; [exact Hin | exact Href | exact Heng | exact HK | exact Hm |].
  exact (code_column_matched _ _ _ Hin Href Heng HK Hm).
Defined.

(** ** The loop over the text columns *)

(** X10 (the text-column loop changes nothing).  Whatever the file system
    holds, reading the tables prints and yields exactly what it would
    without the loop of lines 91-92: the loaded table goes to the row
    filter as it is, no cell trimmed. *)
Theorem text_loop_has_no_effect (infer_header : list cell -> list pystr)
    (convert_cell : list cell -> nat -> cell)
    (fs : filesystem) (input_file reference_file : pystr) :
  read_tables infer_header convert_cell fs input_file reference_file
  = (df_input ← load_input infer_header convert_cell fs input_file;
     df_input ← lift (truncate_rows df_input);
     print (InputColumns (columns df_input));;
     print (ReadingReference reference_file);;
     df_reference ← lift (read_excel infer_header convert_cell fs reference_file 0 0);
     mret (df_input, df_reference)).
Proof.
  unfold read_tables.
  destruct (value_of (load_input infer_header convert_cell fs input_file)) as [df|e] eqn:Hload.
  - rewrite (W_bind_Ok _ _ df Hload), (W_bind_Ok _ _ df Hload).
    pose proof (load_input_shape _ _ _ _ _ Hload) as [Hwf _].
    rewrite (text_cells_not_stripped _ Hwf).
    by rewrite (W_bind_Ok (lift (Ok df)) _ df eq_refl).
  - by rewrite (W_bind_Raise _ _ e Hload), (W_bind_Raise _ _ e Hload).
Qed.

(** ** The reverse lookup of the code column *)

Lemma next_key_unique (mapping : list (pystr * pystr)) target default k :
  NoDup mapping.*2 -> (k, target) ∈ mapping -> next_key mapping target default = k.
Proof.
  intros Hnd Hin. unfold next_key.
  destruct (list_find (fun kv => kv.2 = target) mapping) as [[i [k' v']]|] eqn:E.
  - apply list_find_Some in E as (Hi & Hv & _). simpl in *. subst v'.
    apply list_elem_of_lookup in Hin as [j Hj].
    assert (i = j) as ->; [|by simplify_eq].
    eapply NoDup_lookup; [done|..]; rewrite list_lookup_fmap.
    + by rewrite Hi.
    + by rewrite Hj.
  - rewrite list_find_None, Forall_forall in E. by destruct (E _ Hin).
Qed.

Lemma next_key_absent (mapping : list (pystr * pystr)) target default :
  target ∉ mapping.*2 -> next_key mapping target default = default.
Proof.
  intros Hout. unfold next_key.
  destruct (list_find (fun kv => kv.2 = target) mapping) as [[i kv]|] eqn:E; [|done].
  apply list_find_Some in E as (Hi & Hv & _). exfalso. apply Hout.
  apply list_elem_of_fmap. exists kv. split; [done|]. by eapply list_elem_of_lookup_2.
Qed.

(** X11 (one source label per target).  No two entries of the mapping
    table have the same target label, so the reverse lookup of line 150
    finds the only source label mapped to the configured code column, and
    falls back to the configured name exactly when the table does not have
    it as a target.  Hence, when the projector finds a source column for
    the code column's label, the join reads its codes from that same
    column. *)
Theorem code_column_lookup cfg :
  (forall eng, (eng, MATERIAL_CODE_COLUMN cfg) ∈ COLUMN_MAPPING ->
     material_code_eng cfg = eng)
  /\ (MATERIAL_CODE_COLUMN cfg ∉ COLUMN_MAPPING.*2 ->
      material_code_eng cfg = MATERIAL_CODE_COLUMN cfg)
  /\ (forall df_input eng,
        source_column df_input (MATERIAL_CODE_COLUMN cfg) = Some eng ->
        material_code_eng cfg = eng /\ material_code_eng cfg ∈ columns df_input).
Proof.
  assert (NoDup COLUMN_MAPPING.*2) as Hnd by by_compute.
  split_and!.
  - intros eng Hin. by apply next_key_unique.
  - apply next_key_absent.
  - intros df_input eng Hsrc. apply find_source_Some in Hsrc as [Hin Hmap].
    unfold material_code_eng. by rewrite (next_key_unique _ _ _ eng).
Qed.

Lemma code_column_lookup_witness :
  (py "NO.", MATERIAL_CODE_COLUMN item_keyed_config) ∈ COLUMN_MAPPING
  /\ material_code_eng item_keyed_config = py "NO."
  /\ (MATERIAL_CODE_COLUMN sample_config ∉ COLUMN_MAPPING.*2)
  /\ material_code_eng sample_config = py "MaterialCode"
  /\ source_column sample_input (MATERIAL_CODE_COLUMN item_keyed_config) = Some (py "NO.")
  /\ material_code_eng item_keyed_config ∈ columns sample_input.
Proof.
  assert ((py "NO.", MATERIAL_CODE_COLUMN item_keyed_config) ∈ COLUMN_MAPPING) as Hin
    by by_compute.
  assert (MATERIAL_CODE_COLUMN sample_config ∉ COLUMN_MAPPING.*2) as Hout by by_compute.
  assert (source_column sample_input (MATERIAL_CODE_COLUMN item_keyed_config)
          = Some (py "NO.")) as Hsrc by (vm_compute; reflexivity).
  split; [exact Hin|].
  split; [exact (proj1 (code_column_lookup item_keyed_config) _ Hin)|].
  split; [exact Hout|].
  split; [exact (proj1 (proj2 (code_column_lookup sample_config)) Hout)|].
  split; [exact Hsrc|].
  exact (proj2 (proj2 (proj2 (code_column_lookup item_keyed_config)) _ _ Hsrc)).
Defined.

(** ** The transcript of a successful build *)

Lemma print_bind {B} (m : message) (f : unit -> W B) :
  print m ≫= f = mkW (m :: log_of (f tt)) (value_of (f tt)).
Proof. done. Qed.

Lemma add_mapping_log cfg df_reference col rd :
  log_of (add_mapping cfg df_reference col rd)
  = if decide (col ∈ columns df_reference)
    then [CreatingMapping col] else [WarnMatchedNotFound col].
Proof.
  unfold add_mapping. case_decide; [|done].
  rewrite print_bind. simpl. f_equal.
  repeat (apply log_bind_nil; [done|intros ?]). done.
Qed.

Lemma apply_mapping_log cfg df_input rd col s :
  log_of (apply_mapping cfg df_input rd col s)
  = match rd !! col with Some _ => [ApplyingMapping col] | None => [] end.
Proof.
  unfold apply_mapping. destruct (rd !! col); [|done].
  rewrite print_bind. simpl. f_equal.
  repeat (apply log_bind_nil; [done|intros ?]). done.
Qed.

Lemma bind_filter_fmap {A B} (P : A -> Prop) `{forall x, Decision (P x)}
    (f : A -> list B) (g : A -> B) (xs : list A) :
  (forall x, x ∈ xs -> f x = if decide (P x) then [g x] else []) ->
  xs ≫= f = g <$> filter P xs.
Proof.
  induction xs as [|x xs IH]; intros Hf; [done|].
  csimpl. rewrite filter_cons, (Hf x) by left.
  rewrite IH by (intros y Hy; apply Hf; by right).
  by case_decide.
Qed.

Lemma bind_singleton_fmap {A B} (g : A -> B) (xs : list A) :
  xs ≫= (fun x => [g x]) = g <$> xs.
Proof. induction xs as [|x xs IH]; [done|]. csimpl. by rewrite IH. Qed.

(** X12 (transcript).  A build that yields a table prints, in this order:
    one warning per preserved name without a source column; the line
    naming the code columns; when both code columns exist, the line saying
    so, then for every matched name either the line announcing its mapping
    or the warning that the reference table lacks it, then one line per
    matched name that the reference table has; when a code column is
    missing, the warning and the two lists of available columns instead;
    one line per fixed column; and the three closing lines, the last
    listing the canonical columns. *)
Theorem build_transcript cfg df_input df_reference out :
  value_of (build_output cfg df_input df_reference) = Ok out ->
  log_of (build_output cfg df_input df_reference)
  = (WarnColumnNotFound
       <$> filter (fun c => source_column df_input c = None) (PRESERVED_COLUMNS cfg))
    ++ [LookingForCode (material_code_eng cfg) (MATERIAL_CODE_COLUMN cfg)]
    ++ (if decide (material_code_eng cfg ∈ columns df_input
                   /\ MATERIAL_CODE_COLUMN cfg ∈ columns df_reference)
        then FoundCodeColumns
             :: ((fun c => if decide (c ∈ columns df_reference)
                           then CreatingMapping c else WarnMatchedNotFound c)
                   <$> MATCHED_COLUMNS cfg)
             ++ (ApplyingMapping
                   <$> filter (fun c => c ∈ columns df_reference) (MATCHED_COLUMNS cfg))
        else [WarnCodeColumnMissing;
              InputColumnsAvailable (columns df_input);
              ReferenceColumnsAvailable (columns df_reference)])
    ++ ((fun it => AddingFixed it.1 it.2) <$> FIXED_COLUMNS cfg)
    ++ [Reordering; ColumnOrder column_order; FinalColumns column_order].
Proof.
  intros Hv. apply build_output_Ok in Hv as (acc & Hacc & _).
  pose proof Hacc as Hacc'. unfold accumulate in Hacc'.
  apply bind_Ok in Hacc' as (t & Ht & Hfix).
  pose proof Ht as Ht'. unfold project_and_match in Ht'.
  apply bind_Ok in Ht' as (d1 & Hd1 & Hm).
  assert (log_of (for_each (PRESERVED_COLUMNS cfg)
                    (fun col => copy_preserved df_input col COLUMN_MAPPING) new_frame)
          = WarnColumnNotFound
              <$> filter (fun c => source_column df_input c = None) (PRESERVED_COLUMNS cfg))
    as Hpres.
  { rewrite (for_each_log
               (fun col => match source_column df_input col with
                           | Some _ => []
                           | None => [WarnColumnNotFound col]
                           end)
               (fun col => copy_preserved df_input col COLUMN_MAPPING) _ _ _
               (fun x s => copy_preserved_log df_input x COLUMN_MAPPING s) Hd1).
    apply bind_filter_fmap. intros c _. unfold source_column.
    destruct (find_source _ _ _); by case_decide. }
  assert (log_of (for_each (FIXED_COLUMNS cfg) add_fixed t)
          = (fun it => AddingFixed it.1 it.2) <$> FIXED_COLUMNS cfg) as Hfixed.
  { rewrite (for_each_log (fun it => [AddingFixed it.1 it.2]) add_fixed _ _ _
               (fun x s => eq_refl) Hfix).
    apply bind_singleton_fmap. }
  assert (log_of (match_columns cfg df_input df_reference d1)
          = LookingForCode (material_code_eng cfg) (MATERIAL_CODE_COLUMN cfg)
            :: (if decide (material_code_eng cfg ∈ columns df_input
                           /\ MATERIAL_CODE_COLUMN cfg ∈ columns df_reference)
                then FoundCodeColumns
                     :: ((fun c => if decide (c ∈ columns df_reference)
                                   then CreatingMapping c else WarnMatchedNotFound c)
                           <$> MATCHED_COLUMNS cfg)
                     ++ (ApplyingMapping
                           <$> filter (fun c => c ∈ columns df_reference)
                                 (MATCHED_COLUMNS cfg))
                else [WarnCodeColumnMissing;
                      InputColumnsAvailable (columns df_input);
                      ReferenceColumnsAvailable (columns df_reference)])) as Hjoined.
  { unfold match_columns in Hm |- *. rewrite print_bind. cbn [log_of]. f_equal.
    apply bind_Ok in Hm as ([] & _ & Hm). case_decide as Hjoin; [|done].
    rewrite print_bind. cbn [log_of]. f_equal.
    apply bind_Ok in Hm as ([] & _ & Hm).
    apply bind_Ok in Hm as (rd & Hrd & Hm).
    rewrite (log_bind _ _ rd Hrd). f_equal.
    - rewrite (for_each_log _ _ _ _ _ (add_mapping_log cfg df_reference) Hrd).
      clear. induction (MATCHED_COLUMNS cfg) as [|c ms IH]; [done|].
      csimpl. rewrite IH. by case_decide.
    - rewrite (for_each_log _ _ _ _ _ (apply_mapping_log cfg df_input rd) Hm).
      apply bind_filter_fmap. intros c Hc.
      pose proof (reference_dict_loop _ _ _ _ _ Hrd c) as Hlook.
      case_decide as Hcr.
      + destruct Hlook as (? & ? & _ & _ & ->). rewrite decide_True; tauto.
      + rewrite Hlook, lookup_empty, decide_False; tauto. }
  unfold build_output. rewrite (log_bind _ _ acc Hacc).
  unfold accumulate. rewrite (log_bind _ _ t Ht), Hfixed.
  unfold project_and_match. rewrite (log_bind _ _ d1 Hd1), Hpres, Hjoined.
  rewrite <- !app_assoc. do 3 f_equal.
Qed.

Lemma build_transcript_witness :
  value_of (build_output sample_config padded_input padded_reference) = Ok padded_output
  /\ log_of (build_output sample_config padded_input padded_reference)
     = [ WarnColumnNotFound (py "品名"); WarnColumnNotFound (py "Column1");
         LookingForCode (py "MaterialCode") (py "MaterialCode");
         FoundCodeColumns;
         CreatingMapping (py "商品编号"); WarnMatchedNotFound (py "申报要素");
         ApplyingMapping (py "商品编号");
         AddingFixed (py "币制") (Str (py "USD"));
         AddingFixed (py "品名") (Str (py "GOODS"));
         Reordering; ColumnOrder column_order; FinalColumns column_order ].
Proof.
  split; [exact padded_run|].
  exact (build_transcript _ _ _ _ padded_run).
Defined.

(** ** Where the cells of the output come from *)

Lemma fixed_fold_cases (fixed : list (pystr * cell)) (s : DataFrame nat) c :
  ((c ∉ fixed.*1)
   /\ column (foldl (fun s it => setitem_scalar s it.1 it.2) s fixed) c = column s c)
  \/ (exists v, (c, v) ∈ fixed
        /\ column (foldl (fun s it => setitem_scalar s it.1 it.2) s fixed) c
           = Some (replicate (len s) v)).
Proof.
  revert s. induction fixed as [|[k v] fixed IH]; intros s.
  { left. split; [apply not_elem_of_nil|done]. }
  simpl. destruct (IH (setitem_scalar s k v)) as [[Hout Hc]|(v' & Hin & Hc)].
  - assert (column (setitem_scalar s k v) c
            = if decide (c = k) then Some (replicate (len s) v) else column s c) as Hstep
      by apply column_set_column.
    rewrite Hstep in Hc. clear Hstep. case_decide as Hk.
    + subst k. right. exists v. split; [left|done].
    + left. split; [|done]. rewrite not_elem_of_cons. by split.
  - right. exists v'. split; [by right|].
    rewrite Hc. unfold setitem_scalar, len. by rewrite index_set_column.
Qed.

Lemma foldl_insert_lookup (kvs : list (cell * cell)) (d : gmap cell cell) k v :
  foldl (fun d kv => <[kv.1 := kv.2]> d) d kvs !! k = Some v ->
  d !! k = Some v \/ (k, v) ∈ kvs.
Proof.
  revert d. induction kvs as [|[k' v'] kvs IH]; intros d Hl; [by left|].
  simpl in Hl. apply IH in Hl as [Hl|Hl]; [|right; by right].
  destruct (decide (k' = k)) as [->|Hne].
  - rewrite lookup_insert_eq in Hl. injection Hl as ->. right. left.
  - rewrite lookup_insert_ne in Hl by done. by left.
Qed.

Lemma to_dict_lookup_elem keys vals k v :
  to_dict (mkSeries keys vals) !! k = Some v -> k ∈ keys /\ v ∈ vals.
Proof.
  unfold to_dict. simpl. intros Hl.
  apply foldl_insert_lookup in Hl as [Hl|Hl]; [by rewrite lookup_empty in Hl|].
  split; [by eapply elem_of_zip_l | by eapply elem_of_zip_r].
Qed.

(** X13 (provenance).  Every cell of the output is null, or the constant of
    a fixed column of that name, or a cell of the reference column of that
    name when the name is a matched column, or a cell of an input column
    that the mapping table sends to that name when the name is a preserved
    column.  Nothing else is ever written. *)
Theorem cell_provenance cfg df_input df_reference out c cells v :
  well_formed df_input ->
  value_of (build_output cfg df_input df_reference) = Ok out ->
  column out c = Some cells ->
  v ∈ cells ->
  v = NaN
  \/ (c, v) ∈ FIXED_COLUMNS cfg
  \/ (c ∈ MATCHED_COLUMNS cfg
      /\ exists vals, column df_reference c = Some vals /\ v ∈ vals)
  \/ (c ∈ PRESERVED_COLUMNS cfg
      /\ exists eng vals,
           (eng, c) ∈ COLUMN_MAPPING /\ column df_input eng = Some vals /\ v ∈ vals).
Proof.
  intros Hwf Hv Hcol Hin.
  apply build_output_Ok in Hv as (acc & Hacc & ->).
  rewrite column_reindex_columns in Hcol. case_decide; [|done].
  injection Hcol as <-.
  destruct (column acc c) as [a|] eqn:Ha; simpl in Hin.
  2:{ left. by apply elem_of_replicate in Hin as [-> _]. }
  apply accumulate_Ok in Hacc as (t & Ht & ->).
  destruct (fixed_fold_cases (FIXED_COLUMNS cfg) t c) as [[_ Hc]|(v' & Hfix & Hc)];
    rewrite Hc in Ha.
  2:{ injection Ha as <-. apply elem_of_replicate in Hin as [-> _]. auto. }
  apply project_and_match_Ok in Ht as (d1 & Hd1 & Ht).
  apply preserved_loop in Hd1 as [Hal1 Hd1]; [|done|apply aligned_new_frame].
  apply match_columns_value in Ht as [_ Ht]; [|done..].
  specialize (Ht c). case_decide as Hjoin.
  - destruct Ht as (codes & keys & vals & _ & _ & Hvals & Ht).
    rewrite Ht in Ha. injection Ha as <-.
    apply list_elem_of_fmap in Hin as (code & -> & _).
    destruct (to_dict _ !! code) as [w|] eqn:Hw; simpl; [|by left].
    apply to_dict_lookup_elem in Hw as [_ Hw].
    right. right. left. split; [tauto|]. by exists vals.
  - rewrite Ht, Hd1 in Ha. case_decide as Hp; [|by rewrite column_new_frame in Ha].
    destruct (source_column df_input c) as [eng|] eqn:Hsrc;
      [|by rewrite column_new_frame in Ha].
    apply find_source_Some in Hsrc as [_ Hmap].
    right. right. right. split; [done|]. by exists eng, a.
Qed.

Lemma cell_provenance_witness :
  well_formed padded_input
  /\ value_of (build_output sample_config padded_input padded_reference) = Ok padded_output
  /\ column padded_output (py "商品编号") = Some [NaN; Int 200]
  /\ Int 200 ∈ [NaN; Int 200]
  /\ (Int 200 = NaN
      \/ (py "商品编号", Int 200) ∈ FIXED_COLUMNS sample_config
      \/ (py "商品编号" ∈ MATCHED_COLUMNS sample_config
          /\ exists vals, column padded_reference (py "商品编号") = Some vals
                          /\ Int 200 ∈ vals)
      \/ (py "商品编号" ∈ PRESERVED_COLUMNS sample_config
          /\ exists eng vals,
               (eng, py "商品编号") ∈ COLUMN_MAPPING
               /\ column padded_input eng = Some vals /\ Int 200 ∈ vals)).
Proof.
  assert (well_formed padded_input) as Hwf by (repeat constructor).
  assert (column padded_output (py "商品编号") = Some [NaN; Int 200]) as Hcol
    by (vm_compute; reflexivity).
  assert (Int 200 ∈ [NaN; Int 200]) as Hin by by_compute.
  split; [exact Hwf|]. split; [exact padded_run|]. split; [exact Hcol|].
  split; [exact Hin|].
  exact (cell_provenance _ _ _ _ _ _ _ Hwf padded_run Hcol Hin).
Defined.

(** ** The configuration in effect *)

(** X14 (import of config.py).  The warning of line 42 is printed exactly
    when config.py is missing or lacks one of the four names.  The names
    are taken over in the order of the import statement up to the first
    one config.py lacks: that name and all later ones keep their built-in
    values, also those config.py defines, while the earlier ones are
    overridden although the warning announces the default configuration. *)
Theorem config_import (config_py : option config_module) :
  let cfg := (load_config config_py).1 in
  let warned := (load_config config_py).2 in
  let defined {A} (name : config_module -> option A) :=
    bool_decide (is_Some (module_attr config_py name)) in
  (warned = false <->
   exists p k ms fx,
     config_py = Some (mkModule (Some p) (Some k) (Some ms) (Some fx))
     /\ cfg = mkConfig p k ms fx)
  /\ PRESERVED_COLUMNS cfg
     = default (PRESERVED_COLUMNS default_config)
         (module_attr config_py mod_PRESERVED_COLUMNS)
  /\ MATERIAL_CODE_COLUMN cfg
     = (if defined mod_PRESERVED_COLUMNS
        then default (MATERIAL_CODE_COLUMN default_config)
               (module_attr config_py mod_MATERIAL_CODE_COLUMN)
        else MATERIAL_CODE_COLUMN default_config)
  /\ MATCHED_COLUMNS cfg
     = (if defined mod_PRESERVED_COLUMNS && defined mod_MATERIAL_CODE_COLUMN
        then default (MATCHED_COLUMNS default_config)
               (module_attr config_py mod_MATCHED_COLUMNS)
        else MATCHED_COLUMNS default_config)
  /\ FIXED_COLUMNS cfg
     = (if defined mod_PRESERVED_COLUMNS && defined mod_MATERIAL_CODE_COLUMN
           && defined mod_MATCHED_COLUMNS
        then default (FIXED_COLUMNS default_config)
               (module_attr config_py mod_FIXED_COLUMNS)
        else FIXED_COLUMNS default_config).
Proof.
  destruct config_py as [[[p|] [k|] [ms|] [fx|]]|]; simpl;
    (split; [split; [try done; intros _; by eexists _, _, _, _
                    | by intros (? & ? & ? & ? & ? & _)]
            | done]).
Qed.

Lemma config_import_witness :
  ((load_config (Some partial_module)).2 = false <->
   exists p k ms fx,
     Some partial_module = Some (mkModule (Some p) (Some k) (Some ms) (Some fx))
     /\ (load_config (Some partial_module)).1 = mkConfig p k ms fx)
  /\ PRESERVED_COLUMNS (load_config (Some partial_module)).1 = [py "项号"; py "品名"]
  /\ MATERIAL_CODE_COLUMN (load_config (Some partial_module)).1 = py "MaterialCode"
  /\ MATCHED_COLUMNS (load_config (Some partial_module)).1
     = [py "MatchedColumn1"; py "MatchedColumn2"]
  /\ FIXED_COLUMNS (load_config (Some partial_module)).1
     = [(py "FixedColumn1", Str (py "Fixed Value 1"));
        (py "FixedColumn2", Str (py "Fixed Value 2"))].
Proof. exact (config_import (Some partial_module)). Defined.

(** ** Columns no configuration entry names *)

Lemma unlisted_column_null cfg df_input df_reference out c :
  well_formed df_input ->
  value_of (build_output cfg df_input df_reference) = Ok out ->
  c ∈ column_order ->
  c ∉ PRESERVED_COLUMNS cfg -> c ∉ MATCHED_COLUMNS cfg -> c ∉ (FIXED_COLUMNS cfg).*1 ->
  column out c = Some (replicate (len out) NaN).
Proof.
  intros Hwf Hv Hc Hp Hm Hf.
  apply build_output_Ok in Hv as (acc & Hacc & ->).
  rewrite column_reindex_columns, decide_True by done.
  apply accumulate_Ok in Hacc as (t & Ht & ->).
  rewrite fixed_fold_other by done.
  apply project_and_match_Ok in Ht as (d1 & Hd1 & Ht).
  apply preserved_loop in Hd1 as [Hal1 Hd1]; [|done|apply aligned_new_frame].
  apply match_columns_value in Ht as [_ Ht]; [|done..].
  specialize (Ht c). rewrite decide_False in Ht by tauto.
  by rewrite Ht, Hd1, decide_False, column_new_frame.
Qed.

(** X15 (built-in configuration).  When config.py is missing, or lacks the
    first imported name, the conversion runs on the built-in names, none of
    which is a canonical column or a target of the mapping table: whatever
    the input and the reference hold, every cell of the output is null. *)
Theorem built_in_configuration_blank (config_py : option config_module)
    df_input df_reference out c cells :
  (forall m, config_py = Some m -> mod_PRESERVED_COLUMNS m = None) ->
  well_formed df_input ->
  value_of (build_output (load_config config_py).1 df_input df_reference) = Ok out ->
  column out c = Some cells ->
  (load_config config_py).2 = true
  /\ cells = replicate (len out) NaN.
Proof.
  intros Hpy Hwf Hv Hcol.
  assert (load_config config_py = (default_config, true)) as Hcfg.
  { destruct config_py as [m|]; [|done]. simpl. unfold import_from.
    by rewrite (Hpy m eq_refl). }
  rewrite Hcfg in Hv |- *. simpl in Hv. split; [done|].
  assert (c ∈ column_order) as Hc.
  { apply build_output_Ok in Hv as (acc & _ & ->).
    rewrite <- (columns_reindex_columns acc column_order).
    apply column_is_Some. eauto. }
  assert (Forall (fun c => (c ∉ PRESERVED_COLUMNS default_config)
                           /\ (c ∉ MATCHED_COLUMNS default_config)
                           /\ (c ∉ (FIXED_COLUMNS default_config).*1)) column_order)
    as Hnone by by_compute.
  rewrite Forall_forall in Hnone. destruct (Hnone c Hc) as (Hp & Hm & Hf).
  rewrite (unlisted_column_null _ _ _ _ _ Hwf Hv Hc Hp Hm Hf) in Hcol.
  by injection Hcol as <-.
Qed.

Lemma built_in_configuration_blank_witness :
  (forall m, @None config_module = Some m -> mod_PRESERVED_COLUMNS m = None)
  /\ well_formed sample_input
  /\ value_of (build_output (load_config None).1 sample_input placeholder_reference)
     = Ok blank_output
  /\ column blank_output (py "项号") = Some (replicate 3 NaN)
  /\ (load_config None).2 = true
  /\ replicate 3 NaN = replicate (len blank_output) NaN.
Proof.
  assert (forall m, @None config_module = Some m -> mod_PRESERVED_COLUMNS m = None)
    as Hpy by (intros m Hm; discriminate Hm).
  assert (well_formed sample_input) as Hwf by (repeat constructor).
  assert (value_of (build_output (load_config None).1 sample_input placeholder_reference)
          = Ok blank_output) as Hv by (vm_compute; reflexivity).
  assert (column blank_output (py "项号") = Some (replicate 3 NaN)) as Hcol
    by (vm_compute; reflexivity).
  split; [exact Hpy|]. split; [exact Hwf|]. split; [exact Hv|]. split; [exact Hcol|].
  exact (built_in_configuration_blank None _ _ _ _ _ Hpy Hwf Hv Hcol).
Defined.

(** ** Item numbers as join keys *)

Lemma fmap_constant {A B} (f : A -> B) (y : B) (l : list A) :
  (forall x, x ∈ l -> f x = y) -> f <$> l = replicate (length l) y.
Proof.
  induction l as [|x l IH]; intros Hf; [done|]. csimpl.
  rewrite (Hf x) by left. f_equal. apply IH. intros z Hz. apply Hf. by right.
Qed.

(** X16 (item numbers are joined as text).  When the configured code
    column is the item number, the join reads its codes from the [NO.]
    column, which the row filter has rewritten as trimmed text.  A
    reference table whose item numbers are numbers (or missing) therefore
    matches no row: every matched column that is not also a fixed column is
    null throughout the output, although the same numbers occur in both
    sheets. *)
Theorem item_numbers_joined_as_text cfg df_loaded df_input df_reference out c keys :
  MATERIAL_CODE_COLUMN cfg = py "项号" ->
  well_formed df_loaded ->
  index df_loaded = seq 0 (len df_loaded) ->
  py "NO." ∈ columns df_loaded ->
  truncate_rows df_loaded = Ok df_input ->
  value_of (build_output cfg df_input df_reference) = Ok out ->
  c ∈ MATCHED_COLUMNS cfg -> c ∈ columns df_reference ->
  c ∈ column_order -> c ∉ (FIXED_COLUMNS cfg).*1 ->
  column df_reference (py "项号") = Some keys ->
  Forall (fun k => forall s, k ≠ Str s) keys ->
  material_code_eng cfg = py "NO."
  /\ column out c = Some (replicate (len out) NaN).
Proof.
  intros HK Hwf Hidx Hno Htrunc Hv Hm Hcr Hc Hfix Hkeys Hnum.
  assert (material_code_eng cfg = py "NO.") as Heng.
  { unfold material_code_eng. rewrite HK. vm_compute. reflexivity. }
  split; [done|].
  pose proof (truncate_rows_once _ _ Htrunc Hno) as Hone.
  destruct (getitem_once df_loaded (py "NO.") Hone) as (nos & Hnos & _).
  pose proof (truncate_rows_shape _ _ Hwf Hidx Htrunc) as [Hwf' _].
  rewrite (truncate_rows_value df_loaded nos Hidx Hwf Hone Hnos) in Htrunc.
  injection Htrunc as Hdf.
  set (k := default (length nos) (first_blank (item_text <$> nos))) in *.
  assert (column df_input (py "NO.") = Some (Str <$> take k (item_text <$> nos)))
    as Hcodes.
  { subst df_input.
    rewrite column_iloc_upto, column_set_column, decide_True by done. simpl.
    by rewrite fmap_take. }
  apply build_output_Ok in Hv as (acc & Hacc & ->).
  rewrite column_reindex_columns, decide_True by done.
  apply accumulate_Ok in Hacc as (t & Ht & ->).
  rewrite fixed_fold_other by done.
  pose proof (project_and_match_aligned _ _ _ _ Hwf' Ht) as Hal.
  apply project_and_match_Ok in Ht as (d1 & Hd1 & Ht).
  apply preserved_loop in Hd1 as [Hal1 _]; [|done|apply aligned_new_frame].
  apply match_columns_value in Ht as [_ Ht]; [|done..].
  specialize (Ht c). rewrite Heng, HK in Ht.
  rewrite decide_True in Ht.
  2:{ split_and!; try done; apply column_is_Some; eauto. }
  destruct Ht as (codes & keys' & vals & Hcodes' & Hkeys' & _ & Ht).
  rewrite Hcodes in Hcodes'. injection Hcodes' as <-.
  rewrite Hkeys in Hkeys'. injection Hkeys' as <-.
  rewrite Ht. simpl. f_equal.
  assert (index t = index df_input) as Hit.
  { destruct Hal as [_ [?|Hnew]]; [done|]. by rewrite Hnew, column_new_frame in Ht. }
  unfold len. simpl. rewrite fixed_fold_index, Hit. fold (len df_input).
  rewrite <- (well_formed_column _ _ _ Hwf' Hcodes).
  apply fmap_constant. intros code Hcode.
  apply list_elem_of_fmap in Hcode as (s & -> & _).
  rewrite to_dict_absent; [done|].
  intros Hin. rewrite Forall_forall in Hnum. by apply (Hnum _ Hin s).
Qed.

Lemma item_numbers_joined_as_text_witness :
  exists df_input out,
    MATERIAL_CODE_COLUMN item_keyed_config = py "项号"
    /\ well_formed listed_input
    /\ index listed_input = seq 0 (len listed_input)
    /\ py "NO." ∈ columns listed_input
    /\ truncate_rows listed_input = Ok df_input
    /\ value_of (build_output item_keyed_config df_input numbered_reference) = Ok out
    /\ py "商品编号" ∈ MATCHED_COLUMNS item_keyed_config
    /\ py "商品编号" ∈ columns numbered_reference
    /\ py "商品编号" ∈ column_order
    /\ (py "商品编号" ∉ (FIXED_COLUMNS item_keyed_config).*1)
    /\ column numbered_reference (py "项号") = Some [Int 1; Int 2]
    /\ Forall (fun k => forall s, k ≠ Str s) [Int 1; Int 2]
    /\ column df_input (py "NO.") = Some [Str (py "1"); Str (py "2")]
    /\ material_code_eng item_keyed_config = py "NO."
    /\ column out (py "商品编号") = Some (replicate (len out) NaN).
Proof.
  eexists _, _.
  assert (MATERIAL_CODE_COLUMN item_keyed_config = py "项号") as HK by reflexivity.
  assert (well_formed listed_input) as Hwf by (repeat constructor).
  assert (index listed_input = seq 0 (len listed_input)) as Hidx by reflexivity.
  assert (py "NO." ∈ columns listed_input) as Hno by by_compute.
  assert (truncate_rows listed_input = Ok _) as Htrunc by (vm_compute; reflexivity).
  assert (value_of (build_output item_keyed_config
                      (mkDataFrame [0; 1]
                         [ (py "NO.", [Str (py "1"); Str (py "2")]);
                           (py "DESCRIPTION", [Str (py "bolt"); Str (py "nut")]) ])
                      numbered_reference) = Ok _) as Hv by (vm_compute; reflexivity).
  assert (py "商品编号" ∈ MATCHED_COLUMNS item_keyed_config) as Hm by by_compute.
  assert (py "商品编号" ∈ columns numbered_reference) as Hcr by by_compute.
  assert (py "商品编号" ∈ column_order) as Hc by by_compute.
  assert (py "商品编号" ∉ (FIXED_COLUMNS item_keyed_config).*1) as Hfix by by_compute.
  assert (column numbered_reference (py "项号") = Some [Int 1; Int 2]) as Hkeys
    by (vm_compute; reflexivity).
  assert (Forall (fun k => forall s, k ≠ Str s) [Int 1; Int 2]) as Hnum
    by (repeat constructor; discriminate).
  split; [exact HK|]. split; [exact Hwf|]. split; [exact Hidx|]. split; [exact Hno|].
  split; [exact Htrunc|]. split; [exact Hv|]. split; [exact Hm|]. split; [exact Hcr|].
  split; [exact Hc|]. split; [exact Hfix|]. split; [exact Hkeys|]. split; [exact Hnum|].
  split; [vm_compute; reflexivity|].
  exact (item_numbers_joined_as_text _ _ _ _ _ _ _
           HK Hwf Hidx Hno Htrunc Hv Hm Hcr Hc Hfix Hkeys Hnum).
Defined.
